(** * trainingcenter-backend: the VATEUD Core sync client and the VATSIM Connect login flow

    A shallow embedding of
      - src/libraries/vateud/VateudCoreLibrary.ts  (module [Vateud]),
      - the [VatsimConnectLibrary] class            (module [Connect]),
      - the settings controller                     (module [SettingsController]),
      - the user information controller             (module [UserInformationController]) and
      - the CPT administration controller           (module [CPTAdminController]),
    followed by the properties proved about them.

    Asynchronous functions are embedded in a state-and-exception monad: an
    [await]ed call is a monadic bind, [throw] ends the computation with the
    state reached so far, and [try { } catch (e) { }] is [try_catch]. *)

From Stdlib Require Import ZArith NArith Ascii String Sorted Lia.
From Stdlib Require Import Floats.SpecFloat.
From stdpp Require Import base option list strings gmap pretty.

Local Open Scope string_scope.
Local Open Scope Z_scope.

(** ** Promises: state passing with exceptions *)

Inductive Completion (E A : Type) : Type :=
| Return (a : A)
| Throw (e : E).
Arguments Return {E A} a.
Arguments Throw {E A} e.

Section Async.
Context {S E : Type}.

Definition Async (A : Type) : Type := S -> Completion E A * S.

Definition ret {A} (a : A) : Async A := fun s => (Return a, s).

Definition throw {A} (e : E) : Async A := fun s => (Throw e, s).

Definition bind {A B} (c : Async A) (k : A -> Async B) : Async B :=
  fun s =>
    match c s with
    | (Return a, s') => k a s'
    | (Throw e, s') => (Throw e, s')
    end.

Definition try_catch {A} (body : Async A) (handler : E -> Async A) : Async A :=
  fun s =>
    match body s with
    | (Return a, s') => (Return a, s')
    | (Throw e, s') => handler e s'
    end.

Definition get : Async S := fun s => (Return s, s).

Definition modify (f : S -> S) : Async unit := fun s => (Return tt, f s).
End Async.
Arguments Async : clear implicits.

Declare Scope async_scope.
Delimit Scope async_scope with async.
Notation "x <- c1 ;; c2" := (bind c1 (fun x => c2))
  (at level 100, c1 at next level, right associativity) : async_scope.
Notation "c1 ;; c2" := (bind c1 (fun _ => c2))
  (at level 100, right associativity) : async_scope.
Local Open Scope async_scope.

(** ** VateudCoreLibrary.ts *)

Module Vateud.

(** The two axios [Method] literals the library uses. *)
Inductive Method : Type := m_post | m_delete.

Inductive VateudCoreTypeEnum : Type := SOLO_CREATE | SOLO_REMOVE.

Inductive JobTypeEnum : Type := VATEUD_CORE.

Inductive LogLevels : Type := LOG_ERROR.

(** [VateudCoreLibraryTypes] is not part of the sources at hand; the
    records below carry exactly the fields [createSolo] and [removeSolo]
    read and write.  Remote identifiers are strings: they are spliced into
    the endpoint [/solo/${vateud_solo_id}]. *)
Record PostData : Type := {
  user_id : Z;
  position : string;
  instructor_cid : Z;
  expires_at : string;
}.

Record VateudCoreSoloCreateT : Type := {
  local_solo_id : Z;
  post_data : PostData;
}.

Record VateudCoreSoloRemoveT : Type := {
  rm_local_solo_id : Z;
  rm_vateud_solo_id : string;
}.

Record CreateResponseData : Type := { id : string }.

(** [res.data.id] is the only part of a create response that is read. *)
Record VateudCoreSoloCreateResponseT : Type := { data : CreateResponseData }.

(** Nothing of a remove response is read. *)
Inductive VateudCoreSoloRemoveResponseT : Type :=
| RemoveResponse (body : string).

Record SendT : Type := {
  method : Method;
  endpoint : string;
  send_data : option PostData;
}.

(** The request handed to [axios]. *)
Record AxiosRequestConfig : Type := {
  x_api_key : string;
  url : string;
  req_method : Method;
  req_data : option PostData;
}.

(** [res.data], the body of an answer as axios hands it over.  An empty
    body (that of a 204 No Content is the empty string), [null], [0] and
    [false] are falsy.  A truthy body is of the declared type [T], or it is
    some other value, which has none of the members of [T]. *)
Inductive Body (T : Type) : Type :=
| Falsy
| Untyped
| Typed (v : T).
Arguments Falsy {T}.
Arguments Untyped {T}.
Arguments Typed {T} v.

(** What the remote end does with a request: no answer at all, or an
    answer with a status code and a body. *)
Inductive HttpOutcome (T : Type) : Type :=
| NetworkError
| HttpResponse (status : Z) (body : T).
Arguments NetworkError {T}.
Arguments HttpResponse {T} status body.

(** The job payload: [{ type, method, data: { solo_create?, solo_remove? } }]. *)
Record SoloCreatePayload : Type := {
  sc_local_solo_id : Z;
  sc_user_id : Z;
  sc_position : string;
  sc_instructor_cid : Z;
  sc_expire_at : string;
}.

Record SoloRemovePayload : Type := {
  sr_local_solo_id : Z;
  sr_vateud_solo_id : string;
}.

Record JobData : Type := {
  solo_create : option SoloCreatePayload;
  solo_remove : option SoloRemovePayload;
}.

Record JobPayload : Type := {
  type : VateudCoreTypeEnum;
  job_method : Method;
  job_data : JobData;
}.

Record Job : Type := {
  job_type : JobTypeEnum;
  payload : JobPayload;
}.

(** Modelled from the spec: the [UserSolo] model is missing from the
    sources.  A row carries a local identifier and, once synchronized, a
    remote identifier [vateud_solo_id]; its remaining columns are kept as
    opaque name/value pairs. *)
Record UserSolo : Type := {
  solo_id : Z;
  vateud_solo_id : option string;
  columns : list (string * string);
}.

(** [Config.VATEUD_CORE_CONFIG.API_KEY] and [Config.URI_CONFIG.VATEUD_API_BASE],
    together with the behaviour of the remote end for the two response
    types. *)
Record Env : Type := {
  API_KEY : option string;
  VATEUD_API_BASE : string;
  remote_create : AxiosRequestConfig -> HttpOutcome (Body VateudCoreSoloCreateResponseT);
  remote_remove : AxiosRequestConfig -> HttpOutcome (Body VateudCoreSoloRemoveResponseT);
}.

Record World : Type := {
  jobs : list Job;
  user_solos : list UserSolo;
  log : list (LogLevels * string);
  sent : list AxiosRequestConfig;
}.

(** What is thrown: the rejection of an axios call, and the [TypeError] of
    reading a member of [undefined]. *)
Inductive Exn : Type := AxiosError | TypeError.

Record AxiosResponse (T : Type) : Type := { res_data : T }.
Arguments res_data {T} _.

Definition add_job (j : Job) (w : World) : World :=
  {| jobs := jobs w ++ [j]; user_solos := user_solos w; log := log w; sent := sent w |}.

Definition add_log (l : LogLevels * string) (w : World) : World :=
  {| jobs := jobs w; user_solos := user_solos w; log := log w ++ [l]; sent := sent w |}.

Definition add_sent (r : AxiosRequestConfig) (w : World) : World :=
  {| jobs := jobs w; user_solos := user_solos w; log := log w; sent := sent w ++ [r] |}.

Definition set_solos (us : list UserSolo) (w : World) : World :=
  {| jobs := jobs w; user_solos := us; log := log w; sent := sent w |}.

Definition M := Async World Exn.

(** [axios(config)]: the request goes out; the promise resolves with the
    body for a status in [200, 300) (axios' default [validateStatus]) and
    rejects otherwise. *)
Definition axios {T} (remote : AxiosRequestConfig -> HttpOutcome T)
    (config : AxiosRequestConfig) : M (AxiosResponse T) :=
  modify (add_sent config) ;;
  match remote config with
  | NetworkError => throw AxiosError
  | HttpResponse status body =>
      if (200 <=? status) && (status <? 300)
      then ret {| res_data := body |}
      else throw AxiosError
  end.

Definition Logger_log (level : LogLevels) (message : string) : M unit :=
  modify (add_log (level, message)).

(** Modelled from the spec: [JobLibrary.scheduleJob] is missing from the
    sources; it persists a DeliveryJob describing the exact same kind and
    payload, to be re-attempted later by the scheduler tick. *)
Definition scheduleJob (t : JobTypeEnum) (p : JobPayload) : M unit :=
  modify (add_job {| job_type := t; payload := p |}).

Definition set_vateud_solo_id (v : string) (r : UserSolo) : UserSolo :=
  {| solo_id := solo_id r; vateud_solo_id := Some v; columns := columns r |}.

(** [UserSolo.update({ vateud_solo_id: v }, { where: { id: k } })]. *)
Definition UserSolo_update (v : string) (k : Z) : M unit :=
  modify (fun w =>
    set_solos
      (map (fun r => if decide (solo_id r = k) then set_vateud_solo_id v r else r)
           (user_solos w))
      w).

Section WithEnv.
Variable env : Env.

Definition request (key : string) (props : SendT) : AxiosRequestConfig :=
  {| x_api_key := key;
     url := VATEUD_API_BASE env ++ "/" ++ endpoint props;
     req_method := method props;
     req_data := send_data props |}.

(** [_send<T>]: [undefined] is [None], and [res.data] is handed on as it
    came.  The callers instantiate [T] with the bodies of the two answers. *)
Definition _send {T} (remote : AxiosRequestConfig -> HttpOutcome T)
    (props : SendT) : M (option T) :=
  match API_KEY env with
  | None =>
      Logger_log LOG_ERROR
        ("VATEUD Core API Key missing, but attempted to update: "
           ++ endpoint props ++ ". Aborting.") ;;
      ret None
  | Some key =>
      try_catch
        (res <- axios remote (request key props) ;;
         ret (Some (res_data res)))
        (fun e => ret None)
  end.

Definition create_props (soloInfo : VateudCoreSoloCreateT) : SendT :=
  {| endpoint := "/solo"; method := m_post; send_data := Some (post_data soloInfo) |}.

Definition create_job (soloInfo : VateudCoreSoloCreateT) : JobPayload :=
  {| type := SOLO_CREATE;
     job_method := m_post;
     job_data :=
       {| solo_create :=
            Some {| sc_local_solo_id := local_solo_id soloInfo;
                    sc_user_id := user_id (post_data soloInfo);
                    sc_position := position (post_data soloInfo);
                    sc_instructor_cid := instructor_cid (post_data soloInfo);
                    sc_expire_at := expires_at (post_data soloInfo) |};
          solo_remove := None |} |}.

(** [!res] holds for [undefined] and for a falsy body.  On a truthy body
    without [data], [res.data.id] throws a [TypeError] before
    [UserSolo.update] is called. *)
Definition createSolo (soloInfo : VateudCoreSoloCreateT)
    : M (option VateudCoreSoloCreateResponseT) :=
  res <- _send (remote_create env) (create_props soloInfo) ;;
  match res with
  | None | Some Falsy =>
      scheduleJob VATEUD_CORE (create_job soloInfo) ;;
      ret None
  | Some Untyped => throw TypeError
  | Some (Typed r) =>
      UserSolo_update (id (data r)) (local_solo_id soloInfo) ;;
      ret (Some r)
  end.

Definition remove_props (soloInfo : VateudCoreSoloRemoveT) : SendT :=
  {| endpoint := "/solo/" ++ rm_vateud_solo_id soloInfo;
     method := m_delete;
     send_data := None |}.

Definition remove_job (soloInfo : VateudCoreSoloRemoveT) : JobPayload :=
  {| type := SOLO_REMOVE;
     job_method := m_delete;
     job_data :=
       {| solo_create := None;
          solo_remove :=
            Some {| sr_local_solo_id := rm_local_solo_id soloInfo;
                    sr_vateud_solo_id := rm_vateud_solo_id soloInfo |} |} |}.

(** [removeSolo] has no [return]: its caller always gets [undefined]. *)
Definition removeSolo (soloInfo : VateudCoreSoloRemoveT) : M unit :=
  res <- _send (remote_remove env) (remove_props soloInfo) ;;
  match res with
  | None | Some Falsy => scheduleJob VATEUD_CORE (remove_job soloInfo)
  | Some _ => ret tt
  end.
End WithEnv.

(** The administrative call a job stands for, rebuilt from the job's
    payload alone. *)
Inductive Call : Type :=
| CallCreate (soloInfo : VateudCoreSoloCreateT)
| CallRemove (soloInfo : VateudCoreSoloRemoveT).




(** The request is answered with a status in 2xx and the body [body]. *)
Definition Answered {T} (env : Env) (remote : AxiosRequestConfig -> HttpOutcome T)
    (props : SendT) (body : T) : Prop :=
  exists key status,
    API_KEY env = Some key /\
    remote (request env key props) = HttpResponse status body /\
    200 <= status < 300.

(** The inline request succeeds: it is answered with a status in 2xx and a
    body of the declared type. *)
Definition InlineSuccess {T} (env : Env)
    (remote : AxiosRequestConfig -> HttpOutcome (Body T))
    (props : SendT) (body : T) : Prop :=
  exists key status,
    API_KEY env = Some key /\
    remote (request env key props) = HttpResponse status (Typed body) /\
    200 <= status < 300.

End Vateud.

(** ** String helpers of the JavaScript runtime *)

Definition lower_ascii (c : ascii) : ascii :=
  let n := N_of_ascii c in
  if ((65 <=? n) && (n <=? 90))%N then ascii_of_N (n + 32) else c.

(** The Kelvin sign, U+212A, in UTF-8: the one character outside ASCII
    whose lower case is a letter of ASCII, [k]. *)
Definition is_kelvin_sign (a b c : ascii) : bool :=
  ((N_of_ascii a =? 226) && (N_of_ascii b =? 132) && (N_of_ascii c =? 170))%N.

(** [s.toLowerCase()] for a string in UTF-8: the letters [A] to [Z] and the
    Kelvin sign are lowered.  Every other character is left as it is; its
    lower case has no letter of ASCII but the [i] of U+0130, so a test of the
    result against "true" or for "revoked" comes out as in JavaScript. *)
Fixpoint toLowerCase (s : string) : string :=
  match s with
  | EmptyString => EmptyString
  | String a rest =>
      match rest with
      | String b (String c s') =>
          if is_kelvin_sign a b c then String "k" (toLowerCase s')
          else String (lower_ascii a) (toLowerCase rest)
      | _ => String (lower_ascii a) (toLowerCase rest)
      end
  end.

(** [s.includes(needle)]. *)
Fixpoint includes (needle s : string) : bool :=
  String.prefix needle s ||
  match s with
  | EmptyString => false
  | String _ s' => includes needle s'
  end.

(** [s.split(sep)] for a one-character separator: never empty, and two
    adjacent separators give an empty piece. *)
Fixpoint split (sep : ascii) (s : string) : list string :=
  match s with
  | EmptyString => [EmptyString]
  | String c s' =>
      if Ascii.eqb c sep then EmptyString :: split sep s'
      else match split sep s' with
           | [] => [String c EmptyString]
           | piece :: pieces => String c piece :: pieces
           end
  end.

(** [a.indexOf(x)] on an array of strings, counting from [i]. *)
Fixpoint indexOf_from (i : Z) (a : list string) (x : string) : Z :=
  match a with
  | [] => -1
  | y :: a' => if String.eqb y x then i else indexOf_from (i + 1) a' x
  end.

Definition indexOf (a : list string) (x : string) : Z := indexOf_from 0 a x.

(** ** VatsimConnectLibrary *)

(** Rows of the tables the login flow touches.  The models themselves are
    not part of the sources at hand; each row has the columns the flow
    writes. *)
Module User.
Record row : Type := {
  id : Z;
  first_name : string;
  last_name : string;
  email : string;
  access_token : option string;
  refresh_token : option string;
}.
End User.

Module UserData.
Record row : Type := {
  user_id : Z;
  rating_atc : Z;
  rating_pilot : Z;
  country_code : string;
  country_name : string;
  region_name : string;
  region_code : string;
  division_name : string;
  division_code : string;
  subdivision_name : string;
  subdivision_code : string;
}.
End UserData.

Module UserSettings.
Record row : Type := {
  user_id : Z;
  language : string;
  additional_emails : list string;
  email_notifications_enabled : bool;
}.
End UserSettings.

(** Modelled from the spec: a session is (user identifier, browser
    identifier, session token, remember-flag). *)
Module UserSession.
Record row : Type := {
  user_id : Z;
  browser_uuid : string;
  uuid : string;
  remember : bool;
}.
End UserSession.

Module Connect.

Inductive ConnectLibraryErrors : Type :=
| ERR_NO_CODE
| ERR_INV_CODE
| ERR_INV_SCOPES
| ERR_SUSPENDED
| ERR_UNABLE_CREATE_SESSION.

(** The body of an error response of the provider, as far as it is read:
    [e.response.data.hint]. *)
Record ErrorBody : Type := { hint : option string }.

(** What can be thrown.  [VatsimConnectException None] is
    [new VatsimConnectException()], constructed without an error kind.
    A rejected axios call carries the provider's response when there was
    one ([e.response]); a timeout or a network error carries none.
    [Error] is the plain error the persistence layer throws for a misuse of a
    transaction. *)
Inductive Exn : Type :=
| VatsimConnectException (kind : option ConnectLibraryErrors)
| TypeError
| AxiosError (response : option ErrorBody)
| DatabaseError
| Error (message : string).

(** How a call of the axios instance settles. *)
Inductive Settled (T : Type) : Type :=
| Resolved (v : T)
| Rejected (response : option ErrorBody).
Arguments Resolved {T} v.
Arguments Rejected {T} response.

Record ConnectOptions : Type := {
  client_id : string;
  client_secret : string;
  redirect_uri : string;
  base_uri : option string;
  client_scopes : string;
}.

(** [VatsimOauthToken]: the payload of a token exchange.  [VatsimScopes] is
    an array of strings: [_validateSuppliedScopes] casts the result of
    [split(" ")] to it, and searches the supplied scopes with [indexOf]. *)
Record VatsimOauthToken : Type := {
  access_token : option string;
  refresh_token : option string;
  scopes : option (list string);
}.

Record CodeName : Type := { code : string; name : string }.

Record Personal : Type := {
  name_first : string;
  name_last : string;
  email : string;
  country : CodeName;
}.

(** [data.vatsim].  [rating] and [pilotrating] stand for [rating.id] and
    [pilotrating.id].  [vatsim_token_valid] is the [token_valid] member the
    interface description lists under [data.vatsim]; no code reads it. *)
Record Vatsim : Type := {
  rating : Z;
  pilotrating : Z;
  region : CodeName;
  division : CodeName;
  subdivision : CodeName;
  vatsim_token_valid : option string;
}.

Record OAuth : Type := { token_valid : option string }.

(** [VatsimUserData]: the [data] member of the profile document.  The
    members [_validateUserData] tests may be missing, and so may [oauth],
    which is read without a test. *)
Record VatsimUserData : Type := {
  cid : option Z;
  personal : option Personal;
  vatsim : option Vatsim;
  oauth : option OAuth;
}.

(** The request, as far as it is read: [headers["unique-browser-token"]]. *)
Record Request : Type := { unique_browser_token : option string }.

(** The response object is only written to; see [Response_send]. *)
Inductive Response : Type := TheResponse.

(** The body of [POST /oauth/token]. *)
Record TokenRequest : Type := {
  tr_code : string;
  tr_grant_type : string;
  tr_client_id : string;
  tr_client_secret : string;
  tr_redirect_uri : string;
}.

(** What [User.scope("sensitive").findOne] returns, with the associations
    kept in the tables of this model (roles and permissions are not). *)
Record UserWithAssociations : Type := {
  the_user : User.row;
  the_user_data : option UserData.row;
  the_user_settings : option UserSettings.row;
}.

(** Calls made to the collaborators, in the order they are made. *)
Inductive Call : Type :=
| Post_oauth_token (body : TokenRequest)
| Get_api_user (bearer : string)
| CheckIsUserBanned (user : option Z)
| Sequelize_transaction
| User_upsert_call (u : User.row)
| UserData_upsert_call (d : UserData.row)
| Commit
| Rollback
| UserSettings_findOrCreate_call (user : option Z)
| User_findOne_call (user : option Z)
| UserSession_destroy_call (user : Z) (browser : string)
| CreateSessionToken_call (user : Z) (remember : bool)
| Response_sendStatus_call (status : Z)
| Response_send_call (body : option UserWithAssociations).

Record World : Type := {
  users : gmap Z User.row;
  user_data : gmap Z UserData.row;
  user_settings : gmap Z UserSettings.row;
  user_sessions : list UserSession.row;
  console : list Exn;
  calls : list Call;
}.

(** The fields of a [VatsimConnectLibrary] instance that change. *)
Record Instance : Type := {
  m_accessToken : option string;
  m_refreshToken : option string;
  m_suppliedScopes : option (list string);
  m_userData : option VatsimUserData;
  m_response : option Response;
  m_request : option Request;
}.

Record State : Type := { this : Instance; world : World }.

(** The read-only fields of the instance, and the collaborators: the
    identity provider behind the axios instance, [checkIsUserBanned], which
    statements of the reconciliation transaction the database rejects, and
    the token [createSessionToken] mints ([None]: no session). *)
Record Env : Type := {
  m_connectOptions : ConnectOptions;
  m_remember : bool;
  oauth_token : TokenRequest -> Settled (option VatsimOauthToken);
  api_user : string -> Settled (option VatsimUserData);
  checkIsUserBanned : option Z -> bool;
  user_upsert_rejects : bool;
  userdata_upsert_rejects : bool;
  commit_rejects : bool;
  mint_session : Z -> string -> option string;
}.

Definition M := Async State Exn.

(** *** State updates *)

Definition with_world (f : World -> World) (s : State) : State :=
  {| this := this s; world := f (world s) |}.

Definition with_this (f : Instance -> Instance) (s : State) : State :=
  {| this := f (this s); world := world s |}.

Definition add_call (c : Call) (w : World) : World :=
  {| users := users w; user_data := user_data w; user_settings := user_settings w;
     user_sessions := user_sessions w; console := console w; calls := calls w ++ [c] |}.

Definition add_console (e : Exn) (w : World) : World :=
  {| users := users w; user_data := user_data w; user_settings := user_settings w;
     user_sessions := user_sessions w; console := console w ++ [e]; calls := calls w |}.

Definition set_users (us : gmap Z User.row) (w : World) : World :=
  {| users := us; user_data := user_data w; user_settings := user_settings w;
     user_sessions := user_sessions w; console := console w; calls := calls w |}.

Definition set_user_data (ud : gmap Z UserData.row) (w : World) : World :=
  {| users := users w; user_data := ud; user_settings := user_settings w;
     user_sessions := user_sessions w; console := console w; calls := calls w |}.

Definition set_user_settings (st : gmap Z UserSettings.row) (w : World) : World :=
  {| users := users w; user_data := user_data w; user_settings := st;
     user_sessions := user_sessions w; console := console w; calls := calls w |}.

Definition set_user_sessions (ss : list UserSession.row) (w : World) : World :=
  {| users := users w; user_data := user_data w; user_settings := user_settings w;
     user_sessions := ss; console := console w; calls := calls w |}.

Definition set_tokens (a r : option string) (sc : option (list string)) (i : Instance)
    : Instance :=
  {| m_accessToken := a; m_refreshToken := r; m_suppliedScopes := sc;
     m_userData := m_userData i; m_response := m_response i; m_request := m_request i |}.

Definition set_userData (u : option VatsimUserData) (i : Instance) : Instance :=
  {| m_accessToken := m_accessToken i; m_refreshToken := m_refreshToken i;
     m_suppliedScopes := m_suppliedScopes i;
     m_userData := u; m_response := m_response i; m_request := m_request i |}.

Definition set_exchange (req : Request) (res : Response) (i : Instance) : Instance :=
  {| m_accessToken := m_accessToken i; m_refreshToken := m_refreshToken i;
     m_suppliedScopes := m_suppliedScopes i;
     m_userData := m_userData i; m_response := Some res; m_request := Some req |}.

Definition call (c : Call) : M unit := modify (with_world (add_call c)).

(** A freshly constructed instance. *)
Definition new_instance : Instance :=
  {| m_accessToken := None; m_refreshToken := None; m_suppliedScopes := None;
     m_userData := None; m_response := None; m_request := None |}.

Record ValidatorType : Type := { invalid : bool }.

(** Statements of a transaction wait in the transaction until it commits. *)
Inductive Write : Type :=
| Write_user (u : User.row)
| Write_user_data (d : UserData.row).

Definition Transaction := list Write.

Definition apply_write (w : World) (x : Write) : World :=
  match x with
  | Write_user u => set_users (<[User.id u := u]> (users w)) w
  | Write_user_data d => set_user_data (<[UserData.user_id d := d]> (user_data w)) w
  end.

(** Whether the transaction opened last is finished: [t.commit()] finishes
    it, whether the database accepts the commit or rejects it, and so does
    [t.rollback()].  There is one transaction at a time, so that the calls
    made tell. *)
Definition finished (w : World) : bool :=
  fold_left (fun done c =>
               match c with
               | Sequelize_transaction => false
               | Commit | Rollback => true
               | _ => done
               end)
            (calls w) false.

Definition cannot_be_rolled_back : string :=
  "Transaction cannot be rolled back because it has been finished with state: commit".

Definition default_settings (user : Z) : UserSettings.row :=
  {| UserSettings.user_id := user;
     UserSettings.language := "de";
     UserSettings.additional_emails := [];
     UserSettings.email_notifications_enabled := true |}.

Definition session_of (user : Z) (browser : string) (r : UserSession.row) : bool :=
  (UserSession.user_id r =? user) && String.eqb (UserSession.browser_uuid r) browser.

Definition InternalServerError : Z := 500.

Section WithEnv.
Variable env : Env.

(** *** Collaborators *)

Definition console_log (e : Exn) : M unit := modify (with_world (add_console e)).

Definition axios_post_token (body : TokenRequest) : M (option VatsimOauthToken) :=
  call (Post_oauth_token body) ;;
  match oauth_token env body with
  | Resolved d => ret d
  | Rejected response => throw (AxiosError response)
  end.

Definition axios_get_user (bearer : string) : M (option VatsimUserData) :=
  call (Get_api_user bearer) ;;
  match api_user env bearer with
  | Resolved d => ret d
  | Rejected response => throw (AxiosError response)
  end.

(** [sequelize.transaction()] is taken to succeed; the statements of the
    transaction and [t.commit()] may be rejected. *)
Definition sequelize_transaction : M Transaction :=
  call Sequelize_transaction ;; ret [].

Definition User_upsert (u : User.row) (t : Transaction) : M Transaction :=
  call (User_upsert_call u) ;;
  if user_upsert_rejects env then throw DatabaseError else ret (t ++ [Write_user u])%list.

Definition UserData_upsert (d : UserData.row) (t : Transaction) : M Transaction :=
  call (UserData_upsert_call d) ;;
  if userdata_upsert_rejects env then throw DatabaseError
  else ret (t ++ [Write_user_data d])%list.

Definition commit (t : Transaction) : M unit :=
  call Commit ;;
  if commit_rejects env then throw DatabaseError
  else modify (with_world (fun w => fold_left apply_write t w)).

(** [t.rollback()]: a transaction that is finished cannot be rolled back
    any more. *)
Definition rollback (t : Transaction) : M unit :=
  s <- get ;;
  call Rollback ;;
  if finished (world s) then throw (Error cannot_be_rolled_back) else ret tt.

(** A [where] on an [undefined] value is refused by the persistence
    layer. *)
Definition UserSettings_findOrCreate (user : option Z) : M unit :=
  call (UserSettings_findOrCreate_call user) ;;
  match user with
  | None => throw DatabaseError
  | Some c =>
      modify (with_world (fun w =>
        match user_settings w !! c with
        | Some _ => w
        | None => set_user_settings (<[c := default_settings c]> (user_settings w)) w
        end))
  end.

Definition User_findOne (user : option Z) : M (option UserWithAssociations) :=
  call (User_findOne_call user) ;;
  match user with
  | None => throw DatabaseError
  | Some c =>
      s <- get ;;
      ret (u ← users (world s) !! c;
           Some {| the_user := u;
                   the_user_data := user_data (world s) !! c;
                   the_user_settings := user_settings (world s) !! c |})
  end.

Definition UserSession_destroy (user : Z) (browser : string) : M unit :=
  call (UserSession_destroy_call user browser) ;;
  modify (with_world (fun w =>
    set_user_sessions
      (List.filter (fun r => negb (session_of user browser r)) (user_sessions w)) w)).

(** Modelled from the spec: [createSessionToken] (SessionLibrary) is
    missing from the sources.  It creates a new session row bound to the
    user and the browser identifier of the request and returns a session
    token to the caller; when it yields no session, no row is created. *)
Definition createSessionToken (request : Request) (response : Response)
    (user : Z) (remember : bool) : M bool :=
  call (CreateSessionToken_call user remember) ;;
  match unique_browser_token request with
  | None => ret false
  | Some browser =>
      match mint_session env user browser with
      | None => ret false
      | Some token =>
          modify (with_world (fun w =>
            set_user_sessions
              (user_sessions w ++
                 [{| UserSession.user_id := user;
                     UserSession.browser_uuid := browser;
                     UserSession.uuid := token;
                     UserSession.remember := remember |}]) w)) ;;
          ret true
      end
  end.

Definition Response_sendStatus (status : Z) : M unit :=
  call (Response_sendStatus_call status).

Definition Response_send (body : option UserWithAssociations) : M unit :=
  call (Response_send_call body).

(** *** The private methods *)

Definition _queryAccessTokens (vatsim_code : string) : M unit :=
  auth_response_data <-
    try_catch
      (axios_post_token
         {| tr_code := vatsim_code;
            tr_grant_type := "authorization_code";
            tr_client_id := client_id (m_connectOptions env);
            tr_client_secret := client_secret (m_connectOptions env);
            tr_redirect_uri := redirect_uri (m_connectOptions env) |})
      (fun e =>
         console_log e ;;
         match e with
         | AxiosError (Some body) =>
             match hint body with
             | Some h =>
                 if includes "revoked" (toLowerCase h)
                 then throw (VatsimConnectException (Some ERR_INV_CODE))
                 else ret None
             | None => throw TypeError
             end
         | _ => throw TypeError
         end) ;;
  match auth_response_data with
  | None => throw (VatsimConnectException (Some ERR_INV_SCOPES))
  | Some d =>
      modify (with_this (set_tokens (access_token d) (refresh_token d) (scopes d)))
  end.

Definition _queryUserData : M (option VatsimUserData) :=
  s <- get ;;
  match m_accessToken (this s) with
  | None => ret None
  | Some token =>
      user_response_data <- try_catch (axios_get_user token) (fun e => ret None) ;;
      modify (with_this (set_userData user_response_data)) ;;
      ret user_response_data
  end.

(** The [for] loop over [required_scopes]. *)
Fixpoint required_scopes_loop (supplied required : list string) : M unit :=
  match required with
  | [] => ret tt
  | scope :: rest =>
      if indexOf supplied scope =? -1
      then throw (VatsimConnectException (Some ERR_INV_SCOPES))
      else required_scopes_loop supplied rest
  end.

Definition _validateSuppliedScopes : M unit :=
  s <- get ;;
  match m_suppliedScopes (this s) with
  | None => throw (VatsimConnectException None)
  | Some supplied =>
      required_scopes_loop supplied (split " " (client_scopes (m_connectOptions env)))
  end.

Definition _checkIsUserSuspended : M unit :=
  s <- get ;;
  match m_userData (this s) with
  | None => ret tt
  | Some u =>
      call (CheckIsUserBanned (cid u)) ;;
      if checkIsUserBanned env (cid u)
      then throw (VatsimConnectException (Some ERR_SUSPENDED))
      else match vatsim u with
           | None => throw TypeError
           | Some v =>
               if rating v =? 0
               then throw (VatsimConnectException (Some ERR_SUSPENDED))
               else ret tt
           end
  end.

Definition _handleSessionChange : M bool :=
  s <- get ;;
  let browserUUID := req ← m_request (this s); unique_browser_token req in
  match m_response (this s), m_request (this s), browserUUID,
        (u ← m_userData (this s); cid u) with
  | Some response, Some request, Some browser, Some user =>
      UserSession_destroy user browser ;;
      createSessionToken request response user (m_remember env)
  | _, _, _, _ => throw (VatsimConnectException None)
  end.

(** [ValidationHelper] is missing from the sources; the three entries
    ask for a non-null [cid] that is a number, a non-null [personal] and
    a non-null [vatsim]. *)
Definition _validateUserData (i : Instance) : ValidatorType :=
  {| invalid :=
       negb (bool_decide (is_Some (u ← m_userData i; cid u)))
       || negb (bool_decide (is_Some (u ← m_userData i; personal u)))
       || negb (bool_decide (is_Some (u ← m_userData i; vatsim u))) |}.

Definition user_row (c : Z) (p : Personal) (tokenValid : bool) (i : Instance)
    : User.row :=
  {| User.id := c;
     User.first_name := name_first p;
     User.last_name := name_last p;
     User.email := email p;
     User.access_token := if tokenValid then m_accessToken i else None;
     User.refresh_token := if tokenValid then m_refreshToken i else None |}.

Definition user_data_row (c : Z) (p : Personal) (v : Vatsim) : UserData.row :=
  {| UserData.user_id := c;
     UserData.rating_atc := rating v;
     UserData.rating_pilot := pilotrating v;
     UserData.country_code := code (country p);
     UserData.country_name := name (country p);
     UserData.region_name := name (region v);
     UserData.region_code := code (region v);
     UserData.division_name := name (division v);
     UserData.division_code := code (division v);
     UserData.subdivision_name := name (subdivision v);
     UserData.subdivision_code := code (subdivision v) |}.

(** [data.oauth.token_valid?.toLowerCase() === "true"]. *)
Definition tokenValid_of (o : OAuth) : bool :=
  match token_valid o with
  | Some v => String.eqb (toLowerCase v) "true"
  | None => false
  end.

Definition _updateDatabase : M unit :=
  s <- get ;;
  match m_userData (this s) with
  | None => throw (VatsimConnectException None)
  | Some u =>
      if invalid (_validateUserData (this s))
      then throw (VatsimConnectException None)
      else
        match oauth u with
        | None => throw TypeError
        | Some o =>
            let tokenValid := tokenValid_of o in
            t <- sequelize_transaction ;;
            try_catch
              (match cid u, personal u, vatsim u with
               | Some c, Some p, Some v =>
                   t1 <- User_upsert (user_row c p tokenValid (this s)) t ;;
                   t2 <- UserData_upsert (user_data_row c p v) t1 ;;
                   commit t2
               | _, _, _ => throw TypeError
               end)
              (fun e => rollback t)
        end
  end.

(** *** The public methods *)

Definition login (request : Request) (response : Response) (code : option string)
    : M unit :=
  match code with
  | None => throw (VatsimConnectException (Some ERR_NO_CODE))
  | Some code =>
      modify (with_this (set_exchange request response)) ;;
      _queryAccessTokens code ;;
      _queryUserData ;;
      s <- get ;;
      match m_userData (this s) with
      | None => Response_sendStatus InternalServerError
      | Some _ =>
          _validateSuppliedScopes ;;
          _checkIsUserSuspended ;;
          s <- get ;;
          match m_userData (this s) with
          | None => throw (VatsimConnectException None)
          | Some u =>
              _updateDatabase ;;
              UserSettings_findOrCreate (cid u) ;;
              user <- User_findOne (cid u) ;;
              session <- _handleSessionChange ;;
              if session : bool then Response_send user
              else throw (VatsimConnectException (Some ERR_UNABLE_CREATE_SESSION))
          end
      end
  end.

(** [request.body.user] is the argument [user]. *)
Definition updateUserData (user : User.row) (response : Response) : M unit :=
  userWithAccessToken <- User_findOne (Some (User.id user)) ;;
  match userWithAccessToken with
  | None => Response_sendStatus InternalServerError
  | Some found =>
      modify (with_this (fun i =>
        set_tokens (User.access_token (the_user found))
                   (User.refresh_token (the_user found))
                   (m_suppliedScopes i) i)) ;;
      newUserData <- _queryUserData ;;
      match newUserData with
      | None => Response_sendStatus InternalServerError
      | Some _ =>
          _updateDatabase ;;
          s <- get ;;
          newUser <- User_findOne (u ← m_userData (this s); cid u) ;;
          match newUser with
          | None => Response_sendStatus InternalServerError
          | Some _ => Response_send newUser
          end
      end
  end.
End WithEnv.

(** A run of [login] on a fresh instance. *)
Definition run_login (env : Env) (request : Request) (code : option string) (w : World)
    : Completion Exn unit * State :=
  login env request TheResponse code {| this := new_instance; world := w |}.

End Connect.


(** ** Vocabulary of the properties *)

(** [Keeps R c]: whatever the outcome, [c] takes a state to an [R]-related
    one. *)
Definition Keeps {S E A : Type} (R : S -> S -> Prop) (c : Async S E A) : Prop :=
  forall s, R s (snd (c s)).

(** [Raises P c]: whatever [c] throws satisfies [P]. *)
Definition Raises {S E A : Type} (P : E -> Prop) (c : Async S E A) : Prop :=
  forall s e s', c s = (Throw e, s') -> P e.

(** A chain of steps, each of which may throw, end the chain ([false]) or
    hand over to the next step ([true]). *)
Fixpoint pipeline {S E : Type} (steps : list (Async S E bool)) : Async S E unit :=
  match steps with
  | [] => ret tt
  | step :: rest => go_on <- step ;; if go_on : bool then pipeline rest else ret tt
  end.

(** The state in which step [n] of a chain starts, when all steps before it
    handed over. *)
Fixpoint run_prefix {S E : Type} (steps : list (Async S E bool)) (n : nat) (s : S)
    {struct n} : option S :=
  match n with
  | O => Some s
  | Datatypes.S n' =>
      match steps with
      | [] => None
      | step :: rest =>
          match step s with
          | (Return true, s') => run_prefix rest n' s'
          | _ => None
          end
      end
  end.

Module VateudSpec.
Import Vateud.


(** A sync target that cannot be reached, and one that answers. *)
Definition unreachable : Env :=
  {| API_KEY := Some "secret";
     VATEUD_API_BASE := "https://core.example/api";
     remote_create := fun _ => NetworkError;
     remote_remove := fun _ => NetworkError |}.

Definition reachable : Env :=
  {| API_KEY := Some "secret";
     VATEUD_API_BASE := "https://core.example/api";
     remote_create := fun _ => HttpResponse 201 (Typed {| data := {| id := "r-9" |} |});
     remote_remove := fun _ => HttpResponse 200 (Typed (RemoveResponse "ok")) |}.


Definition two_solos : World :=
  {| jobs := [];
     user_solos :=
       [ {| solo_id := 7; vateud_solo_id := None; columns := [("position", "EDDF_TWR")] |};
         {| solo_id := 8; vateud_solo_id := Some "r-3"; columns := [] |} ];
     log := [];
     sent := [] |}.

Definition create_7 : VateudCoreSoloCreateT :=
  {| local_solo_id := 7;
     post_data := {| user_id := 1234; position := "EDDF_TWR";
                     instructor_cid := 4321; expires_at := "2024-01-31" |} |}.

Definition remove_7 : VateudCoreSoloRemoveT :=
  {| rm_local_solo_id := 7; rm_vateud_solo_id := "r-9" |}.
End VateudSpec.

Module ConnectSpec.
Import Connect.

(** The place of each collaborator call in the course of a login. *)
Definition rank (c : Call) : nat :=
  match c with
  | Post_oauth_token _ => 1
  | Get_api_user _ => 2
  | Response_sendStatus_call _ => 3
  | CheckIsUserBanned _ => 4
  | Sequelize_transaction => 5
  | User_upsert_call _ => 6
  | UserData_upsert_call _ => 7
  | Commit => 8
  | Rollback => 9
  | UserSettings_findOrCreate_call _ => 10
  | User_findOne_call _ => 11
  | UserSession_destroy_call _ _ => 12
  | CreateSessionToken_call _ _ => 13
  | Response_send_call _ => 14
  end%nat.

(** [Ordered lo hi c]: the calls [c] makes are made in strictly increasing
    rank, all within [lo, hi). *)
Definition Ordered {A} (lo hi : nat) (c : M A) : Prop :=
  forall s, exists made,
    calls (world (snd (c s))) = (calls (world s) ++ made)%list /\
    StronglySorted lt (map rank made) /\
    Forall (fun x => (lo <= rank x < hi)%nat) made.

(** The calls of a reconciliation that has passed its checks: a rejected
    statement is followed by the rollback, and so is a rejected commit. *)
Definition reconciliation_calls (env : Env) (u : User.row) (d : UserData.row)
    : list Call :=
  Sequelize_transaction :: User_upsert_call u ::
  if user_upsert_rejects env then [Rollback]
  else UserData_upsert_call d ::
       if userdata_upsert_rejects env then [Rollback]
       else Commit :: if commit_rejects env then [Rollback] else [].

(** How such a reconciliation completes: a rejected statement is caught and
    rolled back; after a rejected commit the rollback throws. *)
Definition reconciliation_completion (env : Env) : Completion Exn unit :=
  if user_upsert_rejects env || userdata_upsert_rejects env then Return tt
  else if commit_rejects env then Throw (Error cannot_be_rolled_back)
       else Return tt.

(** What a computation may leave untouched. *)
Definition same_this (s s' : State) : Prop := this s' = this s.

(** What every step before the session step leaves untouched. *)
Definition session_frame (s s' : State) : Prop :=
  m_request (this s') = m_request (this s) /\
  m_response (this s') = m_response (this s) /\
  user_sessions (world s') = user_sessions (world s).

Section WithEnv.
Variable env : Env.

Definition token_request (code : string) : TokenRequest :=
  {| tr_code := code;
     tr_grant_type := "authorization_code";
     tr_client_id := client_id (m_connectOptions env);
     tr_client_secret := client_secret (m_connectOptions env);
     tr_redirect_uri := redirect_uri (m_connectOptions env) |}.

(** The scopes the deployment requires. *)
Definition required_scopes : list string :=
  split " " (client_scopes (m_connectOptions env)).

(** The steps of [login] after the code has been checked and the request
    and the response have been stored: code exchange, profile fetch,
    scope validation, suspension check, reconciliation, default
    settings, and session creation with the reply. *)
Definition step_exchange (code : string) : M bool :=
  _queryAccessTokens env code ;; ret true.

Definition step_profile : M bool :=
  _queryUserData env ;;
  s <- get ;;
  match m_userData (this s) with
  | None => Response_sendStatus InternalServerError ;; ret false
  | Some _ => ret true
  end.

Definition step_scopes : M bool := _validateSuppliedScopes env ;; ret true.

Definition step_suspension : M bool := _checkIsUserSuspended env ;; ret true.

Definition step_reconcile : M bool :=
  s <- get ;;
  match m_userData (this s) with
  | None => throw (VatsimConnectException None)
  | Some _ => _updateDatabase env ;; ret true
  end.

Definition step_settings : M bool :=
  s <- get ;;
  UserSettings_findOrCreate (u ← m_userData (this s); cid u) ;; ret true.

Definition step_session : M bool :=
  s <- get ;;
  user <- User_findOne (u ← m_userData (this s); cid u) ;;
  session <- _handleSessionChange env ;;
  if session : bool then Response_send user ;; ret true
  else throw (VatsimConnectException (Some ERR_UNABLE_CREATE_SESSION)).

Definition login_steps (code : string) : list (M bool) :=
  [step_exchange code; step_profile; step_scopes; step_suspension;
   step_reconcile; step_settings; step_session].
End WithEnv.

(** Whether every required scope is among the supplied ones, as the loop of
    [_validateSuppliedScopes] tests it. *)
Definition covers (supplied required : list string) : bool :=
  forallb (fun scope => negb (indexOf supplied scope =? -1)) required.

(** The state in which scope validation starts when the exchange has given
    the payload [d] and the profile request with its access token [bearer]
    has given [u]. *)
Definition at_scopes (env : Env) (request : Request) (code : string) (w : World)
    (d : VatsimOauthToken) (bearer : string) (u : VatsimUserData) : State :=
  {| this :=
       {| m_accessToken := access_token d; m_refreshToken := refresh_token d;
          m_suppliedScopes := scopes d; m_userData := Some u;
          m_response := Some TheResponse; m_request := Some request |};
     world :=
       add_call (Get_api_user bearer)
         (add_call (Post_oauth_token (token_request env code)) w) |}.

(** The state in which a fresh instance starts the steps of a login. *)
Definition entry (request : Request) (w : World) : State :=
  {| this := set_exchange request TheResponse new_instance; world := w |}.

(** The session row [createSessionToken] writes. *)
Definition new_session (user : Z) (browser token : string) (remember : bool)
    : UserSession.row :=
  {| UserSession.user_id := user; UserSession.browser_uuid := browser;
     UserSession.uuid := token; UserSession.remember := remember |}.

(** The session table once the rows of a (user, browser) pair are destroyed. *)
Definition without_sessions_of (user : Z) (browser : string)
    (rows : list UserSession.row) : list UserSession.row :=
  List.filter (fun r => negb (session_of user browser r)) rows.

(** The live sessions of a (user, browser) pair. *)
Definition sessions_of (user : Z) (browser : string) (w : World)
    : list UserSession.row :=
  List.filter (session_of user browser) (user_sessions w).

End ConnectSpec.

(** ** Sample runs *)

Module ConnectExamples.
Import Connect ConnectSpec.

Definition options : ConnectOptions :=
  {| client_id := "tc"; client_secret := "s3cret";
     redirect_uri := "https://tc.example/login"; base_uri := None;
     client_scopes := "full_name vatsim_details email" |}.

Definition germany : CodeName := {| code := "DE"; name := "Germany" |}.

Definition somebody : Personal :=
  {| name_first := "Ada"; name_last := "Lovelace"; email := "ada@example.org";
     country := germany |}.

Definition controller (token_valid_here : option string) : Vatsim :=
  {| rating := 3; pilotrating := 0;
     region := {| code := "EMEA"; name := "Europe" |};
     division := {| code := "EUD"; name := "Europe (except UK)" |};
     subdivision := {| code := "GER"; name := "Germany" |};
     vatsim_token_valid := token_valid_here |}.

Definition profile : VatsimUserData :=
  {| cid := Some 1234; personal := Some somebody;
     vatsim := Some (controller None);
     oauth := Some {| token_valid := Some "true" |} |}.

(** A profile laid out as the interface description has it: [token_valid]
    says "true" under [data.vatsim], while [data.oauth] says "false". *)
Definition profile_as_described : VatsimUserData :=
  {| cid := Some 1234; personal := Some somebody;
     vatsim := Some (controller (Some "true"));
     oauth := Some {| token_valid := Some "false" |} |}.

Definition tokens (granted : option (list string)) : VatsimOauthToken :=
  {| access_token := Some "tok1"; refresh_token := Some "ref1"; scopes := granted |}.

(** A deployment in which the provider answers the exchange with
    [exchange] and the profile request with [document], and the database
    rejects the [User] upsert when [reject] is set. *)
Definition deployment (exchange : Settled (option VatsimOauthToken))
    (document : VatsimUserData) (reject : bool) (session : option string) : Env :=
  {| m_connectOptions := options;
     m_remember := false;
     oauth_token := fun _ => exchange;
     api_user := fun _ => Resolved (Some document);
     checkIsUserBanned := fun _ => false;
     user_upsert_rejects := reject;
     userdata_upsert_rejects := false;
     commit_rejects := false;
     mint_session := fun _ _ => session |}.

Definition all_granted : Settled (option VatsimOauthToken) :=
  Resolved (Some (tokens (Some ["full_name"; "vatsim_details"; "email"]))).

Definition healthy : Env := deployment all_granted profile false (Some "session-1").

(** The provider grants [full_name] only. *)
Definition stingy : Env :=
  deployment (Resolved (Some (tokens (Some ["full_name"])))) profile false
    (Some "session-1").

(** The payload of the exchange has no list of scopes at all. *)
Definition scopeless : Env :=
  deployment (Resolved (Some (tokens None))) profile false (Some "session-1").

(** The database rejects the [User] upsert. *)
Definition rejecting : Env := deployment all_granted profile true (Some "session-1").

(** The provider says that the code has been used before. *)
Definition revoked : Env :=
  deployment (Rejected (Some {| hint := Some "Authorization code has been revoked" |}))
    profile false (Some "session-1").

(** No session can be created. *)
Definition sessionless : Env := deployment all_granted profile false None.

Definition browser : Request := {| unique_browser_token := Some "firefox-1" |}.

Definition empty_world : World :=
  {| users := ∅; user_data := ∅; user_settings := ∅; user_sessions := [];
     console := []; calls := [] |}.

(** A world in which user 1234 already has a session in this browser. *)
Definition logged_in : World :=
  {| users := ∅; user_data := ∅; user_settings := ∅;
     user_sessions :=
       [ {| UserSession.user_id := 1234; UserSession.browser_uuid := "firefox-1";
            UserSession.uuid := "session-0"; UserSession.remember := false |} ];
     console := []; calls := [] |}.

(** The instance as it stands when reconciliation starts in a healthy
    login. *)
Definition reconciling (w : World) : State :=
  {| this :=
       {| m_accessToken := Some "tok1"; m_refreshToken := Some "ref1";
          m_suppliedScopes := Some ["full_name"; "vatsim_details"; "email"];
          m_userData := Some profile;
          m_response := Some TheResponse; m_request := Some browser |};
     world := w |}.
End ConnectExamples.

(** ** Vocabulary of the further properties *)

Module ConnectSpecMore.
Import Connect ConnectSpec.

(** The four tables are as in [w]. *)
Definition untouched (w : World) (s' : State) : Prop :=
  users (world s') = users w /\
  user_data (world s') = user_data w /\
  user_settings (world s') = user_settings w /\
  user_sessions (world s') = user_sessions w.

(** The state in which the suspension check leaves a login that it lets
    pass or stops. *)
Definition at_suspension (env : Env) (request : Request) (code : string) (w : World)
    (d : VatsimOauthToken) (bearer : string) (u : VatsimUserData) : State :=
  with_world (add_call (CheckIsUserBanned (cid u)))
    (at_scopes env request code w d bearer u).

(** What [User.findOne] gives for [c] in the world [w]. *)
Definition found (c : Z) (w : World) : option UserWithAssociations :=
  u ← users w !! c;
  Some {| the_user := u;
          the_user_data := user_data w !! c;
          the_user_settings := user_settings w !! c |}.

(** The settings table once [c] has its settings. *)
Definition with_settings_of (c : Z) (settings : gmap Z UserSettings.row)
    : gmap Z UserSettings.row :=
  match settings !! c with
  | Some _ => settings
  | None => <[c := default_settings c]> settings
  end.

(** A login in which nothing goes wrong: the exchange gives [d] with the
    access token [bearer] and the scopes [granted], which cover the required
    ones; the profile [u] has [cid] [c], [personal] [p], [vatsim] [v] with a
    rating other than 0 and [oauth] [o]; the user is not banned; the database
    accepts the reconciliation; the request names the browser [b]; and a
    session with the token [token] can be created. *)
Record Smooth (env : Env) (request : Request) (code : string)
    (d : VatsimOauthToken) (bearer : string) (granted : list string)
    (u : VatsimUserData) (c : Z) (p : Personal) (v : Vatsim) (o : OAuth)
    (b token : string) : Prop := {
  smooth_exchange : oauth_token env (token_request env code) = Resolved (Some d);
  smooth_bearer : access_token d = Some bearer;
  smooth_profile : api_user env bearer = Resolved (Some u);
  smooth_scopes : scopes d = Some granted;
  smooth_covers : covers granted (required_scopes env) = true;
  smooth_not_banned : checkIsUserBanned env (cid u) = false;
  smooth_cid : cid u = Some c;
  smooth_personal : personal u = Some p;
  smooth_vatsim : vatsim u = Some v;
  smooth_rating : rating v <> 0;
  smooth_oauth : oauth u = Some o;
  smooth_user : user_upsert_rejects env = false;
  smooth_user_data : userdata_upsert_rejects env = false;
  smooth_commit : commit_rejects env = false;
  smooth_browser : unique_browser_token request = Some b;
  smooth_session : mint_session env c b = Some token;
}.

(** Nothing is written to the console. *)
Definition same_console (s s' : State) : Prop :=
  console (world s') = console (world s).

(** No row of [users] or [user_data] is removed, and no settings row is
    removed or changed. *)
Definition grows (s s' : State) : Prop :=
  (forall k r, user_settings (world s) !! k = Some r ->
               user_settings (world s') !! k = Some r) /\
  (forall k, is_Some (users (world s) !! k) -> is_Some (users (world s') !! k)) /\
  (forall k, is_Some (user_data (world s) !! k) -> is_Some (user_data (world s') !! k)).

(** Neither the sessions nor the settings are touched. *)
Definition same_sessions_and_settings (s s' : State) : Prop :=
  user_sessions (world s') = user_sessions (world s) /\
  user_settings (world s') = user_settings (world s).

(** The calls a refresh may make. *)
Definition refresh_call (c : Call) : bool :=
  match c with
  | User_findOne_call _ | Get_api_user _ | Sequelize_transaction
  | User_upsert_call _ | UserData_upsert_call _ | Commit | Rollback
  | Response_sendStatus_call _ | Response_send_call _ => true
  | _ => false
  end.

(** Calls are only added, and those added satisfy [P]. *)
Definition makes (P : Call -> bool) (s s' : State) : Prop :=
  exists made,
    calls (world s') = (calls (world s) ++ made)%list /\ forallb P made = true.

(** A run of [updateUserData] on a fresh instance, for the user [user] of
    the request. *)
Definition run_refresh (env : Env) (user : User.row) (w : World)
    : Completion Exn unit * State :=
  updateUserData env user TheResponse {| this := new_instance; world := w |}.

(** The state in which the transaction has been committed. *)
Definition at_settings (env : Env) (request : Request) (code : string) (w : World)
    (d : VatsimOauthToken) (bearer : string) (u : VatsimUserData)
    (c : Z) (p : Personal) (v : Vatsim) (o : OAuth) : State :=
  let s4 := at_suspension env request code w d bearer u in
  with_world
    (fun w4 =>
       set_user_data (<[c := user_data_row c p v]> (user_data w4))
         (set_users (<[c := user_row c p (tokenValid_of o) (this s4)]> (users w4))
            (add_call Commit
               (add_call (UserData_upsert_call (user_data_row c p v))
                  (add_call (User_upsert_call (user_row c p (tokenValid_of o) (this s4)))
                     (add_call Sequelize_transaction w4))))))
    s4.

(** The state in which the session step starts. *)
Definition at_session (env : Env) (request : Request) (code : string) (w : World)
    (d : VatsimOauthToken) (bearer : string) (u : VatsimUserData)
    (c : Z) (p : Personal) (v : Vatsim) (o : OAuth) : State :=
  with_world
    (fun w5 => set_user_settings (with_settings_of c (user_settings w5)) w5)
    (with_world (add_call (UserSettings_findOrCreate_call (Some c)))
       (at_settings env request code w d bearer u c p v o)).

End ConnectSpecMore.

Module ConnectExamplesMore.
Import Connect ConnectSpec ConnectExamples.

(** The user is banned. *)
Definition banning : Env :=
  {| m_connectOptions := options;
     m_remember := false;
     oauth_token := fun _ => all_granted;
     api_user := fun _ => Resolved (Some profile);
     checkIsUserBanned := fun _ => true;
     user_upsert_rejects := false;
     userdata_upsert_rejects := false;
     commit_rejects := false;
     mint_session := fun _ _ => Some "session-1" |}.

(** A profile without [data.oauth]. *)
Definition profile_without_oauth : VatsimUserData :=
  {| cid := Some 1234; personal := Some somebody;
     vatsim := Some (controller None); oauth := None |}.

(** A world in which user 1234 is on file with tokens, and has chosen
    English. *)
Definition on_file : World :=
  {| users :=
       {[ 1234 := {| User.id := 1234; User.first_name := "Ada";
                     User.last_name := "Byron"; User.email := "old@example.org";
                     User.access_token := Some "tok0";
                     User.refresh_token := Some "ref0" |} ]};
     user_data := ∅;
     user_settings :=
       {[ 1234 := {| UserSettings.user_id := 1234; UserSettings.language := "en";
                     UserSettings.additional_emails := ["ada@work.example"];
                     UserSettings.email_notifications_enabled := false |} ]};
     user_sessions := user_sessions logged_in;
     console := []; calls := [] |}.

(** The provider says that the token on file is no longer valid. *)
Definition expired : Env :=
  deployment all_granted profile_as_described false (Some "session-1").

(** The database accepts the statements of the reconciliation and rejects
    its commit. *)
Definition uncommitted : Env :=
  {| m_connectOptions := options;
     m_remember := false;
     oauth_token := fun _ => all_granted;
     api_user := fun _ => Resolved (Some profile);
     checkIsUserBanned := fun _ => false;
     user_upsert_rejects := false;
     userdata_upsert_rejects := false;
     commit_rejects := true;
     mint_session := fun _ _ => Some "session-1" |}.

(** The user of the request of a refresh: only the [id] is read. *)
Definition requesting (id : Z) : User.row :=
  {| User.id := id; User.first_name := ""; User.last_name := ""; User.email := "";
     User.access_token := None; User.refresh_token := None |}.

End ConnectExamplesMore.


(** ** The settings controller *)

Module SettingsController.
Import Connect.

Definition Ok : Z := 200.

Definition with_language (language : string) (r : UserSettings.row) : UserSettings.row :=
  {| UserSettings.user_id := UserSettings.user_id r;
     UserSettings.language := language;
     UserSettings.additional_emails := UserSettings.additional_emails r;
     UserSettings.email_notifications_enabled :=
       UserSettings.email_notifications_enabled r |}.

(** [UserSettings.update({ language }, { where: { user_id } })]: the row of
    the user, if there is one, gets the language.  The statement may be
    rejected. *)
Definition UserSettings_update (rejects : bool) (language : string) (user : Z)
    : Async World Exn unit :=
  if rejects then throw DatabaseError
  else modify (fun w =>
         set_user_settings (alter (with_language language) user (user_settings w)) w).

(** [user] is [request.body.user], [language] is [request.body.language];
    [rejects] tells whether the database rejects the update. *)
Definition updateSettings (rejects : bool) (user : User.row) (language : string)
    : Async World Exn unit :=
  UserSettings_update rejects language (User.id user) ;;
  modify (add_call (Response_sendStatus_call Ok)).

End SettingsController.

(** ** Handlers that answer a request *)

(** What a handler or one of its collaborators throws: a
    [ValidationException] with its message, or some other error. *)
Inductive Thrown : Type :=
| ValidationException (invalid : bool) (message : list string)
| OtherError (name : string).

(** How an awaited call of a collaborator settles. *)
Inductive Awaited (T : Type) : Type :=
| Fulfilled (v : T)
| Failed (e : Thrown).
Arguments Fulfilled {T} v.
Arguments Failed {T} e.

(** How many of the calls [made] satisfy [P]. *)
Definition count {A : Type} (P : A -> bool) (made : list A) : nat :=
  length (List.filter P made).

(** ** The user information controller *)

Module UserInformationController.

(** [n.toString()] for a whole number. *)
Definition toString (n : Z) : string := pretty n.

(** The body of the answer to a request without [user_id]:
    [{ error: 'Parameter "user_id" is required' }]. *)
Definition user_id_is_required : string :=
  "Parameter " ++ String "034" "user_id" ++ String "034" " is required".

(** The three lookups differ in the scope, the attributes and the
    associations they load. *)
Inductive Lookup : Type :=
| with_solos_and_groups
| without_timestamps
| sensitive_with_courses.

Section Handlers.
(** The user of the session, [response.locals.user], and a user as a lookup
    loads it; of the former the handlers read the [id]. *)
Variables (User Data : Type) (id : User -> Z).

Inductive Call : Type :=
| CheckUserHasPermission_call (user : User) (permission : string)
| User_findOne_call (lookup : Lookup) (user_id : option string)
| Response_status_send_call (status : Z) (error : option string)
| Response_send_call (data : option Data).

(** The collaborators.  [is_minus_one s] is the comparison [s == -1] of a
    string with the number -1.  [PermissionHelper] is missing from the
    sources: its [checkUserHasPermission] returns, or throws [e]; what it
    returns is not read.  [find_user] is the answer of the database. *)
Record Env : Type := {
  is_minus_one : string -> bool;
  check_permission : User -> string -> option Thrown;
  find_user : Lookup -> option string -> Awaited (option Data);
}.

Definition M := Async (list Call) Thrown.

Variable env : Env.

Definition call (c : Call) : M unit := modify (fun calls => (calls ++ [c])%list).

Definition checkUserHasPermission (user : User) (permission : string) : M unit :=
  call (CheckUserHasPermission_call user permission) ;;
  match check_permission env user permission with
  | Some e => throw e
  | None => ret tt
  end.

Definition User_findOne (lookup : Lookup) (user_id : option string)
    : M (option Data) :=
  call (User_findOne_call lookup user_id) ;;
  match find_user env lookup user_id with
  | Fulfilled data => ret data
  | Failed e => throw e
  end.

Definition Response_status_send (status : Z) (error : option string) : M unit :=
  call (Response_status_send_call status error).

Definition Response_send (data : option Data) : M unit :=
  call (Response_send_call data).

(** [query_user_id] is [request.query.user_id?.toString()]. *)
Definition getUserDataByID (query_user_id : option string) (user : User) : M unit :=
  match query_user_id with
  | None => Response_status_send 404 (Some user_id_is_required)
  | Some user_id =>
      if is_minus_one env user_id
      then Response_status_send 404 (Some user_id_is_required)
      else
        checkUserHasPermission user "mentor.acc.manage.own" ;;
        if String.eqb user_id (toString (id user)) then ret tt
        else
          data <- User_findOne with_solos_and_groups (Some user_id) ;;
          Response_send data
  end.

(** [query_user_id] is [request.query.user_id], taken as it comes. *)
Definition getBasicUserDataByID (query_user_id : option string) : M unit :=
  user <- User_findOne without_timestamps query_user_id ;;
  match user with
  | None => Response_status_send 404 None
  | Some _ => Response_send user
  end.

Definition getSensitiveUserDataByID (query_user_id : option string) (user : User)
    : M unit :=
  match query_user_id with
  | None => Response_status_send 404 (Some user_id_is_required)
  | Some user_id =>
      checkUserHasPermission user "mentor.acc.manage.own" ;;
      if String.eqb user_id (toString (id user)) then ret tt
      else
        data <- User_findOne sensitive_with_courses (Some user_id) ;;
        Response_send data
  end.
End Handlers.

Arguments CheckUserHasPermission_call {User Data} user permission.
Arguments User_findOne_call {User Data} lookup user_id.
Arguments Response_status_send_call {User Data} status error.
Arguments Response_send_call {User Data} data.
Arguments is_minus_one {User Data} e s.
Arguments check_permission {User Data} e user permission.
Arguments find_user {User Data} e lookup user_id.
Arguments getUserDataByID {User Data} id env query_user_id user.
Arguments getBasicUserDataByID {User Data} env query_user_id.
Arguments getSensitiveUserDataByID {User Data} id env query_user_id user.

(** The calls that answer the request. *)
Definition is_answer {User Data : Type} (c : Call User Data) : bool :=
  match c with
  | Response_status_send_call _ _ | Response_send_call _ => true
  | _ => false
  end.

Definition is_lookup {User Data : Type} (c : Call User Data) : bool :=
  match c with
  | User_findOne_call _ _ => true
  | _ => false
  end.

(** A session user, a permission helper that lets everybody pass, and a
    database with the user 7 only. *)
Definition lenient : Env Z string :=
  {| is_minus_one := fun s => String.eqb s "-1";
     check_permission := fun _ _ => None;
     find_user := fun _ user_id =>
       Fulfilled (if decide (user_id = Some "7") then Some "seven" else None) |}.

End UserInformationController.

(** ** The CPT administration controller *)

Module CPTAdminController.

Definition BadRequest : Z := 400.
Definition Created : Z := 201.

(** A [Date]: a point in time in milliseconds, or [Invalid Date]. *)
Inductive JsDate : Type :=
| InvalidDate
| Instant (ms : Z).

(** A number is a double: [spec_float]. *)
Definition JsNumber : Type := spec_float.

Record TrainingType : Type := { type : string }.

(** A training session as the queries load it.  The model is not part of
    the sources at hand: the record has an [id] and the members the handlers
    read, [training_type], which an [include] loads, and [completed]. *)
Record TrainingSession : Type := {
  id : Z;
  training_type : option TrainingType;
  completed : option bool;
}.

(** The trainee as [User.findOne] loads it, with the training sessions. *)
Record User : Type := { training_sessions : option (list TrainingSession) }.

(** A row of [UsersBelongsToCourses]: only its presence is read. *)
Inductive UsersBelongsToCourses : Type := UserInCourse.

(** [request.body] of [createCPT]. *)
Record Body : Type := {
  trainee_id : string;
  course_id : string;
  date : string;
  training_type_id : string;
  training_station_id : string;
}.

(** The values [createCPT] creates a [TrainingSession] with. *)
Record SessionValues : Type := {
  sv_uuid : string;
  sv_course_id : JsNumber;
  sv_training_type_id : JsNumber;
  sv_training_station_id : JsNumber;
  sv_date : JsDate;
}.

(** The values [createCPT] creates a [TrainingSessionBelongsToUsers] with. *)
Record LinkValues : Type := {
  lv_training_session_id : Z;
  lv_user_id : JsNumber;
  lv_log_id : option Z;
  lv_passed : option bool;
}.

(** The [where] and the [include] of a [TrainingSession.findAll]. *)
Record FindAllOptions : Type := {
  where_mentor_id_null : bool;
  where_cpt_examiner_id_null : bool;
  where_date_gt : JsDate;
  include : list string;
}.

Inductive Call : Type :=
| TrainingSession_findAll_call (options : FindAllOptions)
| Sequelize_transaction
| ValidateCreateRequest_call (body : Body)
| User_findOne_call (id : string)
| UsersBelongsToCourses_findOne_call (user_id course_id : string)
| TrainingSession_create_call (values : SessionValues)
| TrainingSessionBelongsToUsers_create_call (values : LinkValues)
| Commit
| Rollback
| Response_send_call (sessions : list TrainingSession)
| Response_sendStatus_call (status : Z)
| Next_call (e : Thrown).

(** The two tables [createCPT] writes, the sessions with the [id] the
    database gave them, and the calls made. *)
Record World : Type := {
  training_sessions_table : list (Z * SessionValues);
  training_session_belongs_to_users : list LinkValues;
  calls : list Call;
}.

(** The collaborators: the clock, [dayjs.utc().toDate()]; the database;
    [_CPTAdminValidator.validateCreateRequest], which is missing from the
    sources and returns or throws; [generateUUID], [Number] and
    [dayjs.utc(s).toDate()]. *)
Record Env : Type := {
  now : JsDate;
  find_all : FindAllOptions -> Awaited (list TrainingSession);
  validate : Body -> option Thrown;
  find_user : string -> Awaited (option User);
  find_user_in_course : string -> string -> Awaited (option UsersBelongsToCourses);
  generateUUID : string;
  Number : string -> JsNumber;
  dayjs_utc : string -> JsDate;
  create_session : SessionValues -> Awaited Z;
  create_link : LinkValues -> option Thrown;
  commit_fails : option Thrown;
}.

Definition M := Async World Thrown.

Definition add_call (c : Call) (w : World) : World :=
  {| training_sessions_table := training_sessions_table w;
     training_session_belongs_to_users := training_session_belongs_to_users w;
     calls := (calls w ++ [c])%list |}.

Definition call (c : Call) : M unit := modify (add_call c).

(** Statements of a transaction wait in the transaction until it commits. *)
Inductive Write : Type :=
| Write_session (id : Z) (values : SessionValues)
| Write_link (values : LinkValues).

Definition Transaction := list Write.

Definition apply_write (w : World) (x : Write) : World :=
  match x with
  | Write_session i values =>
      {| training_sessions_table := (training_sessions_table w ++ [(i, values)])%list;
         training_session_belongs_to_users := training_session_belongs_to_users w;
         calls := calls w |}
  | Write_link values =>
      {| training_sessions_table := training_sessions_table w;
         training_session_belongs_to_users :=
           (training_session_belongs_to_users w ++ [values])%list;
         calls := calls w |}
  end.

(** Whether the transaction opened last is finished: [t.commit()] finishes
    it, whether the database accepts the commit or rejects it, and so does
    [t.rollback()]. *)
Definition finished (w : World) : bool :=
  fold_left (fun done c =>
               match c with
               | Sequelize_transaction => false
               | Commit | Rollback => true
               | _ => done
               end)
            (calls w) false.

Section WithEnv.
Variable env : Env.

Definition await {T} (settled : Awaited T) : M T :=
  match settled with
  | Fulfilled v => ret v
  | Failed e => throw e
  end.

Definition TrainingSession_findAll (options : FindAllOptions)
    : M (list TrainingSession) :=
  call (TrainingSession_findAll_call options) ;;
  await (find_all env options).

Definition Response_send (sessions : list TrainingSession) : M unit :=
  call (Response_send_call sessions).

Definition Response_sendStatus (status : Z) : M unit :=
  call (Response_sendStatus_call status).

Definition next (e : Thrown) : M unit := call (Next_call e).

(** [r.training_type?.type == "cpt"]. *)
Definition is_cpt (r : TrainingSession) : bool :=
  match training_type r with
  | Some t => String.eqb (type t) "cpt"
  | None => false
  end.

Definition getOpen : M unit :=
  try_catch
    (requests <- TrainingSession_findAll
                   {| where_mentor_id_null := true;
                      where_cpt_examiner_id_null := false;
                      where_date_gt := now env;
                      include := ["users"; "training_station"; "training_type";
                                  "mentor"; "cpt_examiner"] |} ;;
     Response_send (List.filter is_cpt requests))
    (fun e => next e).

Definition getAvailable : M unit :=
  try_catch
    (availableCPTs <- TrainingSession_findAll
                        {| where_mentor_id_null := false;
                           where_cpt_examiner_id_null := true;
                           where_date_gt := now env;
                           include := ["training_type"; "users"; "training_station";
                                       "mentor"] |} ;;
     Response_send (List.filter is_cpt availableCPTs))
    (fun e => next e).

(** [sequelize.transaction()] is taken to succeed; the statements of the
    transaction and [t.commit()] may be rejected. *)
Definition sequelize_transaction : M Transaction :=
  call Sequelize_transaction ;; ret [].

Definition validateCreateRequest (body : Body) : M unit :=
  call (ValidateCreateRequest_call body) ;;
  match validate env body with
  | Some e => throw e
  | None => ret tt
  end.

Definition User_findOne (id : string) : M (option User) :=
  call (User_findOne_call id) ;; await (find_user env id).

Definition UsersBelongsToCourses_findOne (user_id course_id : string)
    : M (option UsersBelongsToCourses) :=
  call (UsersBelongsToCourses_findOne_call user_id course_id) ;;
  await (find_user_in_course env user_id course_id).

(** [TrainingSession.create(values, { transaction: t })]: the session
    comes back with the [id] the database gave it. *)
Definition TrainingSession_create (values : SessionValues) (t : Transaction)
    : M (Z * Transaction) :=
  call (TrainingSession_create_call values) ;;
  i <- await (create_session env values) ;;
  ret (i, (t ++ [Write_session i values])%list).

Definition TrainingSessionBelongsToUsers_create (values : LinkValues)
    (t : Transaction) : M Transaction :=
  call (TrainingSessionBelongsToUsers_create_call values) ;;
  match create_link env values with
  | Some e => throw e
  | None => ret (t ++ [Write_link values])%list
  end.

Definition commit (t : Transaction) : M unit :=
  call Commit ;;
  match commit_fails env with
  | Some e => throw e
  | None => modify (fun w => fold_left apply_write t w)
  end.

(** [t.rollback()]: a transaction that is finished cannot be rolled back
    any more. *)
Definition rollback (t : Transaction) : M unit :=
  w <- get ;;
  call Rollback ;;
  if finished w then throw (OtherError Connect.cannot_be_rolled_back) else ret tt.

(** [sess.training_type?.type == "cpt" && sess.completed == false]:
    [null == false] is false. *)
Definition is_planned_cpt (sess : TrainingSession) : bool :=
  is_cpt sess &&
  match completed sess with
  | Some false => true
  | _ => false
  end.

Definition already_planned : Thrown :=
  ValidationException true ["The user already has a CPT planned"].

(** The [for] loop over the training sessions of the trainee. *)
Fixpoint planned_loop (sessions : list TrainingSession) : M unit :=
  match sessions with
  | [] => ret tt
  | sess :: rest =>
      if is_planned_cpt sess then throw already_planned else planned_loop rest
  end.

Definition session_values (body : Body) : SessionValues :=
  {| sv_uuid := generateUUID env;
     sv_course_id := Number env (course_id body);
     sv_training_type_id := Number env (training_type_id body);
     sv_training_station_id := Number env (training_station_id body);
     sv_date := dayjs_utc env (date body) |}.

Definition link_values (body : Body) (session_id : Z) : LinkValues :=
  {| lv_training_session_id := session_id;
     lv_user_id := Number env (trainee_id body);
     lv_log_id := None;
     lv_passed := None |}.

Definition createCPT (body : Body) : M unit :=
  t <- sequelize_transaction ;;
  try_catch
    (validateCreateRequest body ;;
     user <- User_findOne (trainee_id body) ;;
     planned_loop (default [] (user ≫= training_sessions)) ;;
     userInCourse <- UsersBelongsToCourses_findOne (trainee_id body) (course_id body) ;;
     match userInCourse, user with
     | Some _, Some _ =>
         created <- TrainingSession_create (session_values body) t ;;
         t2 <- TrainingSessionBelongsToUsers_create
                 (link_values body (fst created)) (snd created) ;;
         commit t2 ;;
         Response_sendStatus Created
     | _, _ => Response_sendStatus BadRequest
     end)
    (fun e => rollback t ;; next e).
End WithEnv.

(** The calls that answer the request or hand it on. *)
Definition is_answer (c : Call) : bool :=
  match c with
  | Response_send_call _ | Response_sendStatus_call _ | Next_call _ => true
  | _ => false
  end.

(** The calls that end a transaction. *)
Definition ends_transaction (c : Call) : bool :=
  match c with
  | Commit | Rollback => true
  | _ => false
  end.

(** The tables of [w] with the session [values] under [session_id] and its
    link to the trainee of [body]. *)
Definition with_cpt (env : Env) (body : Body) (session_id : Z) (w : World)
    : list (Z * SessionValues) * list LinkValues :=
  ((training_sessions_table w ++ [(session_id, session_values env body)])%list,
   (training_session_belongs_to_users w ++ [link_values env body session_id])%list).

Definition tables (w : World) : list (Z * SessionValues) * list LinkValues :=
  (training_sessions_table w, training_session_belongs_to_users w).

(** What the [catch] of [createCPT] does with an error that comes before
    the commit. *)
Definition refused (e : Thrown) (w : World) : Completion Thrown unit * World :=
  (Return tt, add_call (Next_call e) (add_call Rollback w)).

(** What it does with the rejection of the commit: the rollback throws. *)
Definition stranded (w : World) : Completion Thrown unit * World :=
  (Throw (OtherError Connect.cannot_be_rolled_back), add_call Rollback w).

(** The calls of a [createCPT] that gets as far as the membership lookup. *)
Definition lookups (body : Body) : list Call :=
  [Sequelize_transaction; ValidateCreateRequest_call body;
   User_findOne_call (trainee_id body);
   UsersBelongsToCourses_findOne_call (trainee_id body) (course_id body)].

(** The calls of a [createCPT] that creates the CPT. *)
Definition creation (env : Env) (body : Body) (session_id : Z) : list Call :=
  (lookups body ++
   [TrainingSession_create_call (session_values env body);
    TrainingSessionBelongsToUsers_create_call (link_values env body session_id);
    Commit; Response_sendStatus_call Created])%list.

(** The calls of a [createCPT] whose commit is rejected. *)
Definition rejected_commit (env : Env) (body : Body) (session_id : Z) : list Call :=
  (lookups body ++
   [TrainingSession_create_call (session_values env body);
    TrainingSessionBelongsToUsers_create_call (link_values env body session_id);
    Commit; Rollback])%list.

End CPTAdminController.

Module CPTAdminExamples.
Import CPTAdminController.

(** The value of a string of decimal digits. *)
Fixpoint digits (acc : Z) (s : string) : option Z :=
  match s with
  | EmptyString => Some acc
  | String c s' =>
      let n := Z.of_N (N_of_ascii c) in
      if (48 <=? n) && (n <=? 57) then digits (10 * acc + (n - 48)) s' else None
  end.

(** [Number] on strings of decimal digits; other strings are not used in
    the examples. *)
Definition Number_of_digits (s : string) : JsNumber :=
  match s, digits 0 s with
  | String _ _, Some n => binary_normalize 53 1024 n 0 false
  | _, _ => S754_nan
  end.

Definition a_cpt (done : option bool) : TrainingSession :=
  {| id := 11; training_type := Some {| type := "cpt" |}; completed := done |}.

Definition a_lesson : TrainingSession :=
  {| id := 12; training_type := Some {| type := "lesson" |}; completed := Some false |}.

Definition untyped : TrainingSession :=
  {| id := 13; training_type := None; completed := Some false |}.

(** A deployment in which the trainee "42" has the training sessions
    [sessions] and is in the course "3", and nobody else is known. *)
Definition school (sessions : list TrainingSession) : Env :=
  {| now := Instant 1793696400000;
     find_all := fun _ => Fulfilled [a_cpt None; a_lesson; untyped];
     validate := fun _ => None;
     find_user := fun i =>
       Fulfilled (if String.eqb i "42"
                  then Some {| training_sessions := Some sessions |} else None);
     find_user_in_course := fun u c =>
       Fulfilled (if String.eqb u "42" && String.eqb c "3"
                  then Some UserInCourse else None);
     generateUUID := "0b0e7a52-6f0c-4c55-9d0a-2f1d3c4b5a69";
     Number := Number_of_digits;
     dayjs_utc := fun s =>
       if String.eqb s "2026-12-01T18:00:00Z" then Instant 1796148000000
       else InvalidDate;
     create_session := fun _ => Fulfilled 100;
     create_link := fun _ => None;
     commit_fails := None |}.

(** The same deployment with a database that rejects every commit. *)
Definition school_without_commit (sessions : list TrainingSession) : Env :=
  {| now := now (school sessions);
     find_all := find_all (school sessions);
     validate := validate (school sessions);
     find_user := find_user (school sessions);
     find_user_in_course := find_user_in_course (school sessions);
     generateUUID := generateUUID (school sessions);
     Number := Number_of_digits;
     dayjs_utc := dayjs_utc (school sessions);
     create_session := create_session (school sessions);
     create_link := create_link (school sessions);
     commit_fails := Some (OtherError "Deadlock found when trying to get lock") |}.

Definition request_for (trainee course : string) : Body :=
  {| trainee_id := trainee; course_id := course; date := "2026-12-01T18:00:00Z";
     training_type_id := "5"; training_station_id := "9" |}.

Definition nothing_yet : World :=
  {| training_sessions_table := []; training_session_belongs_to_users := [];
     calls := [] |}.

End CPTAdminExamples.

(** * Properties *)

Local Open Scope list_scope.

(** ** Frame rules: what a computation leaves related *)

Section Frames.
Context {S E : Type} (R : S -> S -> Prop) `{!Reflexive R, !Transitive R}.

Lemma keeps_ret {A} (a : A) : Keeps R (ret a : Async S E A).
Proof. intros s. reflexivity. Qed.

Lemma keeps_throw {A} (e : E) : Keeps R (throw e : Async S E A).
Proof. intros s. reflexivity. Qed.

Lemma keeps_get : Keeps R (get : Async S E S).
Proof. intros s. reflexivity. Qed.

Lemma keeps_modify (f : S -> S) :
  (forall s, R s (f s)) -> Keeps R (modify f : Async S E unit).
Proof. intros H s. apply H. Qed.

Lemma keeps_bind {A B} (c : Async S E A) (k : A -> Async S E B) :
  Keeps R c -> (forall a, Keeps R (k a)) -> Keeps R (bind c k).
Proof.
  intros Hc Hk s. unfold bind. specialize (Hc s).
  destruct (c s) as [[a|e] s1]; cbn in *; [|exact Hc].
  etransitivity; [exact Hc | apply Hk].
Qed.

Lemma keeps_try_catch {A} (body : Async S E A) (handler : E -> Async S E A) :
  Keeps R body -> (forall e, Keeps R (handler e)) -> Keeps R (try_catch body handler).
Proof.
  intros Hb Hh s. unfold try_catch. specialize (Hb s).
  destruct (body s) as [[a|e] s1]; cbn in *; [exact Hb|].
  etransitivity; [exact Hb | apply Hh].
Qed.
End Frames.

(** ** What a computation can throw *)

Section Exceptions.
Context {S E : Type} (P : E -> Prop).

Lemma raises_ret {A} (a : A) : Raises P (ret a : Async S E A).
Proof. intros s e s' H. discriminate. Qed.

Lemma raises_throw {A} (e : E) : P e -> Raises P (throw e : Async S E A).
Proof. intros He s e' s' H. unfold throw in H. congruence. Qed.

Lemma raises_get : Raises P (get : Async S E S).
Proof. intros s e s' H. discriminate. Qed.

Lemma raises_modify (f : S -> S) : Raises P (modify f : Async S E unit).
Proof. intros s e s' H. discriminate. Qed.

Lemma raises_bind {A B} (c : Async S E A) (k : A -> Async S E B) :
  Raises P c -> (forall a, Raises P (k a)) -> Raises P (bind c k).
Proof.
  intros Hc Hk s e s' H. unfold bind in H.
  destruct (c s) as [[a|e1] s1] eqn:Hcs.
  - eapply Hk. exact H.
  - injection H as -> _. eapply Hc. exact Hcs.
Qed.

(** What the body throws is caught: only the handler counts. *)
Lemma raises_try_catch {A} (body : Async S E A) (handler : E -> Async S E A) :
  (forall e, Raises P (handler e)) -> Raises P (try_catch body handler).
Proof.
  intros Hh s e s' H. unfold try_catch in H.
  destruct (body s) as [[a|e1] s1]; [discriminate|].
  eapply Hh. exact H.
Qed.

Lemma raises_pipeline (steps : list (Async S E bool)) :
  Forall (Raises P) steps -> Raises P (pipeline steps).
Proof.
  induction 1 as [|step steps Hs _ IH]; cbn; [apply raises_ret|].
  apply raises_bind; [exact Hs|]. intros [|]; [exact IH | apply raises_ret].
Qed.
End Exceptions.

Ltac raises_step :=
  lazymatch goal with
  | |- Raises _ (ret _) => apply raises_ret
  | |- Raises _ (throw _) => apply raises_throw
  | |- Raises _ get => apply raises_get
  | |- Raises _ (modify _) => apply raises_modify
  | |- Raises _ (bind _ _) => apply raises_bind; [| intros ?]
  | |- Raises _ (try_catch _ _) => apply raises_try_catch; intros ?
  | |- Raises _ (match ?x with _ => _ end) => destruct x
  end.

(** ** Chains of steps *)

Section Pipeline.
Context {S E : Type}.
Implicit Types (steps : list (Async S E bool)) (step : Async S E bool) (s : S).

Lemma pipeline_cons step steps s :
  pipeline (step :: steps) s =
  match step s with
  | (Return true, s') => pipeline steps s'
  | (Return false, s') => (Return tt, s')
  | (Throw e, s') => (Throw e, s')
  end.
Proof. cbn. unfold bind. destruct (step s) as [[[|]|e] s']; reflexivity. Qed.

(** Once the first [n] steps have handed over, what remains is the chain
    of the other steps. *)
Lemma pipeline_reach steps n s s_n :
  run_prefix steps n s = Some s_n -> pipeline steps s = pipeline (drop n steps) s_n.
Proof.
  revert steps s. induction n as [|n IH]; intros steps s H; cbn in H.
  - inversion H; subst. now rewrite drop_0.
  - destruct steps as [|step steps]; [discriminate|].
    cbn. unfold bind.
    destruct (step s) as [[[|]|e] s1]; try discriminate.
    now apply IH.
Qed.

(** A step that throws ends the chain in the state it leaves. *)
Lemma pipeline_throw steps n step s s_n e s' :
  steps !! n = Some step -> run_prefix steps n s = Some s_n ->
  step s_n = (Throw e, s') -> pipeline steps s = (Throw e, s').
Proof.
  intros Hn Hp Hs. rewrite (pipeline_reach _ _ _ _ Hp), (drop_S _ _ _ Hn).
  cbn. unfold bind. now rewrite Hs.
Qed.

(** So does a step that answers for itself. *)
Lemma pipeline_stop steps n step s s_n s' :
  steps !! n = Some step -> run_prefix steps n s = Some s_n ->
  step s_n = (Return false, s') -> pipeline steps s = (Return tt, s').
Proof.
  intros Hn Hp Hs. rewrite (pipeline_reach _ _ _ _ Hp), (drop_S _ _ _ Hn).
  cbn. unfold bind. now rewrite Hs.
Qed.

(** The prefixes of a chain, one step at a time. *)
Lemma run_prefix_snoc steps n step s s_n :
  run_prefix steps n s = Some s_n -> steps !! n = Some step ->
  run_prefix steps (Datatypes.S n) s =
  match step s_n with
  | (Return true, s') => Some s'
  | _ => None
  end.
Proof.
  revert steps s. induction n as [|n IH]; intros steps s Hp Hn.
  - cbn in Hp. inversion Hp; subst.
    destruct steps as [|step0 steps]; [discriminate|].
    cbn in Hn. inversion Hn; subst. cbn.
    destruct (step s_n) as [[[|]|e] s1]; reflexivity.
  - destruct steps as [|step0 steps]; [discriminate|].
    cbn in Hn.
    change (run_prefix (step0 :: steps) (Datatypes.S n) s)
      with (match step0 s with
            | (Return true, s') => run_prefix steps n s'
            | _ => None
            end) in Hp.
    change (run_prefix (step0 :: steps) (Datatypes.S (Datatypes.S n)) s)
      with (match step0 s with
            | (Return true, s') => run_prefix steps (Datatypes.S n) s'
            | _ => None
            end).
    destruct (step0 s) as [[[|]|e] s1]; try discriminate.
    now apply IH.
Qed.

Lemma run_prefix_inv steps n s s' :
  run_prefix steps (Datatypes.S n) s = Some s' ->
  exists step s_n,
    steps !! n = Some step /\ run_prefix steps n s = Some s_n /\
    step s_n = (Return true, s').
Proof.
  revert steps s. induction n as [|n IH]; intros steps s Hp.
  - destruct steps as [|step0 steps]; [discriminate|]. cbn in Hp.
    destruct (step0 s) as [[[|]|e] s1] eqn:H0; try discriminate.
    inversion Hp; subst. exists step0, s. repeat split. exact H0.
  - destruct steps as [|step0 steps]; [discriminate|].
    change (run_prefix (step0 :: steps) (Datatypes.S (Datatypes.S n)) s)
      with (match step0 s with
            | (Return true, s') => run_prefix steps (Datatypes.S n) s'
            | _ => None
            end) in Hp.
    destruct (step0 s) as [[[|]|e] s1] eqn:H0; try discriminate.
    destruct (IH steps s1 Hp) as (step & s_n & Hn & Hpn & Hs).
    exists step, s_n. split; [exact Hn|]. split; [|exact Hs].
    cbn. now rewrite H0.
Qed.

(** A frame kept by every step is kept by the chain and by its prefixes. *)
Lemma pipeline_keeps (R : S -> S -> Prop) `{!Reflexive R, !Transitive R} steps :
  Forall (Keeps R) steps -> Keeps R (pipeline steps).
Proof.
  induction 1 as [|step steps Hs _ IH]; intros s; cbn; [reflexivity|].
  unfold bind. specialize (Hs s).
  destruct (step s) as [[[|]|e] s1]; cbn in *; try exact Hs.
  etransitivity; [exact Hs | apply IH].
Qed.

Lemma run_prefix_keeps (R : S -> S -> Prop) `{!Reflexive R, !Transitive R}
    steps n s s_n :
  Forall (Keeps R) (take n steps) -> run_prefix steps n s = Some s_n -> R s s_n.
Proof.
  revert steps s. induction n as [|n IH]; intros steps s HF H; cbn in H.
  - inversion H; subst. reflexivity.
  - destruct steps as [|step steps]; [discriminate|].
    cbn in HF. apply Forall_cons in HF as [Hs HF]. specialize (Hs s).
    destruct (step s) as [[[|]|e] s1]; try discriminate. cbn in Hs.
    etransitivity; [exact Hs | now apply (IH steps)].
Qed.
End Pipeline.

(** A chain that does not get through its first [n] steps ends within
    them, and keeps what they keep. *)
Lemma pipeline_stops_early {S E : Type} (R : S -> S -> Prop)
    `{!Reflexive R, !Transitive R} (steps : list (Async S E bool)) (n : nat) (s : S) :
  Forall (Keeps R) (take n steps) -> run_prefix steps n s = None ->
  R s (snd (pipeline steps s)).
Proof.
  revert steps s. induction n as [|n IH]; intros steps s HF Hp; [discriminate|].
  destruct steps as [|step steps]; [reflexivity|].
  cbn in HF. apply Forall_cons in HF as [Hs HF]. specialize (Hs s).
  rewrite pipeline_cons. cbn in Hp.
  destruct (step s) as [[[|]|e] s1]; cbn in *; try exact Hs.
  etransitivity; [exact Hs | now apply IH].
Qed.

(** One step of a frame proof: a rule for the head of the computation, or a
    case split on what it branches on. *)
Ltac keeps_step :=
  lazymatch goal with
  | |- Keeps _ (ret _) => apply keeps_ret; try exact _
  | |- Keeps _ (throw _) => apply keeps_throw; try exact _
  | |- Keeps _ get => apply keeps_get; try exact _
  | |- Keeps _ (bind _ _) => apply keeps_bind; [try exact _ | | intros ?]
  | |- Keeps _ (try_catch _ _) => apply keeps_try_catch; [try exact _ | | intros ?]
  | |- Keeps _ (match ?x with _ => _ end) => destruct x
  end.

(** ** The sync client *)

Module VateudFacts.
Import Vateud VateudSpec.

Section Send.
Context {T : Type}.
Variables (env : Env) (remote : AxiosRequestConfig -> HttpOutcome T) (props : SendT).


(** An inline request that is answered with a status in 2xx: [_send] gives
    the body of the answer, and only the list of requests sent grows. *)
Lemma _send_success (w : World) (body : T) :
  Answered env remote props body ->
  exists key,
    API_KEY env = Some key /\
    _send env remote props w = (Return (Some body), add_sent (request env key props) w).
Proof.
  intros (key & status & Hk & Hr & Hlo & Hhi). exists key. split; [exact Hk|].
  unfold _send, axios, try_catch, bind, modify, ret, throw.
  rewrite Hk; cbn. rewrite Hr.
  replace ((200 <=? status) && (status <? 300)) with true; [reflexivity|].
  symmetry; apply andb_true_iff; split; [apply Z.leb_le | apply Z.ltb_lt]; lia.
Qed.
End Send.




(** C7.  A solo-create whose inline request succeeds returns the
    response, schedules no job and logs nothing, and changes the solo
    records in one way only: every record whose id is the call's
    [local_solo_id] gets the [id] of the response as its [vateud_solo_id];
    its other columns, and all other records, stay as they were. *)
Theorem createSolo_success_writes_remote_id
    (env : Env) (w : World) (soloInfo : VateudCoreSoloCreateT)
    (body : VateudCoreSoloCreateResponseT) :
  InlineSuccess env (remote_create env) (create_props soloInfo) body ->
  exists w',
    createSolo env soloInfo w = (Return (Some body), w') /\
    jobs w' = jobs w /\ log w' = log w /\
    length (user_solos w') = length (user_solos w) /\
    forall (i : nat) (r : UserSolo),
      user_solos w !! i = Some r ->
      exists r',
        user_solos w' !! i = Some r' /\
        solo_id r' = solo_id r /\ columns r' = columns r /\
        (solo_id r = local_solo_id soloInfo ->
         vateud_solo_id r' = Some (id (data body))) /\
        (solo_id r <> local_solo_id soloInfo -> r' = r).
Proof.
  intros Hok.
  destruct (_send_success env _ _ w (Typed body) Hok) as (key & _ & Hs).
  unfold createSolo, bind. rewrite Hs. cbn.
  eexists. split; [reflexivity|]. cbn.
  repeat split.
  - apply length_map.
  - intros i r Hi. rewrite list_lookup_fmap, Hi. cbn.
    eexists. split; [reflexivity|].
    destruct (decide (solo_id r = local_solo_id soloInfo)) as [He|Hne]; cbn.
    + repeat split; congruence.
    + repeat split; congruence.
Qed.



(** The unreachable sync target of the specification's scenario: one
    solo-remove job with the payload of the call, and nothing thrown. *)
Example removeSolo_unreachable :
  removeSolo unreachable remove_7 two_solos
  = (Return tt,
     {| jobs := [ {| job_type := VATEUD_CORE; payload := remove_job remove_7 |} ];
        user_solos := user_solos two_solos;
        log := [];
        sent := [ request unreachable "secret" (remove_props remove_7) ] |}).
Proof. reflexivity. Qed.

Lemma createSolo_success_writes_remote_id_witness :
  exists w',
    createSolo reachable create_7 two_solos
      = (Return (Some {| data := {| id := "r-9" |} |}), w') /\
    jobs w' = jobs two_solos /\ log w' = log two_solos /\
    length (user_solos w') = length (user_solos two_solos) /\
    forall (i : nat) (r : UserSolo),
      user_solos two_solos !! i = Some r ->
      exists r',
        user_solos w' !! i = Some r' /\
        solo_id r' = solo_id r /\ columns r' = columns r /\
        (solo_id r = 7 -> vateud_solo_id r' = Some "r-9") /\
        (solo_id r <> 7 -> r' = r).
Proof.
  apply (createSolo_success_writes_remote_id reachable two_solos create_7).
  exists "secret", 201. repeat split; try reflexivity; lia.
Defined.

End VateudFacts.


(** ** The login flow *)

Module ConnectFacts.
Import Connect ConnectSpec ConnectExamples.

(** *** Frames of the collaborators *)

#[local] Instance same_this_refl : Reflexive same_this.
Proof. intros s. reflexivity. Qed.
#[local] Instance same_this_trans : Transitive same_this.
Proof. unfold same_this. intros s1 s2 s3 H1 H2. congruence. Qed.

(** *** Order of the collaborator calls *)

Lemma sorted_ranks_app (lo mid hi : nat) (a b : list Call) :
  (lo <= mid <= hi)%nat ->
  StronglySorted lt (map rank a) -> Forall (fun x => (lo <= rank x < mid)%nat) a ->
  StronglySorted lt (map rank b) -> Forall (fun x => (mid <= rank x < hi)%nat) b ->
  StronglySorted lt (map rank (a ++ b)) /\
  Forall (fun x => (lo <= rank x < hi)%nat) (a ++ b).
Proof.
  intros Hm Sa Fa Sb Fb. split.
  - induction a as [|x a IH]; cbn in *; [exact Sb|].
    apply StronglySorted_inv in Sa as [Sa Hx].
    apply Forall_cons in Fa as [Fx Fa].
    constructor; [apply IH; assumption|].
    rewrite map_app. apply Forall_app. split; [exact Hx|].
    apply Forall_fmap. eapply Forall_impl; [exact Fb|]. cbn. intros y Hy. lia.
  - apply Forall_app.
    split; (eapply Forall_impl; [eassumption|]); cbn; intros y Hy; lia.
Qed.

Section Order.
Context {A B : Type}.

(** A computation that makes no call fits anywhere. *)
Lemma ordered_silent (lo hi : nat) (c : M A) :
  (forall s, calls (world (snd (c s))) = calls (world s)) -> Ordered lo hi c.
Proof.
  intros H s. exists []. rewrite H, app_nil_r.
  repeat split; constructor.
Qed.

Lemma ordered_weaken (lo hi lo' hi' : nat) (c : M A) :
  (lo' <= lo)%nat -> (hi <= hi')%nat -> Ordered lo hi c -> Ordered lo' hi' c.
Proof.
  intros Hlo Hhi H s. destruct (H s) as (made & Hc & Hs & Hf).
  exists made. repeat split; try assumption.
  eapply Forall_impl; [exact Hf|]. cbn. intros x Hx. lia.
Qed.

Lemma ordered_bind (lo mid hi : nat) (c : M A) (k : A -> M B) :
  (lo <= mid <= hi)%nat ->
  Ordered lo mid c -> (forall a, Ordered mid hi (k a)) -> Ordered lo hi (bind c k).
Proof.
  intros Hm Hc Hk s. unfold bind.
  destruct (Hc s) as (m1 & E1 & S1 & F1).
  destruct (c s) as [[a|e] s1]; cbn in *.
  - destruct (Hk a s1) as (m2 & E2 & S2 & F2).
    exists (m1 ++ m2). rewrite E2, E1, <- app_assoc.
    split; [reflexivity|]. eapply sorted_ranks_app; eassumption.
  - exists m1. repeat split; try assumption.
    eapply Forall_impl; [exact F1|]. cbn. intros x Hx. lia.
Qed.
End Order.

Lemma ordered_try_catch {A} (lo mid hi : nat) (body : M A) (handler : Exn -> M A) :
  (lo <= mid <= hi)%nat ->
  Ordered lo mid body -> (forall e, Ordered mid hi (handler e)) ->
  Ordered lo hi (try_catch body handler).
Proof.
  intros Hm Hb Hh s. unfold try_catch.
  destruct (Hb s) as (m1 & E1 & S1 & F1).
  destruct (body s) as [[a|e] s1]; cbn in *.
  - exists m1. repeat split; try assumption.
    eapply Forall_impl; [exact F1|]. cbn. intros x Hx. lia.
  - destruct (Hh e s1) as (m2 & E2 & S2 & F2).
    exists (m1 ++ m2). rewrite E2, E1, <- app_assoc.
    split; [reflexivity|]. eapply sorted_ranks_app; eassumption.
Qed.

Lemma ordered_call (c : Call) : Ordered (rank c) (S (rank c)) (call c).
Proof.
  intros s. exists [c]. cbn. repeat split.
  - repeat constructor.
  - repeat constructor; lia.
Qed.

Lemma ordered_call_in (lo hi : nat) (c : Call) :
  (lo <= rank c < hi)%nat -> Ordered lo hi (call c).
Proof. intros H. eapply ordered_weaken; [| |apply ordered_call]; lia. Qed.

(** Leaves of an order proof: a computation that makes no call, a single
    call, or a case split. *)
Ltac ordered_leaf :=
  repeat lazymatch goal with
  | |- Ordered _ _ (call _) => apply ordered_call_in; cbn; lia
  | |- Ordered _ _ (match ?x with _ => _ end) => destruct x
  | |- Ordered _ _ _ => apply ordered_silent; intros ?; reflexivity
  end.

Ltac ordered_seq n :=
  apply ordered_bind with (mid := n); [lia | | intros ?].

(** Committed statements write to [users] and [user_data] only. *)
Lemma apply_writes_frame (t : Transaction) (w : World) :
  calls (fold_left apply_write t w) = calls w /\
  console (fold_left apply_write t w) = console w /\
  user_settings (fold_left apply_write t w) = user_settings w /\
  user_sessions (fold_left apply_write t w) = user_sessions w.
Proof.
  revert w. induction t as [|x t IH]; intros w; cbn; [repeat split|].
  destruct (IH (apply_write w x)) as (-> & -> & -> & ->).
  destruct x; repeat split.
Qed.

Section MethodsInOrder.
Variable env : Env.

Lemma axios_post_token_ordered body : Ordered 1 2 (axios_post_token env body).
Proof. unfold axios_post_token. ordered_seq 2%nat; ordered_leaf. Qed.

Lemma axios_get_user_ordered bearer : Ordered 2 3 (axios_get_user env bearer).
Proof. unfold axios_get_user. ordered_seq 3%nat; ordered_leaf. Qed.

Lemma _queryAccessTokens_ordered code : Ordered 1 2 (_queryAccessTokens env code).
Proof.
  unfold _queryAccessTokens. ordered_seq 2%nat; [|ordered_leaf].
  apply ordered_try_catch with (mid := 2%nat); [lia | apply axios_post_token_ordered |].
  intros e. unfold console_log. ordered_seq 2%nat; ordered_leaf.
Qed.

Lemma _queryUserData_ordered : Ordered 2 3 (_queryUserData env).
Proof.
  unfold _queryUserData. ordered_seq 2%nat; [ordered_leaf|].
  destruct (m_accessToken _); [|ordered_leaf].
  ordered_seq 3%nat; [|ordered_seq 3%nat; ordered_leaf].
  apply ordered_try_catch with (mid := 3%nat);
    [lia | apply axios_get_user_ordered | intros e; ordered_leaf].
Qed.

Lemma required_scopes_loop_silent supplied required (s : State) :
  snd (required_scopes_loop supplied required s) = s.
Proof.
  induction required as [|r required IH]; cbn; [reflexivity|].
  destruct (indexOf supplied r =? -1); [reflexivity | exact IH].
Qed.

Lemma _validateSuppliedScopes_silent (s : State) :
  snd (_validateSuppliedScopes env s) = s.
Proof.
  unfold _validateSuppliedScopes, bind, get. cbn.
  destruct (m_suppliedScopes (this s)); [|reflexivity].
  apply required_scopes_loop_silent.
Qed.

Lemma _validateSuppliedScopes_ordered lo hi :
  Ordered lo hi (_validateSuppliedScopes env).
Proof.
  apply ordered_silent. intros s. now rewrite _validateSuppliedScopes_silent.
Qed.

Lemma _checkIsUserSuspended_ordered : Ordered 4 5 (_checkIsUserSuspended env).
Proof.
  unfold _checkIsUserSuspended. ordered_seq 4%nat; [ordered_leaf|].
  destruct (m_userData _); [|ordered_leaf].
  ordered_seq 5%nat; ordered_leaf.
Qed.

Lemma _updateDatabase_ordered : Ordered 5 10 (_updateDatabase env).
Proof.
  unfold _updateDatabase. ordered_seq 5%nat; [ordered_leaf|].
  destruct (m_userData _); [|ordered_leaf].
  destruct (invalid _); [ordered_leaf|].
  destruct (oauth _); [|ordered_leaf].
  ordered_seq 6%nat.
  { unfold sequelize_transaction. ordered_seq 6%nat; ordered_leaf. }
  apply ordered_try_catch with (mid := 9%nat);
    [lia | | intros e; unfold rollback; ordered_seq 9%nat; [ordered_leaf|];
              ordered_seq 10%nat; ordered_leaf].
  match goal with
  | |- context [cid ?u] => destruct (cid u), (personal u), (vatsim u)
  end; try ordered_leaf.
  ordered_seq 7%nat.
  { unfold User_upsert. ordered_seq 7%nat; ordered_leaf. }
  ordered_seq 8%nat.
  { unfold UserData_upsert. ordered_seq 8%nat; ordered_leaf. }
  unfold commit. ordered_seq 9%nat; ordered_leaf.
  apply ordered_silent. intros s. cbn. apply (apply_writes_frame _ (world s)).
Qed.

Lemma UserSettings_findOrCreate_ordered user :
  Ordered 10 11 (UserSettings_findOrCreate user).
Proof.
  unfold UserSettings_findOrCreate. ordered_seq 11%nat; [ordered_leaf|].
  destruct user; [|ordered_leaf].
  apply ordered_silent. intros s. cbn. now destruct (user_settings (world s) !! z).
Qed.

Lemma User_findOne_ordered user : Ordered 11 12 (User_findOne user).
Proof.
  unfold User_findOne. ordered_seq 12%nat; [ordered_leaf|].
  destruct user; [|ordered_leaf]. ordered_seq 12%nat; ordered_leaf.
Qed.

Lemma createSessionToken_ordered request response user remember :
  Ordered 13 14 (createSessionToken env request response user remember).
Proof.
  unfold createSessionToken. ordered_seq 14%nat; [ordered_leaf|].
  destruct (unique_browser_token request); [|ordered_leaf].
  destruct (mint_session _ _ _); [|ordered_leaf].
  ordered_seq 14%nat; ordered_leaf.
Qed.

Lemma UserSession_destroy_ordered user browser :
  Ordered 12 13 (UserSession_destroy user browser).
Proof. unfold UserSession_destroy. ordered_seq 13%nat; ordered_leaf. Qed.

Lemma _handleSessionChange_ordered : Ordered 12 14 (_handleSessionChange env).
Proof.
  unfold _handleSessionChange. ordered_seq 12%nat; [ordered_leaf|].
  repeat lazymatch goal with
  | |- Ordered _ _ (match ?x with _ => _ end) => destruct x
  end; try (apply ordered_silent; intros ?; reflexivity).
  ordered_seq 13%nat;
    [apply UserSession_destroy_ordered | apply createSessionToken_ordered].
Qed.

Lemma login_ordered request response code :
  Ordered 1 15 (login env request response code).
Proof.
  unfold login. destruct code as [code|]; [|ordered_leaf].
  ordered_seq 1%nat; [ordered_leaf|].
  ordered_seq 2%nat; [apply _queryAccessTokens_ordered|].
  ordered_seq 3%nat; [apply _queryUserData_ordered|].
  ordered_seq 3%nat; [ordered_leaf|].
  destruct (m_userData _); [|unfold Response_sendStatus; ordered_leaf].
  ordered_seq 4%nat; [apply _validateSuppliedScopes_ordered|].
  ordered_seq 5%nat; [apply _checkIsUserSuspended_ordered|].
  ordered_seq 5%nat; [ordered_leaf|].
  destruct (m_userData _); [|ordered_leaf].
  ordered_seq 10%nat; [apply _updateDatabase_ordered|].
  ordered_seq 11%nat; [apply UserSettings_findOrCreate_ordered|].
  ordered_seq 12%nat; [apply User_findOne_ordered|].
  ordered_seq 14%nat; [apply _handleSessionChange_ordered|].
  unfold Response_send. ordered_leaf.
Qed.
End MethodsInOrder.

(** A frame proof for a method: unfold it, then apply the rules down to
    the state updates, which computation settles. *)
Ltac keeps :=
  repeat keeps_step;
  try (apply keeps_modify; try exact _; intros ?; hnf; cbn;
       repeat split; reflexivity).

Section MethodFrames.
Variable env : Env.

Lemma _validateSuppliedScopes_keeps (R : State -> State -> Prop) `{!Reflexive R} :
  Keeps R (_validateSuppliedScopes env).
Proof. intros s. rewrite _validateSuppliedScopes_silent. reflexivity. Qed.

Lemma _updateDatabase_keeps_this : Keeps same_this (_updateDatabase env).
Proof.
  unfold _updateDatabase, sequelize_transaction, User_upsert, UserData_upsert,
    commit, rollback, call.
  keeps.
Qed.

Lemma UserSettings_findOrCreate_keeps_this user :
  Keeps same_this (UserSettings_findOrCreate user).
Proof. unfold UserSettings_findOrCreate, call. keeps. Qed.

End MethodFrames.

(** *** [login] as a chain of steps *)

#[local] Arguments _queryAccessTokens : simpl never.
#[local] Arguments _queryUserData : simpl never.
#[local] Arguments _validateSuppliedScopes : simpl never.
#[local] Arguments _checkIsUserSuspended : simpl never.
#[local] Arguments _updateDatabase : simpl never.
#[local] Arguments UserSettings_findOrCreate : simpl never.
#[local] Arguments User_findOne : simpl never.
#[local] Arguments _handleSessionChange : simpl never.
#[local] Arguments Response_send : simpl never.
#[local] Arguments Response_sendStatus : simpl never.

Lemma login_pipeline env request response code (s : State) :
  login env request response (Some code) s =
  pipeline (login_steps env code) (with_this (set_exchange request response) s).
Proof.
  unfold login, login_steps, pipeline, step_exchange, step_profile, step_scopes,
    step_suspension, step_reconcile, step_settings, step_session.
  unfold bind at 1. cbn [modify].
  unfold bind, get, ret, throw. cbn.
  destruct (_queryAccessTokens env code _) as [[[]|e] s1]; [|reflexivity].
  destruct (_queryUserData env s1) as [[d|e] s2]; [|reflexivity]. cbn.
  destruct (m_userData (this s2)) as [u0|] eqn:Hu0; cbn.
  2: { destruct (Response_sendStatus _ s2) as [[[]|e] s3]; reflexivity. }
  destruct (_validateSuppliedScopes env s2) as [[[]|e] s3]; [|reflexivity]. cbn.
  destruct (_checkIsUserSuspended env s3) as [[[]|e] s4]; [|reflexivity]. cbn.
  destruct (m_userData (this s4)) as [u|] eqn:Hu; cbn; [|reflexivity].
  pose proof (_updateDatabase_keeps_this env s4) as H5.
  destruct (_updateDatabase env s4) as [[[]|e] s5]; [|reflexivity]. cbn in *.
  pose proof (UserSettings_findOrCreate_keeps_this (cid u) s5) as H6.
  rewrite H5, Hu. cbn.
  destruct (UserSettings_findOrCreate (cid u) s5) as [[[]|e] s6]; [|reflexivity].
  cbn in *. rewrite H6, H5, Hu. cbn.
  destruct (User_findOne (cid u) s6) as [[user|e] s7]; [|reflexivity]. cbn.
  destruct (_handleSessionChange env s7) as [[[]|e] s8]; reflexivity.
Qed.

(** *** Reconciliation *)

(** What [_updateDatabase] does once the profile has passed its checks: it
    touches neither the instance, nor the console, nor the settings and
    sessions; the two rows are written together or not at all; a rejected
    statement is rolled back and swallowed, and a rejected commit ends in
    the error of the rollback. *)
Lemma _updateDatabase_outcome (env : Env) (s : State) (u : VatsimUserData)
    (c : Z) (p : Personal) (v : Vatsim) (o : OAuth) :
  m_userData (this s) = Some u ->
  cid u = Some c -> personal u = Some p -> vatsim u = Some v -> oauth u = Some o ->
  exists s',
    _updateDatabase env s = (reconciliation_completion env, s') /\
    this s' = this s /\
    console (world s') = console (world s) /\
    user_settings (world s') = user_settings (world s) /\
    user_sessions (world s') = user_sessions (world s) /\
    calls (world s')
      = calls (world s)
        ++ reconciliation_calls env (user_row c p (tokenValid_of o) (this s))
             (user_data_row c p v) /\
    if user_upsert_rejects env || userdata_upsert_rejects env || commit_rejects env
    then users (world s') = users (world s) /\
         user_data (world s') = user_data (world s)
    else users (world s')
           = <[c := user_row c p (tokenValid_of o) (this s)]> (users (world s)) /\
         user_data (world s') = <[c := user_data_row c p v]> (user_data (world s)).
Proof.
  intros Hu Hc Hp Hv Ho.
  unfold _updateDatabase, _validateUserData, bind, get. cbn.
  rewrite Hu. cbn. rewrite Hc, Hp, Hv, Ho. cbn.
  unfold reconciliation_completion, reconciliation_calls, try_catch, bind, User_upsert,
    UserData_upsert, commit, rollback, bind, get, call, modify, ret, throw, finished.
  destruct (user_upsert_rejects env), (userdata_upsert_rejects env),
    (commit_rejects env); cbn; rewrite ?fold_left_app; cbn;
    eexists; (split; [reflexivity|]); cbn; rewrite <- ?app_assoc; repeat split.
Qed.




(** C9 (as amended).  In every reconciliation that commits, the
    [access_token] and [refresh_token] columns of the user's row hold the
    tokens of the instance when [data.oauth.token_valid] of the profile is the
    string "true" in any letter case, and are null in every other case. *)
Theorem tokens_follow_oauth_token_valid (env : Env) (s : State)
    (u : VatsimUserData) (c : Z) (p : Personal) (v : Vatsim) (o : OAuth) :
  m_userData (this s) = Some u ->
  cid u = Some c -> personal u = Some p -> vatsim u = Some v -> oauth u = Some o ->
  user_upsert_rejects env = false -> userdata_upsert_rejects env = false ->
  commit_rejects env = false ->
  exists s' row,
    _updateDatabase env s = (Return tt, s') /\
    users (world s') !! c = Some row /\
    ((exists t, token_valid o = Some t /\ toLowerCase t = "true"%string) ->
     User.access_token row = m_accessToken (this s) /\
     User.refresh_token row = m_refreshToken (this s)) /\
    (~ (exists t, token_valid o = Some t /\ toLowerCase t = "true"%string) ->
     User.access_token row = None /\ User.refresh_token row = None).
Proof.
  intros Hu Hc Hp Hv Ho R1 R2 R3.
  destruct (_updateDatabase_outcome env s u c p v o Hu Hc Hp Hv Ho)
    as (s' & Hrun & _ & _ & _ & _ & _ & Hrows).
  unfold reconciliation_completion in Hrun.
  rewrite R1, R2, R3 in Hrows, Hrun. cbn in Hrows, Hrun. destruct Hrows as [Hus _].
  exists s', (user_row c p (tokenValid_of o) (this s)).
  split; [exact Hrun|]. split; [rewrite Hus; apply lookup_insert_eq|].
  unfold tokenValid_of, user_row. cbn. split.
  - intros (t & Ht & Htrue). rewrite Ht, Htrue. cbn. split; reflexivity.
  - intros Hno. destruct (token_valid o) as [t|]; [|split; reflexivity].
    destruct (String.eqb_spec (toLowerCase t) "true") as [Heq|Hne];
      [|split; reflexivity].
    exfalso. apply Hno. exists t. split; [reflexivity | exact Heq].
Qed.

Lemma tokens_follow_oauth_token_valid_witness :
  exists s' row,
    _updateDatabase healthy (reconciling empty_world) = (Return tt, s') /\
    users (world s') !! 1234 = Some row /\
    User.access_token row = Some "tok1"%string /\
    User.refresh_token row = Some "ref1"%string.
Proof.
  destruct (tokens_follow_oauth_token_valid healthy (reconciling empty_world)
              profile 1234 somebody (controller None) {| token_valid := Some "true" |}
              eq_refl eq_refl eq_refl eq_refl eq_refl eq_refl eq_refl eq_refl)
    as (s' & row & Hrun & Hrow & Hyes & _).
  exists s', row. split; [exact Hrun|]. split; [exact Hrow|].
  apply Hyes. exists "true"%string. split; reflexivity.
Defined.

(** C9 (as stated) fails on where [token_valid] is read: a profile that
    says "true" under [data.vatsim], as the interface description has it, and
    "false" under [data.oauth] logs in, its reconciliation commits, and its
    tokens are stored as null. *)
Lemma token_valid_under_vatsim_is_not_read :
  let r := run_login (deployment all_granted profile_as_described false (Some "session-1"))
             browser (Some "abc123"%string) empty_world in
  (vatsim profile_as_described ≫= vatsim_token_valid) = Some "true"%string /\
  fst r = Return tt /\
  In Commit (calls (world (snd r))) /\
  users (world (snd r)) !! 1234
    = Some {| User.id := 1234;
              User.first_name := "Ada"; User.last_name := "Lovelace";
              User.email := "ada@example.org";
              User.access_token := None; User.refresh_token := None |}.
Proof. vm_compute. repeat split. tauto. Qed.

(** *** Code exchange *)

(** Every way the token exchange can end. *)
Lemma _queryAccessTokens_outcome (env : Env) (code : string) (s : State) :
  let s1 := with_world (add_call (Post_oauth_token (token_request env code))) s in
  _queryAccessTokens env code s =
  match oauth_token env (token_request env code) with
  | Resolved (Some d) =>
      (Return tt,
       with_this (set_tokens (access_token d) (refresh_token d) (scopes d)) s1)
  | Resolved None => (Throw (VatsimConnectException (Some ERR_INV_SCOPES)), s1)
  | Rejected response =>
      let s2 := with_world (add_console (AxiosError response)) s1 in
      match response with
      | Some {| hint := Some h |} =>
          if includes "revoked" (toLowerCase h)
          then (Throw (VatsimConnectException (Some ERR_INV_CODE)), s2)
          else (Throw (VatsimConnectException (Some ERR_INV_SCOPES)), s2)
      | _ => (Throw TypeError, s2)
      end
  end.
Proof.
  unfold _queryAccessTokens, axios_post_token, try_catch, bind, call, console_log,
    modify, ret, throw. cbn. fold (token_request env code).
  destruct (oauth_token env (token_request env code)) as [[d|]|[[[h|]]|]]; cbn;
    try reflexivity.
  destruct (includes "revoked" (toLowerCase h)); reflexivity.
Qed.

(** The letter case of a hint: "REVO", the Kelvin sign, "ED" is "revoked"
    in lower case. *)
Example toLowerCase_of_the_kelvin_sign :
  toLowerCase
    ("REVO" ++ String (ascii_of_N 226) (String (ascii_of_N 132)
                 (String (ascii_of_N 170) "ED")))
  = "revoked"%string.
Proof. reflexivity. Qed.

(** C5 fails on a timed-out exchange.  axios rejects without a response;
    the [catch] block reads [e.response.data] and a [TypeError] leaves
    [login], where the claim has [InvalidScopesError]. *)
Lemma timed_out_exchange_throws_TypeError :
  let r := run_login (deployment (Rejected None) profile false (Some "session-1"))
             browser (Some "abc123"%string) empty_world in
  fst r = Throw TypeError /\
  fst r <> Throw (VatsimConnectException (Some ERR_INV_SCOPES)) /\
  console (world (snd r)) = [AxiosError None] /\
  user_sessions (world (snd r)) = [].
Proof. vm_compute. repeat split. discriminate. Qed.

(** *** What the methods throw *)

Ltac raises := repeat raises_step; try discriminate.

Ltac unfold_methods :=
  unfold _queryAccessTokens, _queryUserData, _validateSuppliedScopes,
    _checkIsUserSuspended, _updateDatabase, _handleSessionChange,
    UserSettings_findOrCreate, User_findOne, UserSession_destroy, createSessionToken,
    Response_send, Response_sendStatus, axios_post_token, axios_get_user,
    sequelize_transaction, User_upsert, UserData_upsert, commit, rollback,
    console_log, call.

Lemma required_scopes_loop_raises (P : Exn -> Prop) supplied required :
  P (VatsimConnectException (Some ERR_INV_SCOPES)) ->
  Raises P (required_scopes_loop supplied required).
Proof.
  intros HP. induction required as [|r required IH]; cbn; [apply raises_ret|].
  destruct (indexOf supplied r =? -1); [apply raises_throw; exact HP | exact IH].
Qed.

(** Nothing but the check of the code throws [ERR_NO_CODE]. *)
Lemma login_with_code_raises env request response code :
  Raises (fun e => e <> VatsimConnectException (Some ERR_NO_CODE))
    (login env request response (Some code)).
Proof.
  unfold login. unfold_methods. raises.
  apply required_scopes_loop_raises. discriminate.
Qed.

(** After scope validation, nothing throws [ERR_INV_SCOPES]. *)
Lemma after_scopes_raises env code :
  Raises (fun e => e <> VatsimConnectException (Some ERR_INV_SCOPES))
    (pipeline (drop 3 (login_steps env code))).
Proof.
  cbn [drop login_steps]. apply raises_pipeline.
  repeat apply Forall_cons_2; try apply Forall_nil_2;
    unfold step_suspension, step_reconcile, step_settings, step_session;
    unfold_methods; raises.
Qed.

(** *** Scope validation *)

Lemma indexOf_from_absent (i : Z) (a : list string) (x : string) :
  0 <= i -> indexOf_from i a x = -1 <-> ~ In x a.
Proof.
  revert i. induction a as [|y a IH]; intros i Hi; cbn.
  - tauto.
  - destruct (String.eqb_spec y x) as [->|Hne].
    + split; [lia | intros H; exfalso; apply H; now left].
    + rewrite IH by lia. tauto.
Qed.

Lemma covers_spec (supplied required : list string) :
  covers supplied required = true <-> forall r, In r required -> In r supplied.
Proof.
  unfold covers. rewrite forallb_forall. split; intros H r Hr.
  - specialize (H r Hr). apply negb_true_iff, Z.eqb_neq in H.
    destruct (in_dec string_dec r supplied) as [Hin|Hout]; [exact Hin|].
    exfalso. apply H. apply indexOf_from_absent; [lia | exact Hout].
  - apply negb_true_iff, Z.eqb_neq. intros Habs.
    apply indexOf_from_absent in Habs; [|lia]. apply Habs, H, Hr.
Qed.

(** The loop stops at the first required scope that is missing. *)
Lemma required_scopes_loop_spec (supplied required : list string) (s : State) :
  required_scopes_loop supplied required s =
  if covers supplied required then (Return tt, s)
  else (Throw (VatsimConnectException (Some ERR_INV_SCOPES)), s).
Proof.
  induction required as [|r required IH]; cbn; [reflexivity|].
  destruct (indexOf supplied r =? -1); cbn; [reflexivity | exact IH].
Qed.

Lemma step_scopes_outcome (env : Env) (s : State) :
  step_scopes env s =
  match m_suppliedScopes (this s) with
  | None => (Throw (VatsimConnectException None), s)
  | Some supplied =>
      if covers supplied (required_scopes env) then (Return true, s)
      else (Throw (VatsimConnectException (Some ERR_INV_SCOPES)), s)
  end.
Proof.
  unfold step_scopes, _validateSuppliedScopes, bind, get. cbn.
  destruct (m_suppliedScopes (this s)) as [supplied|]; [|reflexivity].
  fold (required_scopes env). rewrite required_scopes_loop_spec.
  destruct (covers supplied (required_scopes env)); reflexivity.
Qed.

(** *** Reaching a step *)

Lemma run_login_pipeline (env : Env) (request : Request) (code : string) (w : World) :
  run_login env request (Some code) w
  = pipeline (login_steps env code) (entry request w).
Proof. unfold run_login. now rewrite login_pipeline. Qed.

(** An exchange that gives a payload with an access token and a profile
    request that gives a document take a login to scope validation. *)
Lemma reach_scopes (env : Env) (request : Request) (code : string) (w : World)
    (d : VatsimOauthToken) (bearer : string) (u : VatsimUserData) :
  oauth_token env (token_request env code) = Resolved (Some d) ->
  access_token d = Some bearer ->
  api_user env bearer = Resolved (Some u) ->
  run_prefix (login_steps env code) 2 (entry request w)
  = Some (at_scopes env request code w d bearer u).
Proof.
  intros Hx Ht Hu.
  cbn [run_prefix login_steps]. unfold step_exchange, bind.
  rewrite _queryAccessTokens_outcome, Hx. cbn.
  unfold step_profile, _queryUserData, axios_get_user, try_catch, bind, get, call,
    modify, ret. cbn.
  rewrite Ht. cbn. rewrite Hu. cbn. unfold at_scopes. now rewrite Ht.
Qed.

(** *** Two scenarios *)

(** Code "abc123", all required scopes granted: the login succeeds, the row
    of the [cid] of the profile is written with its tokens, and the browser of
    the request has one session. *)
Example login_succeeds :
  let r := run_login healthy browser (Some "abc123"%string) empty_world in
  fst r = Return tt /\
  users (world (snd r)) !! 1234
    = Some {| User.id := 1234;
              User.first_name := "Ada"; User.last_name := "Lovelace";
              User.email := "ada@example.org";
              User.access_token := Some "tok1"%string;
              User.refresh_token := Some "ref1"%string |} /\
  user_sessions (world (snd r)) = [new_session 1234 "firefox-1" "session-1" false].
Proof. vm_compute. repeat split. Qed.

(** The same code once the provider has revoked it: [ERR_INV_CODE], no row
    written, no session. *)
Example login_with_revoked_code :
  let r := run_login revoked browser (Some "abc123"%string) empty_world in
  fst r = Throw (VatsimConnectException (Some ERR_INV_CODE)) /\
  users (world (snd r)) = ∅ /\ user_sessions (world (snd r)) = [].
Proof. vm_compute. repeat split. Qed.

(** *** Calls are only added *)

#[local] Instance makes_refl (P : Call -> bool) : Reflexive (ConnectSpecMore.makes P).
Proof. intros s. exists []. now rewrite app_nil_r. Qed.
#[local] Instance makes_trans (P : Call -> bool) : Transitive (ConnectSpecMore.makes P).
Proof.
  intros s1 s2 s3 (m1 & E1 & F1) (m2 & E2 & F2). exists (m1 ++ m2).
  rewrite E2, E1, <- app_assoc, forallb_app, F1, F2. split; reflexivity.
Qed.

Lemma call_makes (P : Call -> bool) (c : Call) :
  P c = true -> Keeps (ConnectSpecMore.makes P) (call c).
Proof. intros HP s. exists [c]. cbn. now rewrite HP. Qed.

Lemma silent_makes {A} (P : Call -> bool) (c : M A) :
  (forall s, calls (world (snd (c s))) = calls (world s)) -> Keeps (ConnectSpecMore.makes P) c.
Proof. intros H s. exists []. now rewrite H, app_nil_r. Qed.

Ltac makes_leaves :=
  try solve [apply call_makes; reflexivity];
  try solve [apply silent_makes; intros ?; reflexivity];
  try solve [apply silent_makes; intros ?; cbn;
             match goal with
             | |- context [fold_left apply_write ?t ?w0] =>
                 destruct (apply_writes_frame t w0) as (? & ? & ? & ?)
             end; assumption].

(** Whatever follows the code exchange only adds calls. *)
Lemma steps_add_calls env code :
  Forall (Keeps (ConnectSpecMore.makes (fun _ => true)))
    (drop 1 (login_steps env code)).
Proof.
  cbn [drop login_steps].
  repeat apply Forall_cons_2; try apply Forall_nil_2.
  - unfold step_profile, _queryUserData, axios_get_user, Response_sendStatus.
    repeat keeps_step; makes_leaves.
  - unfold step_scopes. keeps_step; [apply _validateSuppliedScopes_keeps; exact _|].
    repeat keeps_step; makes_leaves.
  - unfold step_suspension, _checkIsUserSuspended. repeat keeps_step; makes_leaves.
  - unfold step_reconcile, _updateDatabase, sequelize_transaction, User_upsert,
      UserData_upsert, commit, rollback.
    repeat keeps_step; makes_leaves.
  - unfold step_settings, UserSettings_findOrCreate. repeat keeps_step; makes_leaves.
    apply silent_makes. intros s0. cbn.
    now destruct (user_settings (world s0) !! _).
  - unfold step_session, User_findOne, _handleSessionChange, UserSession_destroy,
      createSessionToken, Response_send.
    repeat keeps_step; makes_leaves.
Qed.

(** *** The claims on the course of a login *)

(** C4 (as amended).  A login without a code (the argument is [null] or
    [undefined]) fails with [ERR_NO_CODE] and leaves the instance and the
    world as they were: no call has been made.  A login with a code never
    fails with [ERR_NO_CODE], whatever the code is, the empty string
    included: it goes on to the token exchange, which is the first call it
    makes, with that code. *)
Theorem missing_code_is_rejected_first (env : Env) (request : Request)
    (response : Response) :
  (forall s,
      login env request response None s
      = (Throw (VatsimConnectException (Some ERR_NO_CODE)), s)) /\
  (forall code s,
      fst (login env request response (Some code) s)
      <> Throw (VatsimConnectException (Some ERR_NO_CODE))) /\
  (forall code s,
      exists rest,
        calls (world (snd (login env request response (Some code) s)))
        = calls (world s) ++ Post_oauth_token (token_request env code) :: rest).
Proof.
  split; [reflexivity|]. split.
  - intros code s Habs.
    destruct (login env request response (Some code) s) as [r s'] eqn:Hrun.
    cbn in Habs. subst r.
    now apply (login_with_code_raises env request response code s _ s' Hrun).
  - intros code s.
    pose proof (pipeline_cons (step_exchange env code) (drop 1 (login_steps env code))
                  (with_this (set_exchange request response) s)) as Hcons.
    change (step_exchange env code :: drop 1 (login_steps env code))
      with (login_steps env code) in Hcons.
    rewrite login_pipeline, Hcons. clear Hcons.
    unfold step_exchange. unfold bind at 1.
    rewrite _queryAccessTokens_outcome. cbn zeta.
    pose proof (pipeline_keeps (ConnectSpecMore.makes (fun _ => true)) _
                  (steps_add_calls env code)) as Htail.
    set (tail := pipeline (drop 1 (login_steps env code))) in *. clearbody tail.
    destruct (oauth_token env (token_request env code)) as [[d|]|[[[h|]]|]]; cbn.
    + match goal with
      | |- context [tail ?s1] => destruct (Htail s1) as (made & Hmade & _)
      end.
      exists made. rewrite Hmade. cbn. now rewrite <- app_assoc.
    + now exists [].
    + destruct (includes "revoked" (toLowerCase h)); now exists [].
    + now exists [].
    + now exists [].
Qed.

(** C4 (as stated) fails on the empty string: it is a code like any other,
    the first thing done with it is the token exchange, and here the login
    succeeds. *)
Lemma empty_code_is_exchanged :
  let r := run_login healthy browser (Some ""%string) empty_world in
  fst r = Return tt /\
  head (calls (world (snd r))) = Some (Post_oauth_token (token_request healthy "")) /\
  length (user_sessions (world (snd r))) = 1%nat.
Proof. vm_compute. repeat split. Qed.

(** C6 (as amended).  For a login that reaches scope validation: it fails
    with [ERR_INV_SCOPES] exactly when the payload of the exchange carries a
    list of scopes that lacks one of the pieces of [client_scopes] between
    single spaces; a payload without a list of scopes fails with the
    exception that has no error kind; and the step hands over to the
    suspension check exactly when the list has every required scope. *)
Theorem scope_validation_in_login (env : Env) (request : Request) (code : string)
    (w : World) (d : VatsimOauthToken) (bearer : string) (u : VatsimUserData) :
  oauth_token env (token_request env code) = Resolved (Some d) ->
  access_token d = Some bearer ->
  api_user env bearer = Resolved (Some u) ->
  (fst (run_login env request (Some code) w)
     = Throw (VatsimConnectException (Some ERR_INV_SCOPES)) <->
   exists granted,
     scopes d = Some granted /\
     ~ (forall r, In r (required_scopes env) -> In r granted)) /\
  (scopes d = None ->
   fst (run_login env request (Some code) w) = Throw (VatsimConnectException None)) /\
  (is_Some (run_prefix (login_steps env code) 3 (entry request w)) <->
   exists granted,
     scopes d = Some granted /\
     forall r, In r (required_scopes env) -> In r granted).
Proof.
  intros Hx Ht Hu.
  pose proof (reach_scopes env request code w d bearer u Hx Ht Hu) as Hreach.
  assert (Hrun : run_login env request (Some code) w
                 = pipeline (drop 2 (login_steps env code))
                     (at_scopes env request code w d bearer u))
    by (rewrite run_login_pipeline; now apply pipeline_reach).
  assert (Hthree : run_prefix (login_steps env code) 3 (entry request w)
                   = match step_scopes env (at_scopes env request code w d bearer u) with
                     | (Return true, s') => Some s'
                     | _ => None
                     end)
    by (now apply run_prefix_snoc).
  rewrite Hthree, Hrun. clear Hthree Hrun Hreach.
  change (drop 2 (login_steps env code))
    with (step_scopes env :: drop 3 (login_steps env code)).
  set (rest := drop 3 (login_steps env code)) in *.
  cbn [pipeline]. unfold bind.
  rewrite step_scopes_outcome. cbn [at_scopes this m_suppliedScopes].
  destruct (scopes d) as [granted|].
  - destruct (covers granted (required_scopes env)) eqn:Hcov.
    + assert (Hall := proj1 (covers_spec _ _) Hcov).
      repeat split.
      * intros Habs. exfalso.
        destruct (pipeline rest _) as [r s'] eqn:Hrest in Habs. cbn in Habs. subst r.
        now apply (after_scopes_raises env code _ _ _ Hrest).
      * intros (g & Hg & Hno). inversion Hg; subst. contradiction.
      * discriminate.
      * intros _. exists granted. split; [reflexivity | exact Hall].
      * intros _. eexists. reflexivity.
    + assert (Hno : ~ (forall r, In r (required_scopes env) -> In r granted))
        by (intros Hall; apply covers_spec in Hall; congruence).
      repeat split.
      * intros _. exists granted. split; [reflexivity | exact Hno].
      * discriminate.
      * intros [s' Hs']. discriminate.
      * intros (g & Hg & Hall). inversion Hg; subst. contradiction.
  - repeat split.
    + discriminate.
    + intros (g & Hg & _). discriminate.
    + intros [s' Hs']. discriminate.
    + intros (g & Hg & _). discriminate.
Qed.

Lemma scope_validation_in_login_witness :
  is_Some (run_prefix (login_steps healthy "abc123") 3 (entry browser empty_world)) /\
  fst (run_login stingy browser (Some "abc123"%string) empty_world)
  = Throw (VatsimConnectException (Some ERR_INV_SCOPES)).
Proof.
  split.
  - apply (scope_validation_in_login healthy browser "abc123" empty_world
             (tokens (Some ["full_name"; "vatsim_details"; "email"]%string))
             "tok1" profile eq_refl eq_refl eq_refl).
    eexists. split; [reflexivity|]. intros r Hr. exact Hr.
  - apply (scope_validation_in_login stingy browser "abc123" empty_world
             (tokens (Some ["full_name"%string])) "tok1" profile
             eq_refl eq_refl eq_refl).
    eexists. split; [reflexivity|]. intros Hall.
    assert (Hin : In "email"%string (required_scopes stingy))
      by (right; right; left; reflexivity).
    destruct (Hall _ Hin) as [H|[]]. discriminate H.
Defined.

(** C6 (as stated) fails when the provider names no scopes at all: none of
    the required scopes is granted, the login reaches scope validation (the
    exchange and the profile request are the calls made), and the exception
    thrown there has no error kind. *)
Lemma absent_scopes_fail_without_kind :
  let r := run_login scopeless browser (Some "abc123"%string) empty_world in
  fst r = Throw (VatsimConnectException None) /\
  fst r <> Throw (VatsimConnectException (Some ERR_INV_SCOPES)) /\
  calls (world (snd r))
    = [Post_oauth_token (token_request scopeless "abc123"); Get_api_user "tok1"].
Proof. vm_compute. repeat split. discriminate. Qed.

(** C8 (as amended).  The collaborator calls of a login are made in
    strictly increasing rank: code exchange, profile fetch, suspension
    check, reconciliation, settings, user lookup, session replacement,
    reply.  A login whose scope validation fails ends there: the exchange
    and the profile request are the only calls made, so neither the
    suspension check nor the reconciliation has run, and the tables are as
    before.  And whenever one of the steps throws or answers for itself, the
    login ends in the state that step leaves, so that no later step runs.
    The reconciliation throws less often than it fails: when the database
    rejects one of its statements, the transaction is rolled back and the
    login goes on to the settings and to the session step; when the database
    rejects the commit, the rollback throws and the login ends there. *)
Theorem login_steps_in_order (env : Env) (request : Request) (code : string)
    (w : World) :
  (exists made,
      calls (world (snd (run_login env request (Some code) w))) = calls w ++ made /\
      StronglySorted lt (map rank made)) /\
  (forall d bearer u,
      oauth_token env (token_request env code) = Resolved (Some d) ->
      access_token d = Some bearer ->
      api_user env bearer = Resolved (Some u) ->
      (scopes d = None \/
       exists granted,
         scopes d = Some granted /\
         ~ (forall r, In r (required_scopes env) -> In r granted)) ->
      exists e s',
        run_login env request (Some code) w = (Throw e, s') /\
        calls (world s')
          = calls w ++ [Post_oauth_token (token_request env code); Get_api_user bearer] /\
        users (world s') = users w /\ user_data (world s') = user_data w /\
        user_settings (world s') = user_settings w /\
        user_sessions (world s') = user_sessions w) /\
  (forall n step s_n e s',
      login_steps env code !! n = Some step ->
      run_prefix (login_steps env code) n (entry request w) = Some s_n ->
      step s_n = (Throw e, s') ->
      run_login env request (Some code) w = (Throw e, s')) /\
  (forall n step s_n s',
      login_steps env code !! n = Some step ->
      run_prefix (login_steps env code) n (entry request w) = Some s_n ->
      step s_n = (Return false, s') ->
      run_login env request (Some code) w = (Return tt, s')) /\
  (forall s4 u c p v o,
      run_prefix (login_steps env code) 4 (entry request w) = Some s4 ->
      m_userData (this s4) = Some u ->
      cid u = Some c -> personal u = Some p -> vatsim u = Some v -> oauth u = Some o ->
      let made :=
        reconciliation_calls env (user_row c p (tokenValid_of o) (this s4))
          (user_data_row c p v) in
      (user_upsert_rejects env || userdata_upsert_rejects env = true ->
       exists s5 s6,
         run_prefix (login_steps env code) 5 (entry request w) = Some s5 /\
         calls (world s5) = calls (world s4) ++ made /\
         last made = Some Rollback /\
         users (world s5) = users (world s4) /\
         user_data (world s5) = user_data (world s4) /\
         run_prefix (login_steps env code) 6 (entry request w) = Some s6 /\
         calls (world s6)
           = calls (world s5) ++ [UserSettings_findOrCreate_call (Some c)] /\
         run_login env request (Some code) w = pipeline [step_session env] s6) /\
      (user_upsert_rejects env || userdata_upsert_rejects env = false ->
       commit_rejects env = true ->
       exists s',
         run_login env request (Some code) w
           = (Throw (Error cannot_be_rolled_back), s') /\
         calls (world s') = calls (world s4) ++ made /\
         users (world s') = users (world s4) /\
         user_data (world s') = user_data (world s4) /\
         user_settings (world s') = user_settings (world s4) /\
         user_sessions (world s') = user_sessions (world s4))).
Proof.
  split; [|split; [|split; [|split]]].
  5: {
    intros s4 u c p v o H4 Hu Hc Hp Hv Ho made.
    destruct (_updateDatabase_outcome env s4 u c p v o Hu Hc Hp Hv Ho)
      as (s5 & Hrun & Hthis & _ & Hset & Hses & Hcalls & Hrows).
    fold made in Hcalls. unfold reconciliation_completion in Hrun.
    split.
    - intros Hrej. rewrite Hrej in Hrun, Hrows. cbn in Hrows.
      destruct Hrows as [Hus Hud].
      assert (Hstep : step_reconcile env s4 = (Return true, s5)).
      { unfold step_reconcile, bind, get. cbn. rewrite Hu. cbn. unfold bind.
        now rewrite Hrun. }
      assert (H5 : run_prefix (login_steps env code) 5 (entry request w) = Some s5).
      { rewrite (run_prefix_snoc _ 4 (step_reconcile env) _ s4 H4 eq_refl).
        now rewrite Hstep. }
      destruct (step_settings s5) as [r6 s6] eqn:Hsettings.
      assert (H6 : r6 = Return true /\
                   calls (world s6)
                   = calls (world s5) ++ [UserSettings_findOrCreate_call (Some c)]).
      { unfold step_settings, UserSettings_findOrCreate, bind, get, call, modify, ret
          in Hsettings.
        cbn in Hsettings. rewrite Hthis, Hu in Hsettings. cbn in Hsettings.
        rewrite Hc in Hsettings. cbn in Hsettings.
        inversion Hsettings; subst r6 s6. split; [reflexivity|]. cbn.
        now destruct (user_settings (world s5) !! c). }
      destruct H6 as [-> Hcalls6].
      assert (Hp6 : run_prefix (login_steps env code) 6 (entry request w) = Some s6).
      { rewrite (run_prefix_snoc _ 5 step_settings _ s5 H5 eq_refl).
        now rewrite Hsettings. }
      exists s5, s6. repeat split; try assumption.
      + unfold made, reconciliation_calls.
        destruct (user_upsert_rejects env); [reflexivity|]. cbn in Hrej.
        now rewrite Hrej.
      + rewrite run_login_pipeline. now rewrite (pipeline_reach _ _ _ _ Hp6).
    - intros Hacc Hcommit. rewrite Hacc, Hcommit in Hrun.
      rewrite Hcommit, orb_true_r in Hrows. destruct Hrows as [Hus Hud].
      exists s5. repeat split; try assumption.
      rewrite run_login_pipeline.
      apply (pipeline_throw (login_steps env code) 4 (step_reconcile env) _ s4 _ _
               eq_refl H4).
      unfold step_reconcile, bind, get. cbn. rewrite Hu. cbn. unfold bind.
      now rewrite Hrun. }

  - destruct (login_ordered env request TheResponse (Some code)
                {| this := new_instance; world := w |}) as (made & Hc & Hs & _).
    exists made. split; assumption.
  - intros d bearer u Hx Ht Hu Hshort.
    pose proof (reach_scopes env request code w d bearer u Hx Ht Hu) as Hreach.
    assert (Hstep : exists e,
               step_scopes env (at_scopes env request code w d bearer u)
               = (Throw e, at_scopes env request code w d bearer u)).
    { rewrite step_scopes_outcome. cbn [at_scopes this m_suppliedScopes].
      destruct Hshort as [-> | (granted & -> & Hno)]; [eexists; reflexivity|].
      destruct (covers granted (required_scopes env)) eqn:Hcov;
        [|eexists; reflexivity].
      exfalso. apply Hno. now apply covers_spec. }
    destruct Hstep as [e Hstep]. exists e, (at_scopes env request code w d bearer u).
    split.
    + rewrite run_login_pipeline.
      now apply (pipeline_throw (login_steps env code) 2 (step_scopes env) _ _ _ _
                   eq_refl Hreach).
    + cbn. rewrite <- app_assoc. repeat split.
  - intros n step s_n e s' Hn Hp Hs. rewrite run_login_pipeline.
    now apply (pipeline_throw _ n step _ s_n).
  - intros n step s_n s' Hn Hp Hs. rewrite run_login_pipeline.
    now apply (pipeline_stop _ n step _ s_n).
Qed.

Lemma login_steps_in_order_witness :
  (exists e s',
      run_login stingy browser (Some "abc123"%string) empty_world = (Throw e, s') /\
      calls (world s')
        = [Post_oauth_token (token_request stingy "abc123"); Get_api_user "tok1"] /\
      users (world s') = ∅) /\
  run_login stingy browser (Some "abc123"%string) empty_world
  = (Throw (VatsimConnectException (Some ERR_INV_SCOPES)),
     at_scopes stingy browser "abc123" empty_world
       (tokens (Some ["full_name"%string])) "tok1" profile) /\
  (exists s6,
      run_prefix (login_steps rejecting "abc123") 6 (entry browser empty_world)
        = Some s6 /\
      users (world s6) = ∅) /\
  fst (run_login ConnectExamplesMore.uncommitted browser (Some "abc123"%string)
         empty_world)
  = Throw (Error cannot_be_rolled_back).
Proof.
  destruct (login_steps_in_order stingy browser "abc123" empty_world)
    as (_ & Hscopes & Hthrow & _).
  destruct (login_steps_in_order rejecting browser "abc123" empty_world)
    as (_ & _ & _ & _ & Hrejected).
  destruct (login_steps_in_order ConnectExamplesMore.uncommitted browser "abc123"
              empty_world) as (_ & _ & _ & _ & Huncommitted).
  split; [|split; [|split]].
  3: {
    destruct (Hrejected
                (ConnectSpecMore.at_suspension rejecting browser "abc123" empty_world
                   (tokens (Some ["full_name"; "vatsim_details"; "email"]%string))
                   "tok1" profile)
                profile 1234 somebody (controller None) {| token_valid := Some "true" |}
                eq_refl eq_refl eq_refl eq_refl eq_refl eq_refl)
      as (Hgoes_on & _).
    destruct (Hgoes_on eq_refl) as (s5 & s6 & _ & _ & _ & Hus & _ & H6 & _).
    exists s6. split; [exact H6|].
    apply run_prefix_inv in H6 as (step & s5' & Hn & H5' & Hstep).
    cbn in Hn. inversion Hn; subst step.
    vm_compute in H5'. inversion H5'; subst s5'.
    vm_compute in Hstep. inversion Hstep. reflexivity. }
  3: {
    destruct (Huncommitted
                (ConnectSpecMore.at_suspension ConnectExamplesMore.uncommitted browser
                   "abc123" empty_world
                   (tokens (Some ["full_name"; "vatsim_details"; "email"]%string))
                   "tok1" profile)
                profile 1234 somebody (controller None) {| token_valid := Some "true" |}
                eq_refl eq_refl eq_refl eq_refl eq_refl eq_refl)
      as (_ & Hstops).
    destruct (Hstops eq_refl eq_refl) as (s' & Hrun & _).
    now rewrite Hrun. }
  - destruct (Hscopes (tokens (Some ["full_name"%string])) "tok1"%string profile
                eq_refl eq_refl eq_refl) as (e & s' & Hrun & Hcalls & Hus & _).
    + right. eexists. split; [reflexivity|]. intros Hall.
      assert (Hin : In "email"%string (required_scopes stingy))
        by (right; right; left; reflexivity).
      destruct (Hall _ Hin) as [H|[]]. discriminate H.
    + exists e, s'. split; [exact Hrun|]. split; assumption.
  - apply (Hthrow 2%nat (step_scopes stingy)
             (at_scopes stingy browser "abc123" empty_world
                (tokens (Some ["full_name"%string])) "tok1" profile));
      reflexivity.
Defined.

(** C8 (as stated) fails on the reconciliation: the database rejects the
    [User] upsert, the transaction is rolled back and no row is written, and
    the login goes on to settings, user lookup and session replacement, and
    answers with success. *)
Lemma login_goes_on_after_rejected_reconciliation :
  let r := run_login rejecting browser (Some "abc123"%string) empty_world in
  fst r = Return tt /\
  users (world (snd r)) = ∅ /\ user_data (world (snd r)) = ∅ /\
  map rank (calls (world (snd r))) = [1; 2; 4; 5; 6; 9; 10; 11; 12; 13; 14]%nat /\
  length (user_sessions (world (snd r))) = 1%nat.
Proof. vm_compute. repeat split. Qed.

(** The same login with a database that rejects the commit: the rollback in
    the [catch] of the reconciliation throws, and the login ends there,
    with no row, no settings and no session. *)
Example login_stops_after_rejected_commit :
  let r := run_login ConnectExamplesMore.uncommitted browser (Some "abc123"%string)
             empty_world in
  fst r = Throw (Error cannot_be_rolled_back) /\
  map rank (calls (world (snd r))) = [1; 2; 4; 5; 6; 7; 8; 9]%nat /\
  users (world (snd r)) = ∅ /\ user_settings (world (snd r)) = ∅ /\
  user_sessions (world (snd r)) = [].
Proof. vm_compute. repeat split. Qed.

(** *** The session step *)

#[local] Instance session_frame_refl : Reflexive session_frame.
Proof. intros s. repeat split. Qed.
#[local] Instance session_frame_trans : Transitive session_frame.
Proof.
  unfold session_frame. intros s1 s2 s3 (? & ? & ?) (? & ? & ?). repeat split; congruence.
Qed.

Lemma _updateDatabase_keeps_sessions env : Keeps session_frame (_updateDatabase env).
Proof.
  unfold _updateDatabase, sequelize_transaction, User_upsert, UserData_upsert,
    commit, rollback, call.
  keeps.
  apply keeps_modify. intros s. hnf. cbn. repeat split.
  apply (apply_writes_frame _ (world s)).
Qed.

Lemma steps_keep_sessions env code :
  Forall (Keeps session_frame) (take 6 (login_steps env code)).
Proof.
  cbn [take login_steps].
  repeat apply Forall_cons_2; try apply Forall_nil_2.
  - unfold step_exchange, _queryAccessTokens, axios_post_token, console_log, call.
    keeps.
  - unfold step_profile, _queryUserData, axios_get_user, Response_sendStatus, call.
    keeps.
  - unfold step_scopes. keeps_step; [apply _validateSuppliedScopes_keeps; exact _|].
    keeps.
  - unfold step_suspension, _checkIsUserSuspended, call. keeps.
  - unfold step_reconcile. keeps_step; [keeps|]. keeps_step; [|keeps].
    keeps_step; [apply _updateDatabase_keeps_sessions | keeps].
  - unfold step_settings, UserSettings_findOrCreate, call. keeps.
    apply keeps_modify. intros s. hnf. cbn.
    now destruct (user_settings (world s) !! _).
Qed.

(** A reconciliation step that hands over has seen a profile with a [cid]
    and has left the instance as it was. *)
Lemma step_reconcile_passed env (s s' : State) :
  step_reconcile env s = (Return true, s') ->
  exists u c, m_userData (this s) = Some u /\ cid u = Some c /\ this s' = this s.
Proof.
  intros H. pose proof (_updateDatabase_keeps_this env s) as Hthis.
  unfold step_reconcile, bind, get in H. cbn in H.
  destruct (m_userData (this s)) as [u|] eqn:Hu; [|discriminate].
  destruct (_updateDatabase env s) as [[[]|e] s1] eqn:Hrun; [|discriminate].
  cbn in H, Hthis. inversion H; subst s1.
  exists u. destruct (cid u) as [c|] eqn:Hc.
  - exists c. repeat split. exact Hthis.
  - exfalso. unfold _updateDatabase, _validateUserData, bind, get in Hrun.
    cbn in Hrun. rewrite Hu in Hrun. cbn in Hrun. rewrite Hc in Hrun.
    cbn in Hrun. discriminate.
Qed.

Lemma step_settings_passed (s s' : State) :
  step_settings s = (Return true, s') -> this s' = this s.
Proof.
  intros H.
  pose proof (UserSettings_findOrCreate_keeps_this
                (m_userData (this s) ≫= cid) s) as Hthis.
  unfold step_settings, bind, get in H. cbn in H.
  destruct (UserSettings_findOrCreate _ s) as [[[]|e] s1]; [|discriminate].
  cbn in H, Hthis. inversion H; subst s1. exact Hthis.
Qed.

(** What holds when a login has reached the session step. *)
Lemma at_session_step env request code w (s6 : State) :
  run_prefix (login_steps env code) 6 (entry request w) = Some s6 ->
  m_request (this s6) = Some request /\
  m_response (this s6) = Some TheResponse /\
  user_sessions (world s6) = user_sessions w /\
  exists u c, m_userData (this s6) = Some u /\ cid u = Some c.
Proof.
  intros H6.
  destruct (run_prefix_keeps session_frame _ _ _ _ (steps_keep_sessions env code) H6)
    as (Hreq & Hres & Hses).
  repeat split; try assumption.
  apply run_prefix_inv in H6 as (step6 & s5 & Hn6 & H5 & Hs6).
  cbn in Hn6. inversion Hn6; subst step6.
  apply run_prefix_inv in H5 as (step5 & s4 & Hn5 & _ & Hs5).
  cbn in Hn5. inversion Hn5; subst step5.
  apply step_settings_passed in Hs6.
  apply step_reconcile_passed in Hs5 as (u & c & Hu & Hc & Hthis).
  exists u, c. rewrite Hs6, Hthis. split; assumption.
Qed.

(** The session step, case by case. *)
Lemma step_session_outcome env (s : State) u c request response :
  m_userData (this s) = Some u -> cid u = Some c ->
  m_request (this s) = Some request -> m_response (this s) = Some response ->
  exists user,
    step_session env s =
    let s1 := with_world (add_call (User_findOne_call (Some c))) s in
    match unique_browser_token request with
    | None => (Throw (VatsimConnectException None), s1)
    | Some b =>
        let s2 :=
          with_world (add_call (CreateSessionToken_call c (m_remember env)))
            (with_world
               (fun w => set_user_sessions (without_sessions_of c b (user_sessions w)) w)
               (with_world (add_call (UserSession_destroy_call c b)) s1)) in
        match mint_session env c b with
        | None => (Throw (VatsimConnectException (Some ERR_UNABLE_CREATE_SESSION)), s2)
        | Some token =>
            (Return true,
             with_world (add_call (Response_send_call user))
               (with_world
                  (fun w =>
                     set_user_sessions
                       (user_sessions w ++ [new_session c b token (m_remember env)]) w)
                  s2))
        end
    end.
Proof.
  intros Hu Hc Hreq Hres.
  unfold step_session, User_findOne, _handleSessionChange, UserSession_destroy,
    createSessionToken, Response_send, bind, get, call, modify, ret, throw. cbn.
  rewrite Hu. cbn. rewrite Hc. cbn. rewrite Hreq, Hres. cbn. rewrite Hu. cbn.
  rewrite Hc. cbn.
  eexists.
  destruct (unique_browser_token request) as [b|]; cbn; [|reflexivity].
  destruct (mint_session env c b); reflexivity.
Qed.

Lemma sessions_of_destroyed (c : Z) (b : string) (rows : list UserSession.row) :
  List.filter (session_of c b) (without_sessions_of c b rows) = [].
Proof.
  unfold without_sessions_of. induction rows as [|r rows IH]; cbn; [reflexivity|].
  destruct (session_of c b r) eqn:Hr; cbn; [exact IH|]. now rewrite Hr.
Qed.

Lemma session_of_new (c : Z) (b token : string) (remember : bool) :
  session_of c b (new_session c b token remember) = true.
Proof. unfold session_of. cbn. now rewrite Z.eqb_refl, String.eqb_refl. Qed.

#[local] Arguments without_sessions_of : simpl never.
#[local] Arguments new_session : simpl never.

(** From the session step on, a login is its session step. *)
Lemma run_login_from_session_step env request code w (s6 : State) :
  run_prefix (login_steps env code) 6 (entry request w) = Some s6 ->
  run_login env request (Some code) w =
  match step_session env s6 with
  | (Return _, s') => (Return tt, s')
  | (Throw e, s') => (Throw e, s')
  end.
Proof.
  intros H6. rewrite run_login_pipeline, (pipeline_reach _ _ _ _ H6).
  cbn [drop login_steps pipeline]. unfold bind.
  destruct (step_session env s6) as [[[|]|e] s']; reflexivity.
Qed.

(** C3.  For a login that has reached the session step, with [c] the
    [cid] of its profile: without a [unique-browser-token] header it fails
    with the exception that has no error kind, and the session table is as
    it was before the login; with the header [b], all rows of (c, b) are
    destroyed, then [createSessionToken] is called once, and the table is the
    old one without the rows of (c, b), followed by what was created: one row
    of (c, b) when the login succeeds, and never more than one.  So the rows
    of (c, b) after the login are at most one. *)
Theorem session_replacement (env : Env) (request : Request) (code : string)
    (w : World) (s6 : State) :
  run_prefix (login_steps env code) 6 (entry request w) = Some s6 ->
  exists c,
    (m_userData (this s6) ≫= cid) = Some c /\
    let r := run_login env request (Some code) w in
    match unique_browser_token request with
    | None =>
        fst r = Throw (VatsimConnectException None) /\
        user_sessions (world (snd r)) = user_sessions w
    | Some b =>
        exists created reply,
          calls (world (snd r))
            = calls (world s6)
              ++ [User_findOne_call (Some c);
                  UserSession_destroy_call c b;
                  CreateSessionToken_call c (m_remember env)]
              ++ reply /\
          user_sessions (world (snd r))
            = without_sessions_of c b (user_sessions w) ++ created /\
          sessions_of c b (world (snd r)) = created /\
          (length created <= 1)%nat /\
          (fst r = Return tt -> length created = 1%nat)
    end.
Proof.
  intros H6.
  destruct (at_session_step env request code w s6 H6)
    as (Hreq & Hres & Hses & u & c & Hu & Hc).
  exists c. split; [rewrite Hu; exact Hc|]. cbn zeta.
  rewrite (run_login_from_session_step env request code w s6 H6).
  destruct (step_session_outcome env s6 u c request TheResponse Hu Hc Hreq Hres)
    as (user & ->). cbn zeta.
  destruct (unique_browser_token request) as [b|]; [|split; [reflexivity | exact Hses]].
  destruct (mint_session env c b) as [token|].
  - exists [new_session c b token (m_remember env)], [Response_send_call user].
    cbn. rewrite Hses. repeat split.
    + now rewrite <- !app_assoc.
    + unfold sessions_of. cbn. rewrite List.filter_app, sessions_of_destroyed. cbn.
      now rewrite session_of_new.
    + lia.
  - exists [], []. cbn. rewrite Hses, !app_nil_r. repeat split.
    + now rewrite <- !app_assoc.
    + unfold sessions_of. cbn. apply sessions_of_destroyed.
    + lia.
    + discriminate.
Qed.

Lemma session_replacement_witness :
  exists c,
    c = 1234 /\
    fst (run_login healthy browser (Some "abc123"%string) logged_in) = Return tt /\
    length (sessions_of c "firefox-1" logged_in) = 1%nat /\
    length (sessions_of c "firefox-1"
              (world (snd (run_login healthy browser (Some "abc123"%string) logged_in))))
    = 1%nat.
Proof.
  destruct (session_replacement healthy browser "abc123" logged_in _ eq_refl)
    as (c & Hc & created & reply & _ & _ & Hlive & _ & Hone).
  exists c. split; [injection Hc as <-; reflexivity|].
  split; [reflexivity|]. split; [injection Hc as <-; reflexivity|].
  rewrite Hlive. apply Hone. reflexivity.
Defined.

(** C10.  For a login that has reached the session step with the header
    [b] and the [cid] [c]: when the session-token creation yields no session,
    the login fails with [ERR_UNABLE_CREATE_SESSION] after the rows of (c, b)
    have been destroyed, and they stay destroyed: the table is the old one
    without them, and (c, b) has no live session left. *)
Theorem failed_session_creation_leaves_no_session (env : Env) (request : Request)
    (code : string) (w : World) (s6 : State) (b : string) (c : Z) :
  run_prefix (login_steps env code) 6 (entry request w) = Some s6 ->
  unique_browser_token request = Some b ->
  (m_userData (this s6) ≫= cid) = Some c ->
  mint_session env c b = None ->
  let r := run_login env request (Some code) w in
  fst r = Throw (VatsimConnectException (Some ERR_UNABLE_CREATE_SESSION)) /\
  calls (world (snd r))
    = calls (world s6)
      ++ [User_findOne_call (Some c);
          UserSession_destroy_call c b;
          CreateSessionToken_call c (m_remember env)] /\
  user_sessions (world (snd r)) = without_sessions_of c b (user_sessions w) /\
  sessions_of c b (world (snd r)) = [].
Proof.
  intros H6 Hb Hcid Hmint.
  destruct (at_session_step env request code w s6 H6)
    as (Hreq & Hres & Hses & u & c' & Hu & Hc).
  assert (c' = c) as -> by (rewrite Hu in Hcid; cbn in Hcid; congruence).
  cbn zeta. rewrite (run_login_from_session_step env request code w s6 H6).
  destruct (step_session_outcome env s6 u c request TheResponse Hu Hc Hreq Hres)
    as (user & ->). cbn zeta.
  rewrite Hb, Hmint. cbn. rewrite Hses. repeat split.
  - now rewrite <- !app_assoc.
  - unfold sessions_of. cbn. apply sessions_of_destroyed.
Qed.

Lemma failed_session_creation_leaves_no_session_witness :
  length (sessions_of 1234 "firefox-1" logged_in) = 1%nat /\
  fst (run_login sessionless browser (Some "abc123"%string) logged_in)
  = Throw (VatsimConnectException (Some ERR_UNABLE_CREATE_SESSION)) /\
  sessions_of 1234 "firefox-1"
    (world (snd (run_login sessionless browser (Some "abc123"%string) logged_in))) = [].
Proof.
  destruct (failed_session_creation_leaves_no_session sessionless browser "abc123"
              logged_in _ "firefox-1" 1234 eq_refl eq_refl eq_refl eq_refl)
    as (Hfail & _ & _ & Hnone).
  split; [reflexivity|]. split; assumption.
Defined.

End ConnectFacts.

(** * Further properties *)

(** ** The sync client, case by case *)

Module VateudMore.
Import Vateud VateudSpec.

(** [_send] in full: without a key it logs and sends nothing; with a key it
    sends one request and gives the body of a 2xx answer, [undefined]
    otherwise. *)
Lemma _send_cases {T} (env : Env) (remote : AxiosRequestConfig -> HttpOutcome T)
    (props : SendT) (w : World) :
  _send env remote props w =
  match API_KEY env with
  | None =>
      (Return None,
       add_log (LOG_ERROR,
                ("VATEUD Core API Key missing, but attempted to update: "
                   ++ endpoint props ++ ". Aborting.")%string) w)
  | Some key =>
      (Return
         match remote (request env key props) with
         | HttpResponse status body =>
             if (200 <=? status) && (status <? 300) then Some body else None
         | NetworkError => None
         end,
       add_sent (request env key props) w)
  end.
Proof.
  unfold _send, axios, try_catch, bind, modify, ret, throw, Logger_log.
  destruct (API_KEY env) as [key|]; [|reflexivity]. cbn.
  destruct (remote (request env key props)) as [|status body]; [reflexivity|].
  destruct ((200 <=? status) && (status <? 300)); reflexivity.
Qed.

(** Without an API key no request leaves the process: each call logs one
    error that names the endpoint, schedules its job, and touches no solo
    record. *)
Theorem missing_api_key_sends_nothing (env : Env) (w : World) :
  API_KEY env = None ->
  (forall soloInfo,
      exists w',
        createSolo env soloInfo w = (Return None, w') /\
        sent w' = sent w /\ user_solos w' = user_solos w /\
        log w' = log w ++
          [(LOG_ERROR,
            "VATEUD Core API Key missing, but attempted to update: /solo. Aborting."%string)]) /\
  (forall soloInfo,
      exists w',
        removeSolo env soloInfo w = (Return tt, w') /\
        sent w' = sent w /\ user_solos w' = user_solos w /\
        log w' = log w ++
          [(LOG_ERROR,
            ("VATEUD Core API Key missing, but attempted to update: /solo/"
               ++ rm_vateud_solo_id soloInfo ++ ". Aborting.")%string)]).
Proof.
  intros Hk. split; intros soloInfo.
  - unfold createSolo, bind. rewrite _send_cases, Hk. cbn.
    eexists. repeat split.
  - unfold removeSolo, bind. rewrite _send_cases, Hk. cbn.
    eexists. repeat split.
Qed.

Lemma missing_api_key_sends_nothing_witness :
  exists w',
    createSolo {| API_KEY := None; VATEUD_API_BASE := "https://core.example/api";
                  remote_create := remote_create reachable;
                  remote_remove := remote_remove reachable |} create_7 two_solos
    = (Return None, w') /\
    sent w' = [] /\ length (log w') = 1%nat /\ length (jobs w') = 1%nat.
Proof.
  destruct (missing_api_key_sends_nothing
              {| API_KEY := None; VATEUD_API_BASE := "https://core.example/api";
                 remote_create := remote_create reachable;
                 remote_remove := remote_remove reachable |} two_solos eq_refl)
    as (Hc & _).
  destruct (Hc create_7) as (w' & Hrun & Hsent & _ & Hlog).
  exists w'. split; [exact Hrun|]. split; [exact Hsent|].
  split; [rewrite Hlog; reflexivity|].
  cbv in Hrun. injection Hrun as <-. reflexivity.
Defined.

(** With an API key each call sends exactly one request, whatever comes
    back: the key travels in [x-api-key], a create posts the call's
    [post_data] to [<base>//solo] and a remove sends a body-less DELETE to
    [<base>//solo/<remote id>]; nothing is logged. *)
Theorem one_request_per_call (env : Env) (w : World) (key : string) :
  API_KEY env = Some key ->
  (forall soloInfo,
      let w' := snd (createSolo env soloInfo w) in
      sent w' = sent w ++
        [ {| x_api_key := key;
             url := (VATEUD_API_BASE env ++ "//solo")%string;
             req_method := m_post;
             req_data := Some (post_data soloInfo) |} ] /\
      log w' = log w) /\
  (forall soloInfo,
      let w' := snd (removeSolo env soloInfo w) in
      sent w' = sent w ++
        [ {| x_api_key := key;
             url := (VATEUD_API_BASE env ++ "//solo/" ++ rm_vateud_solo_id soloInfo)%string;
             req_method := m_delete;
             req_data := None |} ] /\
      log w' = log w).
Proof.
  intros Hk. split; intros soloInfo; cbn zeta.
  - unfold createSolo, bind. rewrite _send_cases, Hk.
    destruct (remote_create env _) as [|status [| |body]]; cbn;
      try (destruct ((200 <=? status) && (status <? 300)); cbn); split; reflexivity.
  - unfold removeSolo, bind. rewrite _send_cases, Hk.
    destruct (remote_remove env _) as [|status [| |body]]; cbn;
      try (destruct ((200 <=? status) && (status <? 300)); cbn); split; reflexivity.
Qed.

Lemma one_request_per_call_witness :
  map url (sent (snd (removeSolo unreachable remove_7 two_solos)))
  = ["https://core.example/api//solo/r-9"%string].
Proof.
  destruct (one_request_per_call unreachable two_solos "secret" eq_refl) as (_ & Hr).
  destruct (Hr remove_7) as (Hsent & _). cbn zeta in Hsent. rewrite Hsent.
  reflexivity.
Defined.

(** [UserSolo.update] with the same remote id is idempotent, and does
    nothing where no record has the id. *)
Lemma UserSolo_update_idem (v : string) (k : Z) (rows : list UserSolo) :
  let f := fun r => if decide (solo_id r = k) then set_vateud_solo_id v r else r in
  map f (map f rows) = map f rows.
Proof.
  cbn zeta. rewrite map_map. apply map_ext. intros r.
  destruct (decide (solo_id r = k)) as [He|Hne]; cbn.
  - destruct (decide (solo_id r = k)); [reflexivity | contradiction].
  - destruct (decide (solo_id r = k)); [contradiction | reflexivity].
Qed.

Lemma UserSolo_update_absent (v : string) (k : Z) (rows : list UserSolo) :
  Forall (fun r => solo_id r <> k) rows ->
  map (fun r => if decide (solo_id r = k) then set_vateud_solo_id v r else r) rows = rows.
Proof.
  induction 1 as [|r rows Hr _ IH]; cbn; [reflexivity|].
  rewrite IH. destruct (decide (solo_id r = k)); [contradiction | reflexivity].
Qed.

(** A successful create, as an equation. *)
Lemma createSolo_success_eq (env : Env) (w : World)
    (soloInfo : VateudCoreSoloCreateT) (body : VateudCoreSoloCreateResponseT) :
  InlineSuccess env (remote_create env) (create_props soloInfo) body ->
  exists key,
    API_KEY env = Some key /\
    createSolo env soloInfo w =
    (Return (Some body),
     set_solos
       (map (fun r => if decide (solo_id r = local_solo_id soloInfo)
                      then set_vateud_solo_id (id (data body)) r else r)
            (user_solos w))
       (add_sent (request env key (create_props soloInfo)) w)).
Proof.
  intros (key & status & Hk & Hr & Hlo & Hhi). exists key. split; [exact Hk|].
  unfold createSolo, bind. rewrite _send_cases, Hk, Hr.
  replace ((200 <=? status) && (status <? 300)) with true
    by (symmetry; apply andb_true_iff; split; [apply Z.leb_le | apply Z.ltb_lt]; lia).
  reflexivity.
Qed.

(** A successful create for a local id that no record has: the response is
    returned and every record stays as it is, so the remote id is kept
    nowhere. *)
Theorem createSolo_without_record (env : Env) (w : World)
    (soloInfo : VateudCoreSoloCreateT) (body : VateudCoreSoloCreateResponseT) :
  InlineSuccess env (remote_create env) (create_props soloInfo) body ->
  Forall (fun r => solo_id r <> local_solo_id soloInfo) (user_solos w) ->
  exists w',
    createSolo env soloInfo w = (Return (Some body), w') /\
    user_solos w' = user_solos w /\ jobs w' = jobs w /\ log w' = log w.
Proof.
  intros Hok Hnone.
  destruct (createSolo_success_eq env w soloInfo body Hok) as (key & _ & ->).
  eexists. split; [reflexivity|]. cbn.
  rewrite UserSolo_update_absent by exact Hnone. repeat split.
Qed.

Lemma createSolo_without_record_witness :
  exists w',
    createSolo reachable
      {| local_solo_id := 99; post_data := post_data create_7 |} two_solos
    = (Return (Some {| data := {| id := "r-9" |} |}), w') /\
    user_solos w' = user_solos two_solos.
Proof.
  destruct (createSolo_without_record reachable two_solos
              {| local_solo_id := 99; post_data := post_data create_7 |}
              {| data := {| id := "r-9" |} |})
    as (w' & Hrun & Hsolos & _).
  - exists "secret"%string, 201. repeat split; try reflexivity; lia.
  - repeat constructor; cbn; lia.
  - exists w'. split; assumption.
Defined.

(** Repeating a successful create: the second call gets the same response
    and changes no record and no job any further. *)
Theorem createSolo_twice (env : Env) (w : World)
    (soloInfo : VateudCoreSoloCreateT) (body : VateudCoreSoloCreateResponseT) :
  InlineSuccess env (remote_create env) (create_props soloInfo) body ->
  exists w1 w2,
    createSolo env soloInfo w = (Return (Some body), w1) /\
    createSolo env soloInfo w1 = (Return (Some body), w2) /\
    user_solos w2 = user_solos w1 /\ jobs w2 = jobs w.
Proof.
  intros Hok.
  destruct (createSolo_success_eq env w soloInfo body Hok) as (key & _ & H1).
  rewrite H1.
  destruct (createSolo_success_eq env
              (set_solos
                 (map (fun r => if decide (solo_id r = local_solo_id soloInfo)
                                then set_vateud_solo_id (id (data body)) r else r)
                      (user_solos w))
                 (add_sent (request env key (create_props soloInfo)) w))
              soloInfo body Hok) as (key' & _ & H2).
  do 2 eexists. split; [reflexivity|].
  rewrite H2. split; [reflexivity|]. cbn. split; [|reflexivity].
  apply UserSolo_update_idem.
Qed.

Lemma createSolo_twice_witness :
  exists w1 w2,
    createSolo reachable create_7 two_solos
      = (Return (Some {| data := {| id := "r-9" |} |}), w1) /\
    createSolo reachable create_7 w1
      = (Return (Some {| data := {| id := "r-9" |} |}), w2) /\
    user_solos w2 = user_solos w1 /\ jobs w2 = [].
Proof.
  apply (createSolo_twice reachable two_solos create_7).
  exists "secret"%string, 201. repeat split; try reflexivity; lia.
Defined.

End VateudMore.

(** ** The login flow, step by step *)

Module ConnectMore.
Import Connect ConnectSpec ConnectSpecMore ConnectExamples ConnectExamplesMore
  ConnectFacts.

#[local] Arguments _queryAccessTokens : simpl never.
#[local] Arguments _updateDatabase : simpl never.
#[local] Arguments without_sessions_of : simpl never.
#[local] Arguments new_session : simpl never.
#[local] Existing Instances makes_refl makes_trans.
#[local] Existing Instances same_this_refl same_this_trans session_frame_refl
  session_frame_trans.

Lemma step_exchange_outcome (env : Env) (code : string) (s : State) :
  step_exchange env code s =
  match _queryAccessTokens env code s with
  | (Return _, s') => (Return true, s')
  | (Throw e, s') => (Throw e, s')
  end.
Proof.
  unfold step_exchange, bind. destruct (_queryAccessTokens env code s) as [[[]|e] s'];
    reflexivity.
Qed.

(** The profile step: without an access token nothing is fetched; a fetch
    that gives no document is answered with status 500. *)
Lemma step_profile_outcome (env : Env) (s : State) :
  step_profile env s =
  match m_accessToken (this s) with
  | None =>
      match m_userData (this s) with
      | Some _ => (Return true, s)
      | None =>
          (Return false,
           with_world (add_call (Response_sendStatus_call InternalServerError)) s)
      end
  | Some token =>
      let s1 := with_world (add_call (Get_api_user token)) s in
      match api_user env token with
      | Resolved (Some u) => (Return true, with_this (set_userData (Some u)) s1)
      | _ =>
          (Return false,
           with_world (add_call (Response_sendStatus_call InternalServerError))
             (with_this (set_userData None) s1))
      end
  end.
Proof.
  unfold step_profile, _queryUserData, axios_get_user, Response_sendStatus, try_catch,
    bind, get, call, modify, ret, throw. cbn.
  destruct (m_accessToken (this s)) as [token|]; cbn.
  - destruct (api_user env token) as [[u|]|r]; reflexivity.
  - destruct (m_userData (this s)); reflexivity.
Qed.

(** The suspension step: the ban is looked up first, and the rating is only
    read when the user is not banned. *)
Lemma step_suspension_outcome (env : Env) (s : State) (u : VatsimUserData) :
  m_userData (this s) = Some u ->
  step_suspension env s =
  let s1 := with_world (add_call (CheckIsUserBanned (cid u))) s in
  if checkIsUserBanned env (cid u)
  then (Throw (VatsimConnectException (Some ERR_SUSPENDED)), s1)
  else match vatsim u with
       | None => (Throw TypeError, s1)
       | Some v =>
           if rating v =? 0
           then (Throw (VatsimConnectException (Some ERR_SUSPENDED)), s1)
           else (Return true, s1)
       end.
Proof.
  intros Hu.
  unfold step_suspension, _checkIsUserSuspended, bind, get, call, modify, ret, throw.
  cbn. rewrite Hu. cbn.
  destruct (checkIsUserBanned env (cid u)); [reflexivity|].
  destruct (vatsim u) as [v|]; [|reflexivity].
  destruct (rating v =? 0); reflexivity.
Qed.

(** A reconciliation that the database accepts, as an equation. *)
Lemma _updateDatabase_commits (env : Env) (s : State) (u : VatsimUserData)
    (c : Z) (p : Personal) (v : Vatsim) (o : OAuth) :
  m_userData (this s) = Some u ->
  cid u = Some c -> personal u = Some p -> vatsim u = Some v -> oauth u = Some o ->
  user_upsert_rejects env = false -> userdata_upsert_rejects env = false ->
  commit_rejects env = false ->
  _updateDatabase env s =
  (Return tt,
   with_world
     (fun w =>
        set_user_data (<[c := user_data_row c p v]> (user_data w))
          (set_users (<[c := user_row c p (tokenValid_of o) (this s)]> (users w))
             (add_call Commit
                (add_call (UserData_upsert_call (user_data_row c p v))
                   (add_call (User_upsert_call (user_row c p (tokenValid_of o) (this s)))
                      (add_call Sequelize_transaction w))))))
     s).
Proof.
  intros Hu Hc Hp Hv Ho R1 R2 R3.
  unfold _updateDatabase, _validateUserData, sequelize_transaction, User_upsert,
    UserData_upsert, commit, try_catch, bind, get, call, modify, ret, throw. cbn.
  rewrite Hu. cbn. rewrite Hc, Hp, Hv, Ho. cbn. rewrite R1, R2, R3. reflexivity.
Qed.

(** The checks before the transaction. *)
Lemma _updateDatabase_refuses (env : Env) (s : State) :
  _updateDatabase env s =
  match m_userData (this s) with
  | None => (Throw (VatsimConnectException None), s)
  | Some u =>
      match cid u, personal u, vatsim u with
      | Some _, Some _, Some _ =>
          match oauth u with
          | None => (Throw TypeError, s)
          | Some _ => _updateDatabase env s
          end
      | _, _, _ => (Throw (VatsimConnectException None), s)
      end
  end.
Proof.
  unfold _updateDatabase, _validateUserData, bind, get, throw. cbn.
  destruct (m_userData (this s)) as [u|]; [|reflexivity]. cbn.
  destruct (cid u), (personal u), (vatsim u); cbn; try reflexivity.
  destruct (oauth u); reflexivity.
Qed.

Lemma run_login_first_step (env : Env) (request : Request) (code : string)
    (w : World) :
  run_login env request (Some code) w =
  match _queryAccessTokens env code (entry request w) with
  | (Return _, s') => pipeline (drop 1 (login_steps env code)) s'
  | (Throw e, s') => (Throw e, s')
  end.
Proof.
  rewrite run_login_pipeline. cbn [login_steps drop pipeline]. unfold bind at 1.
  rewrite step_exchange_outcome.
  destruct (_queryAccessTokens env code (entry request w)) as [[[]|e] s']; reflexivity.
Qed.

(** An exchange that the provider refuses with a hint ends the login at
    once: with [ERR_INV_CODE] when the hint has "revoked" in it, in any
    letter case, and with [ERR_INV_SCOPES] otherwise.  The error is written
    to the console, the exchange is the only call made, and no table is
    touched.  An exchange that resolves without a payload fails with
    [ERR_INV_SCOPES], too, and logs nothing. *)
Theorem refused_exchange (env : Env) (request : Request) (code : string) (w : World) :
  (forall h,
      oauth_token env (token_request env code) = Rejected (Some {| hint := Some h |}) ->
      run_login env request (Some code) w =
      (Throw (VatsimConnectException
                (Some (if includes "revoked" (toLowerCase h)
                       then ERR_INV_CODE else ERR_INV_SCOPES))),
       with_world (add_console (AxiosError (Some {| hint := Some h |})))
         (with_world (add_call (Post_oauth_token (token_request env code)))
            (entry request w)))) /\
  (oauth_token env (token_request env code) = Resolved None ->
   run_login env request (Some code) w =
   (Throw (VatsimConnectException (Some ERR_INV_SCOPES)),
    with_world (add_call (Post_oauth_token (token_request env code)))
      (entry request w))).
Proof.
  split.
  - intros h Hx. rewrite run_login_first_step, _queryAccessTokens_outcome, Hx.
    cbn. destruct (includes "revoked" (toLowerCase h)); reflexivity.
  - intros Hx. rewrite run_login_first_step, _queryAccessTokens_outcome, Hx.
    reflexivity.
Qed.

Lemma refused_exchange_witness :
  fst (run_login revoked browser (Some "abc123"%string) logged_in)
  = Throw (VatsimConnectException (Some ERR_INV_CODE)) /\
  user_sessions (world (snd (run_login revoked browser (Some "abc123"%string) logged_in)))
  = user_sessions logged_in.
Proof.
  destruct (refused_exchange revoked browser "abc123" logged_in) as (Hhint & _).
  rewrite (Hhint "Authorization code has been revoked"%string eq_refl).
  split; reflexivity.
Defined.

(** A login whose exchange succeeds but which gets no profile (the payload
    has no access token, so that nothing is fetched, or the fetch is
    rejected or gives no document) does not throw: it answers the request
    with status 500 and stops, having written nothing. *)
Theorem absent_profile_is_answered_with_500 (env : Env) (request : Request)
    (code : string) (w : World) (d : VatsimOauthToken) :
  oauth_token env (token_request env code) = Resolved (Some d) ->
  (access_token d = None \/
   exists token,
     access_token d = Some token /\
     (api_user env token = Resolved None \/ exists r, api_user env token = Rejected r)) ->
  exists s',
    run_login env request (Some code) w = (Return tt, s') /\
    calls (world s')
      = calls w
        ++ Post_oauth_token (token_request env code)
        :: match access_token d with
           | Some token => [Get_api_user token]
           | None => []
           end
        ++ [Response_sendStatus_call 500] /\
    users (world s') = users w /\ user_data (world s') = user_data w /\
    user_settings (world s') = user_settings w /\
    user_sessions (world s') = user_sessions w /\
    console (world s') = console w.
Proof.
  intros Hx Hnone.
  rewrite run_login_first_step, _queryAccessTokens_outcome, Hx.
  cbn [login_steps drop pipeline]. unfold bind at 1.
  rewrite step_profile_outcome. cbn.
  destruct Hnone as [-> | (token & -> & [-> | (r & ->)])]; cbn;
    eexists; (split; [reflexivity|]); cbn; rewrite <- ?app_assoc; repeat split.
Qed.

Lemma absent_profile_is_answered_with_500_witness :
  exists s',
    run_login
      (deployment
         (Resolved (Some {| access_token := None; refresh_token := None;
                            scopes := Some ["full_name"%string] |}))
         profile false (Some "session-1"%string))
      browser (Some "abc123"%string) logged_in = (Return tt, s') /\
    map rank (calls (world s')) = [1; 3]%nat /\
    user_sessions (world s') = user_sessions logged_in.
Proof.
  destruct (absent_profile_is_answered_with_500
              (deployment
                 (Resolved (Some {| access_token := None; refresh_token := None;
                                    scopes := Some ["full_name"%string] |}))
                 profile false (Some "session-1"%string))
              browser "abc123" logged_in _ eq_refl (or_introl eq_refl))
    as (s' & Hrun & Hcalls & _ & _ & _ & Hses & _).
  exists s'. split; [exact Hrun|]. split; [rewrite Hcalls; reflexivity | exact Hses].
Defined.

(** *** Suspension *)

Lemma reach_suspension (env : Env) (request : Request) (code : string) (w : World)
    (d : VatsimOauthToken) (bearer : string) (u : VatsimUserData)
    (granted : list string) :
  oauth_token env (token_request env code) = Resolved (Some d) ->
  access_token d = Some bearer ->
  api_user env bearer = Resolved (Some u) ->
  scopes d = Some granted ->
  covers granted (required_scopes env) = true ->
  run_prefix (login_steps env code) 3 (entry request w)
  = Some (at_scopes env request code w d bearer u).
Proof.
  intros Hx Ht Hu Hs Hcov.
  pose proof (run_prefix_snoc (login_steps env code) 2 (step_scopes env) _ _
                (reach_scopes env request code w d bearer u Hx Ht Hu) eq_refl) as H3.
  rewrite H3, step_scopes_outcome. cbn [at_scopes this m_suppliedScopes].
  now rewrite Hs, Hcov.
Qed.

(** A login that has passed scope validation and meets a ban, or the rating
    0, fails with [ERR_SUSPENDED]; the ban is looked up first, so that the
    rating of a banned user is not even read.  A profile without [vatsim]
    makes the check throw a [TypeError] when the user is not banned.  In each
    case the ban lookup is the last call made and no table is touched. *)
Theorem suspension_check (env : Env) (request : Request) (code : string) (w : World)
    (d : VatsimOauthToken) (bearer : string) (u : VatsimUserData)
    (granted : list string) :
  oauth_token env (token_request env code) = Resolved (Some d) ->
  access_token d = Some bearer ->
  api_user env bearer = Resolved (Some u) ->
  scopes d = Some granted ->
  covers granted (required_scopes env) = true ->
  let stopped := at_suspension env request code w d bearer u in
  calls (world stopped)
    = calls w ++ [Post_oauth_token (token_request env code); Get_api_user bearer;
                  CheckIsUserBanned (cid u)] /\
  untouched w stopped /\
  (checkIsUserBanned env (cid u) = true ->
   run_login env request (Some code) w
   = (Throw (VatsimConnectException (Some ERR_SUSPENDED)), stopped)) /\
  (checkIsUserBanned env (cid u) = false ->
   forall v, vatsim u = Some v -> rating v = 0 ->
   run_login env request (Some code) w
   = (Throw (VatsimConnectException (Some ERR_SUSPENDED)), stopped)) /\
  (checkIsUserBanned env (cid u) = false -> vatsim u = None ->
   run_login env request (Some code) w = (Throw TypeError, stopped)).
Proof.
  intros Hx Ht Hu Hs Hcov stopped.
  pose proof (reach_suspension env request code w d bearer u granted Hx Ht Hu Hs Hcov)
    as H3.
  assert (Hstep := step_suspension_outcome env
                     (at_scopes env request code w d bearer u) u eq_refl).
  cbn zeta in Hstep. fold (at_suspension env request code w d bearer u) in Hstep.
  fold stopped in Hstep.
  split; [cbn; now rewrite <- !app_assoc|]. split; [repeat split|].
  repeat split.
  - intros Hban. rewrite Hban in Hstep. rewrite run_login_pipeline.
    now apply (pipeline_throw (login_steps env code) 3 (step_suspension env) _ _ _ _
                 eq_refl H3).
  - intros Hban v Hv Hr. rewrite Hban, Hv, Hr in Hstep. cbn in Hstep.
    rewrite run_login_pipeline.
    now apply (pipeline_throw (login_steps env code) 3 (step_suspension env) _ _ _ _
                 eq_refl H3).
  - intros Hban Hv. rewrite Hban, Hv in Hstep. rewrite run_login_pipeline.
    now apply (pipeline_throw (login_steps env code) 3 (step_suspension env) _ _ _ _
                 eq_refl H3).
Qed.

Lemma suspension_check_witness :
  run_login banning browser (Some "abc123"%string) logged_in
  = (Throw (VatsimConnectException (Some ERR_SUSPENDED)),
     at_suspension banning browser "abc123" logged_in
       (tokens (Some ["full_name"; "vatsim_details"; "email"]%string)) "tok1" profile) /\
  user_sessions
    (world (at_suspension banning browser "abc123" logged_in
              (tokens (Some ["full_name"; "vatsim_details"; "email"]%string))
              "tok1" profile))
  = user_sessions logged_in.
Proof.
  destruct (suspension_check banning browser "abc123" logged_in
              (tokens (Some ["full_name"; "vatsim_details"; "email"]%string))
              "tok1" profile ["full_name"; "vatsim_details"; "email"]%string
              eq_refl eq_refl eq_refl eq_refl eq_refl)
    as (_ & (_ & _ & _ & Hses) & Hban & _).
  split; [apply Hban; reflexivity | exact Hses].
Defined.

(** *** Reconciliation in a login *)

Lemma reach_reconcile (env : Env) (request : Request) (code : string) (w : World)
    (d : VatsimOauthToken) (bearer : string) (u : VatsimUserData)
    (granted : list string) (v : Vatsim) :
  oauth_token env (token_request env code) = Resolved (Some d) ->
  access_token d = Some bearer ->
  api_user env bearer = Resolved (Some u) ->
  scopes d = Some granted ->
  covers granted (required_scopes env) = true ->
  checkIsUserBanned env (cid u) = false ->
  vatsim u = Some v -> rating v <> 0 ->
  run_prefix (login_steps env code) 4 (entry request w)
  = Some (at_suspension env request code w d bearer u).
Proof.
  intros Hx Ht Hu Hs Hcov Hban Hv Hr.
  pose proof (run_prefix_snoc (login_steps env code) 3 (step_suspension env) _ _
                (reach_suspension env request code w d bearer u granted
                   Hx Ht Hu Hs Hcov) eq_refl) as H4.
  rewrite H4, (step_suspension_outcome env (at_scopes env request code w d bearer u) u
                 eq_refl). cbn zeta.
  rewrite Hban, Hv. apply Z.eqb_neq in Hr. now rewrite Hr.
Qed.

(** A login whose profile has passed the suspension check but lacks [cid]
    or [personal] fails with the exception that has no error kind, and one
    that lacks [oauth] fails with a [TypeError]: in both cases before a
    transaction is opened, so that the ban lookup is the last call made and
    no table is touched. *)
Theorem unusable_profile_is_refused (env : Env) (request : Request) (code : string)
    (w : World) (d : VatsimOauthToken) (bearer : string) (u : VatsimUserData)
    (granted : list string) (v : Vatsim) :
  oauth_token env (token_request env code) = Resolved (Some d) ->
  access_token d = Some bearer ->
  api_user env bearer = Resolved (Some u) ->
  scopes d = Some granted ->
  covers granted (required_scopes env) = true ->
  checkIsUserBanned env (cid u) = false ->
  vatsim u = Some v -> rating v <> 0 ->
  let stopped := at_suspension env request code w d bearer u in
  untouched w stopped /\
  calls (world stopped)
    = calls w ++ [Post_oauth_token (token_request env code); Get_api_user bearer;
                  CheckIsUserBanned (cid u)] /\
  (cid u = None \/ personal u = None ->
   run_login env request (Some code) w
   = (Throw (VatsimConnectException None), stopped)) /\
  (is_Some (cid u) -> is_Some (personal u) -> oauth u = None ->
   run_login env request (Some code) w = (Throw TypeError, stopped)).
Proof.
  intros Hx Ht Hu Hs Hcov Hban Hv Hr stopped.
  pose proof (reach_reconcile env request code w d bearer u granted v
                Hx Ht Hu Hs Hcov Hban Hv Hr) as H4.
  split; [repeat split|]. split.
  { cbn. now rewrite <- !app_assoc. }
  assert (Hstep : step_reconcile env stopped =
                  match _updateDatabase env stopped with
                  | (Return _, s') => (Return true, s')
                  | (Throw e, s') => (Throw e, s')
                  end).
  { unfold step_reconcile, bind, get. cbn.
    destruct (_updateDatabase env stopped) as [[[]|e] s']; reflexivity. }
  rewrite _updateDatabase_refuses in Hstep.
  change (m_userData (this stopped)) with (Some u) in Hstep. cbn beta iota in Hstep.
  rewrite Hv in Hstep. subst stopped.
  split.
  - intros Hmiss. rewrite run_login_pipeline.
    apply (pipeline_throw (login_steps env code) 4 (step_reconcile env) _ _ _ _
             eq_refl H4).
    rewrite Hstep. destruct Hmiss as [-> | ->]; [reflexivity|].
    destruct (cid u); reflexivity.
  - intros [c Hc] [p Hp] Ho. rewrite run_login_pipeline.
    apply (pipeline_throw (login_steps env code) 4 (step_reconcile env) _ _ _ _
             eq_refl H4).
    rewrite Hstep, Hc, Hp, Ho. reflexivity.
Qed.

Lemma unusable_profile_is_refused_witness :
  fst (run_login (deployment all_granted profile_without_oauth false (Some "s"%string))
         browser (Some "abc123"%string) logged_in) = Throw TypeError.
Proof.
  destruct (unusable_profile_is_refused
              (deployment all_granted profile_without_oauth false (Some "s"%string))
              browser "abc123" logged_in
              (tokens (Some ["full_name"; "vatsim_details"; "email"]%string))
              "tok1" profile_without_oauth
              ["full_name"; "vatsim_details"; "email"]%string (controller None)
              eq_refl eq_refl eq_refl eq_refl eq_refl eq_refl eq_refl)
    as (_ & _ & _ & Hoauth).
  - discriminate.
  - rewrite Hoauth; [reflexivity | eexists; reflexivity | eexists; reflexivity
                     | reflexivity].
Defined.

(** *** A login in which nothing goes wrong *)

Section Smooth.
Variables (env : Env) (request : Request) (code : string) (w : World).
Variables (d : VatsimOauthToken) (bearer : string) (granted : list string).
Variables (u : VatsimUserData) (c : Z) (p : Personal) (v : Vatsim) (o : OAuth).
Variables (b token : string).
Hypothesis smooth : Smooth env request code d bearer granted u c p v o b token.

Lemma smooth_reach_reconcile :
  run_prefix (login_steps env code) 4 (entry request w)
  = Some (at_suspension env request code w d bearer u).
Proof.
  destruct smooth. eapply reach_reconcile; eassumption.
Qed.

Lemma smooth_reach_settings :
  run_prefix (login_steps env code) 5 (entry request w)
  = Some (at_settings env request code w d bearer u c p v o).
Proof.
  pose proof (run_prefix_snoc (login_steps env code) 4 (step_reconcile env) _ _
                smooth_reach_reconcile eq_refl) as H5.
  rewrite H5. destruct smooth.
  unfold step_reconcile, bind, get. cbn.
  rewrite (_updateDatabase_commits env _ u c p v o) by (assumption || reflexivity).
  reflexivity.
Qed.

Lemma smooth_reach_session :
  run_prefix (login_steps env code) 6 (entry request w)
  = Some (at_session env request code w d bearer u c p v o).
Proof.
  pose proof (run_prefix_snoc (login_steps env code) 5 step_settings _ _
                smooth_reach_settings eq_refl) as H6.
  rewrite H6. destruct smooth.
  unfold step_settings, UserSettings_findOrCreate, bind, get, call, modify, ret. cbn.
  rewrite smooth_cid0. cbn.
  unfold at_session, with_settings_of, with_world, at_settings, at_suspension,
    at_scopes. cbn.
  now destruct (user_settings w !! c).
Qed.

(** When nothing goes wrong, a login succeeds and leaves exactly this: the
    user's row and profile row written from the profile, with the tokens of
    the exchange if [data.oauth.token_valid] says so and null tokens
    otherwise; the user's settings as they were, or the defaults if there
    were none; one session for the browser of the request in place of the
    earlier ones; the console as it was; and, as the last call, a reply with
    the user just looked up. *)
Theorem smooth_login :
  exists s',
    run_login env request (Some code) w = (Return tt, s') /\
    users (world s')
      = <[c := {| User.id := c;
                  User.first_name := name_first p;
                  User.last_name := name_last p;
                  User.email := email p;
                  User.access_token := if tokenValid_of o then Some bearer else None;
                  User.refresh_token :=
                    if tokenValid_of o then refresh_token d else None |}]> (users w) /\
    user_data (world s') = <[c := user_data_row c p v]> (user_data w) /\
    user_settings (world s') = with_settings_of c (user_settings w) /\
    user_sessions (world s')
      = without_sessions_of c b (user_sessions w)
        ++ [new_session c b token (m_remember env)] /\
    console (world s') = console w /\
    last (calls (world s')) = Some (Response_send_call (found c (world s'))) /\
    is_Some (found c (world s')).
Proof.
  pose proof smooth_reach_session as H6.
  rewrite (run_login_from_session_step env request code w _ H6).
  destruct smooth.
  unfold step_session, User_findOne, _handleSessionChange, UserSession_destroy,
    createSessionToken, Response_send, bind, get, call, modify, ret, throw. cbn.
  rewrite smooth_cid0. cbn. rewrite smooth_browser0. cbn. rewrite smooth_cid0. cbn.
  rewrite smooth_session0. cbn.
  eexists. split; [reflexivity|]. cbn. rewrite smooth_bearer0.
  repeat split.
  - now rewrite last_snoc.
  - unfold found. cbn. rewrite !lookup_insert_eq. cbn. eexists; reflexivity.
Qed.
End Smooth.

Lemma smooth_login_witness :
  exists s',
    run_login healthy browser (Some "abc123"%string) on_file = (Return tt, s') /\
    (User.email <$> users (world s') !! 1234) = Some "ada@example.org"%string /\
    (UserSettings.language <$> user_settings (world s') !! 1234) = Some "en"%string /\
    length (user_sessions (world s')) = 1%nat.
Proof.
  destruct (smooth_login healthy browser "abc123" on_file
              (tokens (Some ["full_name"; "vatsim_details"; "email"]%string)) "tok1"
              ["full_name"; "vatsim_details"; "email"]%string
              profile 1234 somebody (controller None) {| token_valid := Some "true"%string |}
              "firefox-1" "session-1")
    as (s' & Hrun & Hus & _ & Hset & Hses & _).
  - constructor; try reflexivity. discriminate.
  - exists s'. split; [exact Hrun|]. rewrite Hus, Hset, Hses. repeat split.
Defined.

(** *** What a login never does *)

(** A login that does not get as far as the session step, for whatever
    reason, leaves the session table as it was: no session is destroyed by a
    login that fails earlier. *)
Theorem early_failure_keeps_sessions (env : Env) (request : Request) (code : string)
    (w : World) :
  run_prefix (login_steps env code) 6 (entry request w) = None ->
  user_sessions (world (snd (run_login env request (Some code) w))) = user_sessions w.
Proof.
  intros Hnot. rewrite run_login_pipeline.
  now destruct (pipeline_stops_early session_frame _ 6 _
                  (steps_keep_sessions env code) Hnot) as (_ & _ & Hses).
Qed.

Lemma early_failure_keeps_sessions_witness :
  user_sessions (world (snd (run_login stingy browser (Some "abc123"%string) logged_in)))
  = user_sessions logged_in.
Proof.
  apply (early_failure_keeps_sessions stingy browser "abc123" logged_in).
  reflexivity.
Defined.

#[local] Instance grows_refl : Reflexive grows.
Proof. intros s. repeat split; auto. Qed.
#[local] Instance grows_trans : Transitive grows.
Proof.
  intros s1 s2 s3 (A1 & B1 & C1) (A2 & B2 & C2). repeat split; auto.
Qed.

Lemma apply_writes_grow (t : Transaction) (w : World) :
  user_settings (fold_left apply_write t w) = user_settings w /\
  (forall k, is_Some (users w !! k) -> is_Some (users (fold_left apply_write t w) !! k)) /\
  (forall k, is_Some (user_data w !! k) ->
             is_Some (user_data (fold_left apply_write t w) !! k)).
Proof.
  revert w. induction t as [|x t IH]; intros w; cbn; [repeat split; auto|].
  destruct (IH (apply_write w x)) as (-> & Hu & Hd).
  destruct x as [r|r]; cbn in *; repeat split; intros k Hk.
  - apply Hu. cbn. destruct (decide (User.id r = k)) as [->|Hne];
      [rewrite lookup_insert_eq; eauto | now rewrite lookup_insert_ne].
  - apply Hd. exact Hk.
  - apply Hu. exact Hk.
  - apply Hd. cbn. destruct (decide (UserData.user_id r = k)) as [->|Hne];
      [rewrite lookup_insert_eq; eauto | now rewrite lookup_insert_ne].
Qed.

Lemma _updateDatabase_grows env : Keeps grows (_updateDatabase env).
Proof.
  unfold _updateDatabase, sequelize_transaction, User_upsert, UserData_upsert,
    commit, rollback, call.
  keeps.
  all: try solve [apply keeps_modify; intros s; hnf; cbn; repeat split; auto].
  apply keeps_modify. intros s. hnf. cbn.
  match goal with
  | |- context [fold_left apply_write ?t ?w0] =>
      destruct (apply_writes_grow t w0) as (Hs & Hu & Hd)
  end.
  rewrite Hs. repeat split; auto.
Qed.

Lemma UserSettings_findOrCreate_grows user : Keeps grows (UserSettings_findOrCreate user).
Proof.
  unfold UserSettings_findOrCreate, call. keeps.
  all: try solve [apply keeps_modify; intros s; hnf; cbn; repeat split; auto].
  apply keeps_modify. intros s. hnf. cbn.
  destruct (user_settings (world s) !! z) eqn:Hz; cbn; repeat split; auto.
  intros k r Hk. rewrite lookup_insert_ne; [exact Hk | congruence].
Qed.

Lemma login_grows (env : Env) (request : Request) (response : Response)
    (code : option string) :
  Keeps grows (login env request response code).
Proof.
  unfold login. destruct code as [code|]; [|apply keeps_throw; exact _].
  keeps_step; [apply keeps_modify; intros ?; repeat split; auto|].
  keeps_step.
  { unfold _queryAccessTokens, axios_post_token, console_log, call. keeps.
    all: solve [apply keeps_modify; intros ?; hnf; cbn; repeat split; auto]. }
  keeps_step.
  { unfold _queryUserData, axios_get_user, call. keeps.
    all: solve [apply keeps_modify; intros ?; hnf; cbn; repeat split; auto]. }
  keeps_step; [apply keeps_get; exact _|].
  keeps_step.
  2: { unfold Response_sendStatus, call.
       apply keeps_modify; intros ?; hnf; cbn; repeat split; auto. }
  keeps_step; [apply _validateSuppliedScopes_keeps; exact _|].
  keeps_step.
  { unfold _checkIsUserSuspended, call. keeps.
    all: solve [apply keeps_modify; intros ?; hnf; cbn; repeat split; auto]. }
  keeps_step; [apply keeps_get; exact _|].
  keeps_step; [|apply keeps_throw; exact _].
  keeps_step; [apply _updateDatabase_grows|].
  keeps_step; [apply UserSettings_findOrCreate_grows|].
  keeps_step.
  { unfold User_findOne, call. keeps.
    all: solve [apply keeps_modify; intros ?; hnf; cbn; repeat split; auto]. }
  keeps_step.
  { unfold _handleSessionChange, UserSession_destroy, createSessionToken, call. keeps.
    all: solve [apply keeps_modify; intros ?; hnf; cbn; repeat split; auto]. }
  keeps_step; [|apply keeps_throw; exact _].
  unfold Response_send, call. apply keeps_modify; intros ?; hnf; cbn; repeat split; auto.
Qed.

(** Whatever a login does and however it ends, it removes no user row and
    no profile row, and it neither removes nor changes a settings row:
    settings that exist are never overwritten with the defaults. *)
Theorem login_only_adds (env : Env) (request : Request) (response : Response)
    (code : option string) (s : State) :
  (forall k r, user_settings (world s) !! k = Some r ->
     user_settings (world (snd (login env request response code s))) !! k = Some r) /\
  (forall k, is_Some (users (world s) !! k) ->
     is_Some (users (world (snd (login env request response code s))) !! k)) /\
  (forall k, is_Some (user_data (world s) !! k) ->
     is_Some (user_data (world (snd (login env request response code s))) !! k)).
Proof. exact (login_grows env request response code s). Qed.


#[local] Instance same_console_refl : Reflexive same_console.
Proof. intros s. reflexivity. Qed.
#[local] Instance same_console_trans : Transitive same_console.
Proof. unfold same_console. intros s1 s2 s3 H1 H2. congruence. Qed.

(** The state updates at the leaves of a frame proof. *)
Ltac frame_leaves :=
  try solve [apply keeps_modify; intros ?; hnf; cbn; repeat split; auto];
  try solve [apply keeps_modify; intros ?; hnf; cbn;
             match goal with
             | |- context [user_settings ?w0 !! ?k] => destruct (user_settings w0 !! k)
             end; repeat split; auto];
  try solve [apply keeps_modify; intros ?; hnf; cbn;
             match goal with
             | |- context [fold_left apply_write ?t ?w0] =>
                 destruct (apply_writes_frame t w0) as (? & ? & ? & ?)
             end; repeat split; congruence].

Lemma after_exchange_keeps_console env code :
  Forall (Keeps same_console) (drop 1 (login_steps env code)).
Proof.
  cbn [drop login_steps].
  repeat apply Forall_cons_2; try apply Forall_nil_2.
  - unfold step_profile, _queryUserData, axios_get_user, Response_sendStatus, call.
    keeps; frame_leaves.
  - unfold step_scopes. keeps_step; [apply _validateSuppliedScopes_keeps; exact _|].
    keeps.
  - unfold step_suspension, _checkIsUserSuspended, call. keeps; frame_leaves.
  - unfold step_reconcile, _updateDatabase, sequelize_transaction, User_upsert,
      UserData_upsert, commit, rollback, call.
    keeps; frame_leaves.
  - unfold step_settings, UserSettings_findOrCreate, call. keeps; frame_leaves.
  - unfold step_session, User_findOne, _handleSessionChange, UserSession_destroy,
      createSessionToken, Response_send, call.
    keeps; frame_leaves.
Qed.

(** The console after a login is the console before it, followed by the
    error of the exchange if the exchange was rejected: nothing else is ever
    logged, whichever step fails. *)
Theorem login_logs_the_rejected_exchange_only (env : Env) (request : Request)
    (code : string) (w : World) :
  console (world (snd (run_login env request (Some code) w)))
  = console w ++
    match oauth_token env (token_request env code) with
    | Rejected response => [AxiosError response]
    | Resolved _ => []
    end.
Proof.
  rewrite run_login_first_step, _queryAccessTokens_outcome.
  destruct (oauth_token env (token_request env code)) as [[d|]|[[[h|]]|]]; cbn;
    rewrite ?app_nil_r; try reflexivity.
  - apply (pipeline_keeps same_console _ (after_exchange_keeps_console env code)).
  - destruct (includes "revoked" (toLowerCase h)); reflexivity.
Qed.

(** *** Refreshing the user data *)

#[local] Instance same_sessions_and_settings_refl : Reflexive same_sessions_and_settings.
Proof. intros s. split; reflexivity. Qed.
#[local] Instance same_sessions_and_settings_trans :
  Transitive same_sessions_and_settings.
Proof.
  unfold same_sessions_and_settings. intros s1 s2 s3 [? ?] [? ?]. split; congruence.
Qed.

Lemma updateUserData_keeps_settings (env : Env) (user : User.row) (response : Response) :
  Keeps same_sessions_and_settings (updateUserData env user response).
Proof.
  unfold updateUserData, User_findOne, _queryUserData, axios_get_user, _updateDatabase,
    sequelize_transaction, User_upsert, UserData_upsert, commit, rollback,
    Response_send, Response_sendStatus, call.
  keeps; frame_leaves.
Qed.

(** A refresh, however it ends, touches neither the sessions nor the
    settings, and the calls it makes are the lookups of the user, the profile
    request, the statements of the reconciliation and the reply: it never
    exchanges a code, never looks up a ban, and never creates settings or a
    session. *)
Theorem refresh_stays_away_from_sessions (env : Env) (user : User.row)
    (response : Response) (s : State) :
  let s' := snd (updateUserData env user response s) in
  user_sessions (world s') = user_sessions (world s) /\
  user_settings (world s') = user_settings (world s) /\
  exists made,
    calls (world s') = calls (world s) ++ made /\ forallb refresh_call made = true.
Proof.
  cbn zeta.
  pose proof (updateUserData_keeps_settings env user response) as H1.
  assert (H2 : Keeps (makes refresh_call) (updateUserData env user response)).
  { unfold updateUserData, User_findOne, _queryUserData, axios_get_user, _updateDatabase,
      sequelize_transaction, User_upsert, UserData_upsert, commit, rollback,
      Response_send, Response_sendStatus.
    repeat keeps_step; makes_leaves. }
  destruct (H1 s) as [Hses Hset]. split; [exact Hses|]. split; [exact Hset|].
  exact (H2 s).
Qed.

(** A refresh for a user who is not on file, or who is on file without an
    access token, asks the provider nothing and answers with status 500; so
    does a refresh whose profile request gives no document, after that one
    request.  Nothing is written in any of these cases. *)
Theorem refresh_without_profile (env : Env) (user : User.row) (w : World) :
  (users w !! User.id user = None \/
   (exists row, users w !! User.id user = Some row /\ User.access_token row = None) ->
   exists s',
     run_refresh env user w = (Return tt, s') /\
     calls (world s')
       = calls w ++ [User_findOne_call (Some (User.id user));
                     Response_sendStatus_call 500] /\
     untouched w s') /\
  (forall row token,
      users w !! User.id user = Some row -> User.access_token row = Some token ->
      (api_user env token = Resolved None \/ exists r, api_user env token = Rejected r) ->
      exists s',
        run_refresh env user w = (Return tt, s') /\
        calls (world s')
          = calls w ++ [User_findOne_call (Some (User.id user)); Get_api_user token;
                        Response_sendStatus_call 500] /\
        untouched w s').
Proof.
  split.
  - intros Hno.
    unfold run_refresh, updateUserData, User_findOne, _queryUserData,
      Response_sendStatus, bind, get, call, modify, ret. cbn.
    destruct Hno as [-> | (row & -> & Htok)]; cbn.
    + eexists. split; [reflexivity|]. cbn. rewrite <- app_assoc. repeat split.
    + rewrite Htok. cbn. eexists. split; [reflexivity|]. cbn.
      rewrite <- app_assoc. repeat split.
  - intros row token Hrow Htok Hnone.
    unfold run_refresh, updateUserData, User_findOne, _queryUserData, axios_get_user,
      Response_sendStatus, try_catch, bind, get, call, modify, ret, throw. cbn.
    rewrite Hrow. cbn. rewrite Htok. cbn.
    destruct Hnone as [-> | (r & ->)]; cbn;
      eexists; (split; [reflexivity|]); cbn; rewrite <- !app_assoc; repeat split.
Qed.

Lemma refresh_without_profile_witness :
  exists s',
    run_refresh healthy
      {| User.id := 4321; User.first_name := ""; User.last_name := "";
         User.email := ""; User.access_token := None; User.refresh_token := None |}
      on_file = (Return tt, s') /\
    map rank (calls (world s')) = [11; 3]%nat.
Proof.
  destruct (refresh_without_profile healthy
              {| User.id := 4321; User.first_name := ""; User.last_name := "";
                 User.email := ""; User.access_token := None;
                 User.refresh_token := None |} on_file) as (Hno & _).
  destruct Hno as (s' & Hrun & Hcalls & _); [left; reflexivity|].
  exists s'. split; [exact Hrun|]. rewrite Hcalls. reflexivity.
Defined.

(** A refresh that goes through: the user's row is rewritten from the
    profile, with the tokens that were on file if [data.oauth.token_valid]
    says "true" and with null tokens otherwise, and the reply carries the
    user as looked up afterwards.  In the second case the tokens are gone for
    good: the next refresh finds no access token, asks the provider nothing
    and answers with status 500. *)
Theorem refresh_rewrites_the_tokens (env : Env) (user row : User.row) (w : World)
    (token : string) (u : VatsimUserData) (p : Personal) (v : Vatsim) (o : OAuth) :
  users w !! User.id user = Some row ->
  User.access_token row = Some token ->
  api_user env token = Resolved (Some u) ->
  cid u = Some (User.id user) -> personal u = Some p -> vatsim u = Some v ->
  oauth u = Some o ->
  user_upsert_rejects env = false -> userdata_upsert_rejects env = false ->
  commit_rejects env = false ->
  exists s',
    run_refresh env user w = (Return tt, s') /\
    users (world s')
      = <[User.id user :=
            {| User.id := User.id user;
               User.first_name := name_first p;
               User.last_name := name_last p;
               User.email := email p;
               User.access_token := if tokenValid_of o then Some token else None;
               User.refresh_token :=
                 if tokenValid_of o then User.refresh_token row else None |}]>
          (users w) /\
    user_data (world s') = <[User.id user := user_data_row (User.id user) p v]> (user_data w) /\
    last (calls (world s')) = Some (Response_send_call (found (User.id user) (world s'))) /\
    (tokenValid_of o = false ->
     exists s'',
       run_refresh env user (world s') = (Return tt, s'') /\
       calls (world s'')
         = calls (world s') ++ [User_findOne_call (Some (User.id user));
                                Response_sendStatus_call 500]).
Proof.
  intros Hrow Htok Hdoc Hc Hp Hv Ho R1 R2 R3.
  unfold run_refresh, updateUserData, User_findOne, _queryUserData, axios_get_user,
    Response_send, Response_sendStatus, try_catch, bind, get, call, modify, ret, throw.
  cbn. rewrite Hrow. cbn. rewrite Htok. cbn. rewrite Hdoc. cbn.
  erewrite _updateDatabase_commits by (eassumption || reflexivity). cbn.
  rewrite Hc. cbn. rewrite !lookup_insert_eq. cbn.
  eexists. split; [reflexivity|]. cbn.
  repeat split.
  - rewrite last_snoc. unfold found. cbn. now rewrite !lookup_insert_eq.
  - intros Hinvalid. rewrite Hinvalid. cbn. rewrite !lookup_insert_eq. cbn.
    eexists. split; [reflexivity|]. cbn. now rewrite <- !app_assoc.
Qed.

Lemma refresh_rewrites_the_tokens_witness :
  exists s',
    run_refresh expired (requesting 1234) on_file = (Return tt, s') /\
    (users (world s') !! 1234) ≫= User.access_token = None /\
    (users (world s') !! 1234) ≫= User.refresh_token = None /\
    exists s'',
      run_refresh expired (requesting 1234) (world s') = (Return tt, s'') /\
      map rank (skipn (length (calls (world s'))) (calls (world s''))) = [11; 3]%nat.
Proof.
  destruct (refresh_rewrites_the_tokens expired (requesting 1234)
              {| User.id := 1234; User.first_name := "Ada";
                 User.last_name := "Byron"; User.email := "old@example.org";
                 User.access_token := Some "tok0";
                 User.refresh_token := Some "ref0" |}
              on_file "tok0" profile_as_described somebody
              (controller (Some "true")) {| token_valid := Some "false" |})
    as (s' & Hrun & Husers & _ & _ & Hnext); try reflexivity.
  destruct Hnext as (s'' & Hrun' & Hcalls'); [reflexivity|].
  exists s'. split; [exact Hrun|]. rewrite Husers.
  split; [reflexivity|]. split; [reflexivity|].
  exists s''. split; [exact Hrun'|].
  rewrite Hcalls', drop_app_length. reflexivity.
Defined.

(** *** Scope validation *)

Lemma split_not_nil (sep : ascii) (s : string) : split sep s <> [].
Proof.
  destruct s as [|c s]; cbn; [discriminate|].
  destruct (Ascii.eqb c sep); [discriminate|].
  destruct (split sep s); discriminate.
Qed.

(** Scope validation looks only at which scopes have been granted: granting
    more, in whatever order, never turns a pass into a failure.  And an empty
    grant never passes, whatever [client_scopes] is: the pieces of a string
    are never none. *)
Theorem scope_validation_is_monotone (env : Env) (s s' : State)
    (granted granted' : list string) :
  m_suppliedScopes (this s) = Some granted ->
  m_suppliedScopes (this s') = Some granted' ->
  (forall scope, In scope granted -> In scope granted') ->
  (fst (_validateSuppliedScopes env s) = Return tt ->
   _validateSuppliedScopes env s' = (Return tt, s')) /\
  (granted = [] ->
   _validateSuppliedScopes env s
   = (Throw (VatsimConnectException (Some ERR_INV_SCOPES)), s)).
Proof.
  intros Hg Hg' Hsub.
  unfold _validateSuppliedScopes, bind, get. cbn. rewrite Hg, Hg'.
  rewrite !required_scopes_loop_spec. split.
  - destruct (covers granted _) eqn:Hc; [|discriminate]. intros _.
    pose proof (proj1 (covers_spec _ _) Hc) as Hin.
    rewrite (proj2 (covers_spec granted' _)); [reflexivity|].
    intros r Hr. apply Hsub, Hin, Hr.
  - intros ->.
    destruct (split " " (client_scopes (m_connectOptions env))) as [|r rs] eqn:Hs;
      [now apply split_not_nil in Hs|].
    reflexivity.
Qed.

Lemma scope_validation_is_monotone_witness :
  _validateSuppliedScopes healthy
    (with_this (set_tokens None None (Some ["email"; "country"; "vatsim_details";
                                            "full_name"; "email"]))
       (reconciling empty_world))
  = (Return tt,
     with_this (set_tokens None None (Some ["email"; "country"; "vatsim_details";
                                            "full_name"; "email"]))
       (reconciling empty_world)).
Proof.
  apply (scope_validation_is_monotone healthy (reconciling empty_world) _
           ["full_name"; "vatsim_details"; "email"]
           ["email"; "country"; "vatsim_details"; "full_name"; "email"]).
  - reflexivity.
  - reflexivity.
  - cbn. tauto.
  - reflexivity.
Defined.

End ConnectMore.

(** ** The settings controller *)

Module SettingsFacts.
Import Connect ConnectSpec ConnectSpecMore ConnectExamples ConnectExamplesMore.
Import SettingsController.

(** An accepted update answers with status 200 and changes the language of
    the settings row of the user, and nothing else: a user without a settings
    row still has none afterwards, and every other row of every table is as
    it was.  A rejected update throws, changes nothing and never answers. *)
Theorem updateSettings_changes_one_language (rejects : bool) (user : User.row)
    (language : string) (w : World) :
  let r := updateSettings rejects user language w in
  (if rejects then fst r = Throw DatabaseError /\ snd r = w
   else
     fst r = Return tt /\
     calls (snd r) = calls w ++ [Response_sendStatus_call 200] /\
     user_settings (snd r) !! User.id user
       = with_language language <$> user_settings w !! User.id user /\
     (forall k, k <> User.id user -> user_settings (snd r) !! k = user_settings w !! k)) /\
  users (snd r) = users w /\ user_data (snd r) = user_data w /\
  user_sessions (snd r) = user_sessions w /\ console (snd r) = console w.
Proof.
  destruct rejects; cbn; [repeat split|].
  repeat split.
  - apply lookup_alter_eq.
  - intros k Hk. now apply lookup_alter_ne.
Qed.

(** Once a user with a settings row has chosen a language, no login and no
    refresh changes it, whoever logs in and however the login ends. *)
Theorem chosen_language_survives (env : Env) (request : Request)
    (code : option string) (user other : User.row) (language : string) (w : World)
    (r : UserSettings.row) :
  user_settings w !! User.id user = Some r ->
  let w1 := snd (updateSettings false user language w) in
  user_settings (world (snd (run_login env request code w1))) !! User.id user
    = Some (with_language language r) /\
  user_settings (world (snd (run_refresh env other w1))) !! User.id user
    = Some (with_language language r).
Proof.
  intros Hr w1.
  assert (H1 : user_settings w1 !! User.id user = Some (with_language language r)).
  { subst w1. cbn. now rewrite lookup_alter_eq, Hr. }
  split.
  - destruct (ConnectMore.login_grows env request TheResponse code
                {| this := new_instance; world := w1 |}) as (Hkeep & _).
    apply Hkeep. exact H1.
  - destruct (ConnectMore.updateUserData_keeps_settings env other TheResponse
                {| this := new_instance; world := w1 |}) as (_ & Hset).
    unfold run_refresh. rewrite Hset. exact H1.
Qed.

Lemma chosen_language_survives_witness :
  UserSettings.language
    <$> user_settings
          (world (snd (run_login healthy browser (Some "abc123")
                         (snd (updateSettings false (requesting 1234) "de" on_file)))))
        !! 1234
  = Some "de".
Proof.
  destruct (chosen_language_survives healthy browser (Some "abc123")
              (requesting 1234) (requesting 1234) "de" on_file
              {| UserSettings.user_id := 1234; UserSettings.language := "en";
                 UserSettings.additional_emails := ["ada@work.example"];
                 UserSettings.email_notifications_enabled := false |}
              eq_refl) as (Hlogin & _).
  exact (f_equal (fmap UserSettings.language) Hlogin).
Defined.

End SettingsFacts.

(** ** The user information controller *)

Module UserInformationFacts.
Import UserInformationController.

Section Handlers.
Context {User Data : Type} (id : User -> Z) (env : Env User Data).
Implicit Types (calls made : list (Call User Data)) (user : User).

(** The handlers only add calls. *)
Ltac trace :=
  eexists; split; [rewrite <- ?app_assoc; reflexivity|]; cbn.

(** A request for the data of the session user itself is never answered:
    when the permission check lets the user pass, both handlers return
    without a lookup and without a reply. *)
Theorem own_data_is_never_answered user calls :
  check_permission env user "mentor.acc.manage.own" = None ->
  (is_minus_one env (toString (id user)) = false ->
   getUserDataByID id env (Some (toString (id user))) user calls
   = (Return tt, calls ++ [CheckUserHasPermission_call user "mentor.acc.manage.own"])) /\
  getSensitiveUserDataByID id env (Some (toString (id user))) user calls
  = (Return tt, calls ++ [CheckUserHasPermission_call user "mentor.acc.manage.own"]).
Proof.
  intros Hp.
  unfold getUserDataByID, getSensitiveUserDataByID, checkUserHasPermission, call,
    bind, modify, ret.
  split; [intros ->|]; cbn; rewrite Hp, String.eqb_refl; reflexivity.
Qed.

(** A user the database does not know: the basic lookup answers with
    status 404 and no body, the two other lookups send [null] with the
    default status. *)
Theorem unknown_user_is_answered_differently (user_id : string) user calls :
  (forall lookup, find_user env lookup (Some user_id) = Fulfilled None) ->
  check_permission env user "mentor.acc.manage.own" = None ->
  user_id <> toString (id user) ->
  getBasicUserDataByID env (Some user_id) calls
  = (Return tt,
     calls ++ [User_findOne_call without_timestamps (Some user_id);
               Response_status_send_call 404 None]) /\
  (is_minus_one env user_id = false ->
   getUserDataByID id env (Some user_id) user calls
   = (Return tt,
      calls ++ [CheckUserHasPermission_call user "mentor.acc.manage.own";
                User_findOne_call with_solos_and_groups (Some user_id);
                Response_send_call None])) /\
  getSensitiveUserDataByID id env (Some user_id) user calls
  = (Return tt,
     calls ++ [CheckUserHasPermission_call user "mentor.acc.manage.own";
               User_findOne_call sensitive_with_courses (Some user_id);
               Response_send_call None]).
Proof.
  intros Hnone Hp Hother.
  apply String.eqb_neq in Hother.
  unfold getBasicUserDataByID, getUserDataByID, getSensitiveUserDataByID,
    checkUserHasPermission, User_findOne, Response_status_send, Response_send, call,
    bind, modify, ret.
  repeat split; [|intros ->|]; cbn; rewrite ?Hp, ?Hother, !Hnone; cbn;
    rewrite <- ?app_assoc; reflexivity.
Qed.

(** A request without [user_id] is answered with status 404 before the
    permission helper is asked, whatever the helper would have said; for
    [getUserDataByID] so is a [user_id] that equals -1 when compared as a
    number.  [getBasicUserDataByID] has no such test: it hands the missing
    [user_id] to the lookup. *)
Theorem missing_user_id_is_answered_first user calls :
  getUserDataByID id env None user calls
  = (Return tt, calls ++ [Response_status_send_call 404 (Some user_id_is_required)]) /\
  getSensitiveUserDataByID id env None user calls
  = (Return tt, calls ++ [Response_status_send_call 404 (Some user_id_is_required)]) /\
  (forall user_id,
     is_minus_one env user_id = true ->
     getUserDataByID id env (Some user_id) user calls
     = (Return tt, calls ++ [Response_status_send_call 404 (Some user_id_is_required)])) /\
  head (drop (length calls) (snd (getBasicUserDataByID env None calls)))
  = Some (User_findOne_call without_timestamps None).
Proof.
  repeat split.
  - intros user_id Hm. unfold getUserDataByID. now rewrite Hm.
  - unfold getBasicUserDataByID, User_findOne, Response_status_send, Response_send,
      call, bind, modify, ret, throw. cbn.
    destruct (find_user env without_timestamps None) as [[d|]|e]; cbn;
      rewrite <- ?app_assoc, drop_app_length; reflexivity.
Qed.

(** Whatever the collaborators do, a handler answers at most once and looks
    up at most one user, and a handler that throws has not answered.
    [getBasicUserDataByID] answers whenever it returns; the two other
    handlers return without an answer only when asked for the data of the
    session user. *)
Theorem lookups_answer_at_most_once (query_user_id : option string) user calls :
  let full := getUserDataByID id env query_user_id user calls in
  let basic := getBasicUserDataByID env query_user_id calls in
  let sensitive := getSensitiveUserDataByID id env query_user_id user calls in
  (forall r, In r [full; basic; sensitive] ->
     exists made,
       snd r = calls ++ made /\
       (count is_answer made <= 1)%nat /\ (count is_lookup made <= 1)%nat /\
       (forall e, fst r = Throw e -> count is_answer made = 0%nat)) /\
  (fst basic = Return tt ->
   count is_answer (drop (length calls) (snd basic)) = 1%nat) /\
  (forall r, In r [full; sensitive] ->
     fst r = Return tt ->
     count is_answer (drop (length calls) (snd r)) = 0%nat ->
     query_user_id = Some (toString (id user))).
Proof.
  cbn zeta.
  unfold getUserDataByID, getBasicUserDataByID, getSensitiveUserDataByID,
    checkUserHasPermission, User_findOne, Response_status_send, Response_send, call,
    bind, modify, ret, throw.
  split; [|split].
  - intros r [<-|[<-|[<-|[]]]]; cbn.
    + destruct query_user_id as [user_id|]; [|trace; repeat split; auto; discriminate].
      destruct (is_minus_one env user_id); [trace; repeat split; auto; discriminate|].
      cbn. destruct (check_permission env user _); cbn;
        [trace; repeat split; auto|].
      destruct (String.eqb user_id (toString (id user))); cbn;
        [trace; repeat split; auto; discriminate|].
      destruct (find_user env _ _) as [d|e]; cbn; trace; repeat split; auto;
        discriminate.
    + destruct (find_user env _ _) as [[d|]|e]; cbn; trace; repeat split; auto;
        discriminate.
    + destruct query_user_id as [user_id|]; [|trace; repeat split; auto; discriminate].
      cbn. destruct (check_permission env user _); cbn;
        [trace; repeat split; auto|].
      destruct (String.eqb user_id (toString (id user))); cbn;
        [trace; repeat split; auto; discriminate|].
      destruct (find_user env _ _) as [d|e]; cbn; trace; repeat split; auto;
        discriminate.
  - cbn. destruct (find_user env _ _) as [[d|]|e]; cbn; try discriminate;
      intros _; rewrite <- ?app_assoc, drop_app_length; reflexivity.
  - intros r [<-|[<-|[]]]; cbn.
    + destruct query_user_id as [user_id|];
        [|cbn; rewrite drop_app_length; discriminate].
      destruct (is_minus_one env user_id);
        [cbn; rewrite drop_app_length; discriminate|].
      cbn. destruct (check_permission env user _); cbn; [discriminate|].
      destruct (String.eqb_spec user_id (toString (id user))) as [->|Hne]; cbn;
        [reflexivity|].
      destruct (find_user env _ _) as [d|e]; cbn; [|discriminate].
      intros _. rewrite <- ?app_assoc, drop_app_length. discriminate.
    + destruct query_user_id as [user_id|];
        [|cbn; rewrite drop_app_length; discriminate].
      cbn. destruct (check_permission env user _); cbn; [discriminate|].
      destruct (String.eqb_spec user_id (toString (id user))) as [->|Hne]; cbn;
        [reflexivity|].
      destruct (find_user env _ _) as [d|e]; cbn; [|discriminate].
      intros _. rewrite <- ?app_assoc, drop_app_length. discriminate.
Qed.

End Handlers.

Lemma own_data_is_never_answered_witness :
  getUserDataByID (fun n : Z => n) lenient (Some "7") 7 [] 
  = (Return tt, [CheckUserHasPermission_call 7 "mentor.acc.manage.own"]) /\
  getSensitiveUserDataByID (fun n : Z => n) lenient (Some "7") 7 []
  = (Return tt, [CheckUserHasPermission_call 7 "mentor.acc.manage.own"]).
Proof.
  destruct (own_data_is_never_answered (fun n : Z => n) lenient 7 [] eq_refl)
    as (Hfull & Hsensitive).
  split; [exact (Hfull eq_refl) | exact Hsensitive].
Defined.

Lemma unknown_user_is_answered_differently_witness :
  snd (getBasicUserDataByID lenient (Some "8") [])
  = [User_findOne_call without_timestamps (Some "8");
     Response_status_send_call 404 None] /\
  snd (getSensitiveUserDataByID (fun n : Z => n) lenient (Some "8") 7 [])
  = [CheckUserHasPermission_call 7 "mentor.acc.manage.own";
     User_findOne_call sensitive_with_courses (Some "8");
     Response_send_call None].
Proof.
  destruct (unknown_user_is_answered_differently (fun n : Z => n) lenient "8" 7 [])
    as (Hbasic & _ & Hsensitive).
  - intros lookup. reflexivity.
  - reflexivity.
  - discriminate.
  - rewrite Hbasic, Hsensitive. split; reflexivity.
Defined.

End UserInformationFacts.

(** ** The CPT administration controller *)

Module CPTAdminFacts.
Import CPTAdminController.

(** The loop stops at the first CPT of the trainee that is not completed. *)
Lemma planned_loop_spec (sessions : list TrainingSession) (w : World) :
  planned_loop sessions w =
  if existsb is_planned_cpt sessions then (Throw already_planned, w) else (Return tt, w).
Proof.
  induction sessions as [|sess rest IH]; cbn; [reflexivity|].
  destruct (is_planned_cpt sess); cbn; [reflexivity | exact IH].
Qed.

(** [createCPT], step by step. *)
Lemma createCPT_eq (env : Env) (body : Body) (w : World) :
  createCPT env body w =
  let w1 := add_call (ValidateCreateRequest_call body) (add_call Sequelize_transaction w) in
  match validate env body with
  | Some e => refused e w1
  | None =>
      let w2 := add_call (User_findOne_call (trainee_id body)) w1 in
      match find_user env (trainee_id body) with
      | Failed e => refused e w2
      | Fulfilled user =>
          if existsb is_planned_cpt (default [] (user ≫= training_sessions))
          then refused already_planned w2
          else
            let w3 :=
              add_call (UsersBelongsToCourses_findOne_call (trainee_id body)
                          (course_id body)) w2 in
            match find_user_in_course env (trainee_id body) (course_id body) with
            | Failed e => refused e w3
            | Fulfilled userInCourse =>
                match userInCourse, user with
                | Some _, Some _ =>
                    let w4 :=
                      add_call (TrainingSession_create_call (session_values env body))
                        w3 in
                    match create_session env (session_values env body) with
                    | Failed e => refused e w4
                    | Fulfilled i =>
                        let w5 :=
                          add_call (TrainingSessionBelongsToUsers_create_call
                                      (link_values env body i)) w4 in
                        match create_link env (link_values env body i) with
                        | Some e => refused e w5
                        | None =>
                            let w6 := add_call Commit w5 in
                            match commit_fails env with
                            | Some e => stranded w6
                            | None =>
                                (Return tt,
                                 add_call (Response_sendStatus_call Created)
                                   (apply_write
                                      (apply_write w6
                                         (Write_session i (session_values env body)))
                                      (Write_link (link_values env body i))))
                            end
                        end
                    end
                | _, _ => (Return tt, add_call (Response_sendStatus_call BadRequest) w3)
                end
            end
      end
  end.
Proof.
  unfold createCPT, sequelize_transaction, validateCreateRequest, User_findOne,
    UsersBelongsToCourses_findOne, TrainingSession_create,
    TrainingSessionBelongsToUsers_create, commit, rollback, next, Response_sendStatus,
    await, call, try_catch, bind, get, modify, ret, throw, refused, stranded, finished.
  cbn.
  destruct (validate env body) as [e|]; cbn;
    [rewrite ?fold_left_app; reflexivity|].
  destruct (find_user env (trainee_id body)) as [user|e]; cbn;
    [|rewrite ?fold_left_app; reflexivity].
  rewrite planned_loop_spec.
  destruct (existsb is_planned_cpt _); cbn; [rewrite ?fold_left_app; reflexivity|].
  destruct (find_user_in_course env _ _) as [[m|]|e]; cbn;
    try (rewrite ?fold_left_app; reflexivity).
  destruct user as [user|]; cbn; [|reflexivity].
  destruct (create_session env _) as [i|e]; cbn;
    [|rewrite ?fold_left_app; reflexivity].
  destruct (create_link env _) as [e|]; cbn; [rewrite ?fold_left_app; reflexivity|].
  destruct (commit_fails env) as [e|]; cbn; rewrite ?fold_left_app; reflexivity.
Qed.

Lemma calls_refused (e : Thrown) (w : World) :
  calls (snd (refused e w)) = calls w ++ [Rollback; Next_call e].
Proof. cbn. now rewrite <- app_assoc. Qed.

(** The trace of a refusal that comes after the calls [before]. *)
Ltac refusal before :=
  right; right; left; eexists _, before; cbn; rewrite <- ?app_assoc; repeat split.

(** Once its transaction is open, [createCPT] ends in one of four ways,
    whatever the validator and the database do.  With status 201: then the
    session and its link to the trainee have been created and committed
    together.  With status 400: then nothing has been written, and the
    transaction has been neither committed nor rolled back.  By handing an
    error to [next], after a rollback: then nothing has been written, and
    this is how every failure before the commit ends.  Or, when the database
    rejects the commit, by throwing: the rollback of the finished
    transaction throws in the [catch], nothing is answered and nothing has
    been written.  In the first three it returns having answered exactly
    once. *)
Theorem createCPT_outcomes (env : Env) (body : Body) (w : World) :
  let r := createCPT env body w in
  exists made,
    calls (snd r) = calls w ++ made /\
    count is_answer made
      = match fst r with Return _ => 1%nat | Throw _ => 0%nat end /\
    ((exists session_id,
        fst r = Return tt /\
        made = creation env body session_id /\
        commit_fails env = None /\
        tables (snd r) = with_cpt env body session_id w) \/
     (fst r = Return tt /\
      made = lookups body ++ [Response_sendStatus_call BadRequest] /\
      count ends_transaction made = 0%nat /\
      tables (snd r) = tables w) \/
     (exists e before,
        fst r = Return tt /\
        made = before ++ [Rollback; Next_call e] /\
        count ends_transaction before = 0%nat /\
        tables (snd r) = tables w) \/
     (exists session_id,
        fst r = Throw (OtherError Connect.cannot_be_rolled_back) /\
        made = rejected_commit env body session_id /\
        is_Some (commit_fails env) /\
        tables (snd r) = tables w)).
Proof.
  cbn zeta. rewrite createCPT_eq. cbn zeta. unfold refused, stranded.
  destruct (validate env body) as [e|]; cbn.
  { eexists. split; [rewrite <- ?app_assoc; reflexivity|].
    split; [reflexivity|]. refusal [Sequelize_transaction; ValidateCreateRequest_call body]. }
  destruct (find_user env (trainee_id body)) as [user|e]; cbn.
  2: { eexists. split; [rewrite <- ?app_assoc; reflexivity|].
       split; [reflexivity|].
       refusal [Sequelize_transaction; ValidateCreateRequest_call body;
                User_findOne_call (trainee_id body)]. }
  destruct (existsb is_planned_cpt _); cbn.
  { eexists. split; [rewrite <- ?app_assoc; reflexivity|].
    split; [reflexivity|].
    refusal [Sequelize_transaction; ValidateCreateRequest_call body;
             User_findOne_call (trainee_id body)]. }
  destruct (find_user_in_course env _ _) as [userInCourse|e]; cbn.
  2: { eexists. split; [rewrite <- ?app_assoc; reflexivity|].
       split; [reflexivity|]. refusal (lookups body). }
  assert (Hbad :
    forall r,
      r = (Return tt : Completion Thrown unit,
           add_call (Response_sendStatus_call BadRequest)
             (add_call (UsersBelongsToCourses_findOne_call (trainee_id body)
                          (course_id body))
                (add_call (User_findOne_call (trainee_id body))
                   (add_call (ValidateCreateRequest_call body)
                      (add_call Sequelize_transaction w))))) ->
      exists made,
        calls (snd r) = calls w ++ made /\
        count is_answer made
          = match fst r with Return _ => 1%nat | Throw _ => 0%nat end /\
        ((exists session_id,
            fst r = Return tt /\
            made = creation env body session_id /\
            commit_fails env = None /\
            tables (snd r) = with_cpt env body session_id w) \/
         (fst r = Return tt /\
          made = lookups body ++ [Response_sendStatus_call BadRequest] /\
          count ends_transaction made = 0%nat /\
          tables (snd r) = tables w) \/
         (exists e before,
            fst r = Return tt /\
            made = before ++ [Rollback; Next_call e] /\
            count ends_transaction before = 0%nat /\
            tables (snd r) = tables w) \/
         (exists session_id,
            fst r = Throw (OtherError Connect.cannot_be_rolled_back) /\
            made = rejected_commit env body session_id /\
            is_Some (commit_fails env) /\
            tables (snd r) = tables w))).
  { intros r ->. cbn. eexists. split; [rewrite <- ?app_assoc; reflexivity|].
    split; [reflexivity|]. right; left. repeat split. }
  destruct userInCourse as [m|]; [|now apply Hbad].
  destruct user as [user|]; [|now apply Hbad].
  clear Hbad.
  destruct (create_session env _) as [i|e]; cbn.
  2: { eexists. split; [rewrite <- ?app_assoc; reflexivity|].
       split; [reflexivity|].
       refusal (lookups body ++ [TrainingSession_create_call (session_values env body)]). }
  destruct (create_link env _) as [e|]; cbn.
  { eexists. split; [rewrite <- ?app_assoc; reflexivity|].
    split; [reflexivity|].
    refusal (lookups body ++
             [TrainingSession_create_call (session_values env body);
              TrainingSessionBelongsToUsers_create_call (link_values env body i)]). }
  destruct (commit_fails env) as [e|] eqn:Hcommit; cbn.
  { eexists. split; [rewrite <- ?app_assoc; reflexivity|].
    split; [reflexivity|]. right; right; right. exists i. repeat split. eauto. }
  eexists. split; [rewrite <- ?app_assoc; reflexivity|].
  split; [reflexivity|]. left. exists i. repeat split.
Qed.

(** A trainee with a CPT that is not completed gets no second one: the
    handler rolls back and hands the [ValidationException] to [next] without
    looking up the course membership, so it does so whether or not the
    trainee is in the course. *)
Theorem planned_cpt_blocks_creation (env : Env) (body : Body) (w : World)
    (user : User) (sessions : list TrainingSession) (sess : TrainingSession) :
  validate env body = None ->
  find_user env (trainee_id body) = Fulfilled (Some user) ->
  training_sessions user = Some sessions ->
  In sess sessions ->
  (exists t, training_type sess = Some t /\ type t = "cpt") ->
  completed sess = Some false ->
  let r := createCPT env body w in
  fst r = Return tt /\
  calls (snd r)
    = calls w ++ [Sequelize_transaction; ValidateCreateRequest_call body;
                  User_findOne_call (trainee_id body); Rollback;
                  Next_call (ValidationException true
                               ["The user already has a CPT planned"])] /\
  tables (snd r) = tables w.
Proof.
  intros Hv Hu Hs Hin (t & Ht & Hcpt) Hc. cbn zeta.
  rewrite createCPT_eq. cbn zeta. rewrite Hv, Hu. cbn. rewrite Hs. cbn.
  assert (Hex : existsb is_planned_cpt sessions = true).
  { apply existsb_exists. exists sess. split; [exact Hin|].
    unfold is_planned_cpt, is_cpt. now rewrite Ht, Hcpt, Hc. }
  rewrite Hex. cbn. rewrite <- !app_assoc. repeat split.
Qed.

(** A request for a trainee who is not known or not in the course is
    answered with status 400, and the transaction the handler has opened is
    left open: it is neither committed nor rolled back. *)
Theorem bad_request_leaves_the_transaction_open (env : Env) (body : Body) (w : World)
    (user : option User) (userInCourse : option UsersBelongsToCourses) :
  validate env body = None ->
  find_user env (trainee_id body) = Fulfilled user ->
  existsb is_planned_cpt (default [] (user ≫= training_sessions)) = false ->
  find_user_in_course env (trainee_id body) (course_id body) = Fulfilled userInCourse ->
  user = None \/ userInCourse = None ->
  let r := createCPT env body w in
  fst r = Return tt /\
  calls (snd r)
    = calls w ++ [Sequelize_transaction; ValidateCreateRequest_call body;
                  User_findOne_call (trainee_id body);
                  UsersBelongsToCourses_findOne_call (trainee_id body) (course_id body);
                  Response_sendStatus_call 400] /\
  tables (snd r) = tables w.
Proof.
  intros Hv Hu Hp Hm Hnone. cbn zeta.
  rewrite createCPT_eq. cbn zeta. rewrite Hv, Hu, Hp, Hm.
  destruct Hnone as [-> | ->]; [destruct userInCourse|]; cbn;
    rewrite <- !app_assoc; repeat split.
Qed.

(** A request for a trainee in the course, without a CPT that is not
    completed: when the database accepts the two rows and the commit, the
    session is created from the body, the trainee is linked to the session
    the database has numbered, and the answer is status 201. *)
Theorem createCPT_creates_session_and_link (env : Env) (body : Body) (w : World)
    (user : User) (m : UsersBelongsToCourses) (session_id : Z) :
  validate env body = None ->
  find_user env (trainee_id body) = Fulfilled (Some user) ->
  existsb is_planned_cpt (default [] (training_sessions user)) = false ->
  find_user_in_course env (trainee_id body) (course_id body) = Fulfilled (Some m) ->
  create_session env (session_values env body) = Fulfilled session_id ->
  create_link env (link_values env body session_id) = None ->
  commit_fails env = None ->
  let r := createCPT env body w in
  fst r = Return tt /\
  calls (snd r) = calls w ++ creation env body session_id /\
  training_sessions_table (snd r)
    = training_sessions_table w ++
      [(session_id,
        {| sv_uuid := generateUUID env;
           sv_course_id := Number env (course_id body);
           sv_training_type_id := Number env (training_type_id body);
           sv_training_station_id := Number env (training_station_id body);
           sv_date := dayjs_utc env (date body) |})] /\
  training_session_belongs_to_users (snd r)
    = training_session_belongs_to_users w ++
      [{| lv_training_session_id := session_id;
          lv_user_id := Number env (trainee_id body);
          lv_log_id := None; lv_passed := None |}].
Proof.
  intros Hv Hu Hp Hm Hs Hl Hc. cbn zeta.
  rewrite createCPT_eq. cbn zeta. rewrite Hv, Hu. cbn. rewrite Hp, Hm, Hs, Hl, Hc.
  cbn. rewrite <- !app_assoc. repeat split.
Qed.

(** The two listings never write and answer exactly once.  [getOpen] asks
    for the sessions after now that have no mentor, [getAvailable] for those
    after now that have no examiner, each with its associations; what is sent
    are the sessions found that have a training type of type "cpt", in the
    order of the query, so that a session whose training type has not been
    loaded is left out.  When the query fails, the error is handed to
    [next] and nothing is sent. *)
Theorem listings_send_the_cpts (env : Env) (w : World) :
  Forall (fun '(options, r) =>
    fst r = Return tt /\ tables (snd r) = tables w /\
    match find_all env options with
    | Fulfilled found =>
        calls (snd r)
          = calls w ++ [TrainingSession_findAll_call options;
                        Response_send_call (List.filter is_cpt found)] /\
        (forall s, In s (List.filter is_cpt found) <->
                   In s found /\ type <$> training_type s = Some "cpt")
    | Failed e =>
        calls (snd r) = calls w ++ [TrainingSession_findAll_call options; Next_call e]
    end)
    [({| where_mentor_id_null := true;
         where_cpt_examiner_id_null := false;
         where_date_gt := now env;
         include := ["users"; "training_station"; "training_type"; "mentor";
                     "cpt_examiner"] |},
      getOpen env w);
     ({| where_mentor_id_null := false;
         where_cpt_examiner_id_null := true;
         where_date_gt := now env;
         include := ["training_type"; "users"; "training_station"; "mentor"] |},
      getAvailable env w)].
Proof.
  assert (Hcpt : forall found s,
             In s (List.filter is_cpt found) <->
             In s found /\ type <$> training_type s = Some "cpt").
  { intros found s. rewrite filter_In. unfold is_cpt.
    destruct (training_type s) as [t|]; cbn.
    - rewrite String.eqb_eq. split; intros [? H]; split; auto; congruence.
    - split; intros [? H]; discriminate. }
  repeat apply Forall_cons_2; try apply Forall_nil_2;
    unfold getOpen, getAvailable, TrainingSession_findAll, Response_send, next, await,
      call, try_catch, bind, modify, ret, throw; cbn;
    match goal with
    | |- context [find_all env ?o] =>
        destruct (find_all env o) as [found|e]; cbn;
        (split; [reflexivity|]); (split; [reflexivity|]);
        rewrite <- ?app_assoc; try reflexivity;
        split; [reflexivity | apply Hcpt]
    end.
Qed.

Import CPTAdminExamples.

(** A commit that the database rejects: the request is never answered. *)
Example rejected_commit_strands_the_request :
  let r := createCPT (school_without_commit []) (request_for "42" "3") nothing_yet in
  fst r = Throw (OtherError Connect.cannot_be_rolled_back) /\
  count is_answer (calls (snd r)) = 0%nat /\
  last (calls (snd r)) = Some Rollback /\
  tables (snd r) = ([], []).
Proof. vm_compute. repeat split. Qed.

Lemma planned_cpt_blocks_creation_witness :
  let r := createCPT (school [a_cpt (Some true); a_cpt (Some false)])
             (request_for "42" "3") nothing_yet in
  last (calls (snd r))
    = Some (Next_call (ValidationException true ["The user already has a CPT planned"])) /\
  count ends_transaction (calls (snd r)) = 1%nat /\
  tables (snd r) = ([], []).
Proof.
  destruct (planned_cpt_blocks_creation
              (school [a_cpt (Some true); a_cpt (Some false)])
              (request_for "42" "3") nothing_yet
              {| training_sessions := Some [a_cpt (Some true); a_cpt (Some false)] |}
              [a_cpt (Some true); a_cpt (Some false)] (a_cpt (Some false)))
    as (_ & Hcalls & Htables).
  - reflexivity.
  - reflexivity.
  - reflexivity.
  - right; left; reflexivity.
  - exists {| type := "cpt" |}. split; reflexivity.
  - reflexivity.
  - cbv zeta. rewrite Hcalls, Htables. repeat split.
Defined.

Lemma bad_request_leaves_the_transaction_open_witness :
  let r := createCPT (school []) (request_for "42" "4") nothing_yet in
  last (calls (snd r)) = Some (Response_sendStatus_call 400) /\
  head (calls (snd r)) = Some Sequelize_transaction /\
  count ends_transaction (calls (snd r)) = 0%nat.
Proof.
  destruct (bad_request_leaves_the_transaction_open (school [])
              (request_for "42" "4") nothing_yet
              (Some {| training_sessions := Some [] |}) None)
    as (_ & Hcalls & _).
  - reflexivity.
  - reflexivity.
  - reflexivity.
  - reflexivity.
  - right; reflexivity.
  - cbv zeta. rewrite Hcalls. repeat split.
Defined.

Lemma createCPT_creates_session_and_link_witness :
  let r := createCPT (school [a_cpt (Some true); a_cpt None; a_lesson; untyped])
             (request_for "42" "3") nothing_yet in
  last (calls (snd r)) = Some (Response_sendStatus_call 201) /\
  map fst (training_sessions_table (snd r)) = [100] /\
  map lv_training_session_id (training_session_belongs_to_users (snd r)) = [100] /\
  map (fun row => sv_date (snd row)) (training_sessions_table (snd r))
    = [Instant 1796148000000].
Proof.
  destruct (createCPT_creates_session_and_link
              (school [a_cpt (Some true); a_cpt None; a_lesson; untyped])
              (request_for "42" "3") nothing_yet
              {| training_sessions :=
                   Some [a_cpt (Some true); a_cpt None; a_lesson; untyped] |}
              UserInCourse 100)
    as (_ & Hcalls & Hsessions & Hlinks).
  - reflexivity.
  - reflexivity.
  - reflexivity.
  - reflexivity.
  - reflexivity.
  - reflexivity.
  - reflexivity.
  - cbv zeta. rewrite Hcalls, Hsessions, Hlinks. repeat split.
Defined.

End CPTAdminFacts.
